(** * Realtek Otto SerDes PHY driver (phy-rtl-otto-serdes.c): model and properties

    A shallow embedding of the register backends of the four SoC families
    (RTL838x, RTL839x, RTL930x, RTL931x), of the mode codec, of the event
    sequencer and of the lane operations built on them, followed by the
    properties established about them.  The reset entries, the debugfs
    files, the phy lookup and the probe function are not modelled.

    Conventions.  C's [u32] values are integers in [0, 2^32); every
    operation that can leave this range wraps explicitly.  A function that
    returns [int] returns a [Z] (errors are negative errno values).  The
    memory-mapped hardware is a device that answers 32 bit reads and accepts
    32 bit writes; every access, every sleep and every lock operation is
    recorded, in order, in a trace.  A lane handle ([struct phy] with its
    [struct rtsds_macro]) is given by the controller and the lane index
    [sid]. *)

From Stdlib Require Import ZArith List Bool Lia.
From coqutil Require Import Z.bitblast.
Import ListNotations.
Local Open Scope Z_scope.

(** ** C integers *)

Definition u32 (x : Z) : Z := x mod 2 ^ 32.

(** Conversion of a 32 bit pattern to [int]. *)
Definition s32 (x : Z) : Z :=
  let y := u32 x in if y <? 2 ^ 31 then y else y - 2 ^ 32.

Definition shl32 (x n : Z) : Z := u32 (Z.shiftl x n).
Definition shr32 (x n : Z) : Z := Z.shiftr (u32 x) n.
Definition not32 (x : Z) : Z := u32 (Z.lnot x).

(** [BIT(n)] of linux/bits.h. *)
Definition BIT (n : Z) : Z := Z.shiftl 1 n.

Definition EIO : Z := 5.
Definition EACCES : Z := 13.
Definition EINVAL : Z := 22.

(** ** Constants of phy-rtl-otto-serdes.h *)

Definition RTSDS_EVENT_SETUP : Z := 0.
Definition RTSDS_EVENT_INIT : Z := 1.
Definition RTSDS_EVENT_POWER_ON : Z := 2.
Definition RTSDS_EVENT_PRE_SET_MODE : Z := 3.
Definition RTSDS_EVENT_POST_SET_MODE : Z := 4.
Definition RTSDS_EVENT_PRE_RESET : Z := 5.
Definition RTSDS_EVENT_POST_RESET : Z := 6.
Definition RTSDS_EVENT_PRE_POWER_OFF : Z := 7.
Definition RTSDS_EVENT_POST_POWER_OFF : Z := 8.
Definition RTSDS_EVENT_MAX : Z := 8.

Definition RTSDS_SEQ_STOP : Z := 0.
Definition RTSDS_SEQ_MASK : Z := 1.
Definition RTSDS_SEQ_WAIT : Z := 2.

Definition RTSDS_SWITCH_ADDR_BASE : Z := 0xbb000000.
Definition RTSDS_REG (x : Z) : Z := RTSDS_SWITCH_ADDR_BASE + x.

Definition RTSDS_838X_MAX_SDS : Z := 5.
Definition RTSDS_838X_MAX_PAGE : Z := 3.
Definition RTSDS_838X_SDS_MODE_SEL : Z := RTSDS_REG 0x0028.
Definition RTSDS_838X_INT_MODE_CTRL : Z := RTSDS_REG 0x005c.

Definition RTSDS_839X_MAX_SDS : Z := 13.
Definition RTSDS_839X_MAX_PAGE : Z := 11.
Definition RTSDS_839X_MAC_SERDES_IF_CTRL : Z := RTSDS_REG 0x0008.

Definition RTSDS_930X_MAX_SDS : Z := 11.
Definition RTSDS_930X_MAX_PAGE : Z := 63.
Definition RTSDS_930X_SDS_MODE_SEL_0 : Z := RTSDS_REG 0x0194.
Definition RTSDS_930X_SDS_MODE_SEL_1 : Z := RTSDS_REG 0x02a0.
Definition RTSDS_930X_SDS_MODE_SEL_2 : Z := RTSDS_REG 0x02a4.
Definition RTSDS_930X_SDS_MODE_SEL_3 : Z := RTSDS_REG 0x0198.
Definition RTSDS_930X_SDS_SUBMODE_CTRL0 : Z := RTSDS_REG 0x01cc.
Definition RTSDS_930X_SDS_SUBMODE_CTRL1 : Z := RTSDS_REG 0x02d8.

Definition RTSDS_931X_MAX_SDS : Z := 13.
Definition RTSDS_931X_MAX_PAGE : Z := 191.
Definition RTSDS_931X_SERDES_MODE_CTRL : Z := RTSDS_REG 0x13cc.
Definition RTSDS_931X_PS_SERDES_OFF_MODE_CTRL : Z := RTSDS_REG 0x13f4.
Definition RTSDS_931X_SDS_FORCE_SETUP : Z := 0x80.

(** ** Mode codec: the three macros of the header *)

Definition RTSDS_COMBOMODE (mode submode : Z) : Z :=
  Z.lor (Z.lor 0x10000 (Z.shiftl mode 8)) submode.
Definition RTSDS_MODE (combomode : Z) : Z :=
  Z.land (Z.shiftr combomode 8) 0xff.
Definition RTSDS_SUBMODE (combomode : Z) : Z :=
  Z.land combomode 0xff.

(** ** Hardware: device, trace and the state monad of the backends *)

Inductive io_event : Type :=
| EvRead (addr : Z)
| EvWrite (addr val : Z)
| EvSleep (lo hi : Z)
| EvLock
| EvUnlock.

(** What sits behind the memory window.  A read may change the device (a
    latch is cleared, a bus command completes); a write hands over a 32 bit
    value. *)
Class Device (D : Type) : Type := {
  dev_read : D -> Z -> Z * D;
  dev_write : D -> Z -> Z -> D
}.

(** The part of [struct rtsds_ctrl] the backends work on: the mapped window
    [ctrl->base], the device behind it and the trace of what was done. *)
Record rtsds_io (D : Type) : Type := mk_io {
  io_base : Z;
  io_dev : D;
  io_trace : list io_event
}.
Arguments mk_io {D} _ _ _.
Arguments io_base {D} _.
Arguments io_dev {D} _.
Arguments io_trace {D} _.

Definition St (W A : Type) : Type := W -> A * W.

Definition ret {W A : Type} (a : A) : St W A := fun w => (a, w).
Definition bind {W A B : Type} (m : St W A) (k : A -> St W B) : St W B :=
  fun w => let (a, w') := m w in k a w'.

Declare Scope st_scope.
Delimit Scope st_scope with st.
Notation "x <- m ;; k" := (bind m (fun x => k))
  (at level 61, m at next level, right associativity) : st_scope.
Notation "m ;; k" := (bind m (fun _ => k))
  (at level 61, right associativity) : st_scope.
Local Open Scope st_scope.

Section Hardware.
Context {D : Type} `{Device D}.

Definition ctrl_base : St (rtsds_io D) Z := fun w => (io_base w, w).

Definition ioread32 (addr : Z) : St (rtsds_io D) Z := fun w =>
  let (v, d) := dev_read (io_dev w) addr in
  (u32 v, mk_io (io_base w) d (io_trace w ++ [EvRead addr])).

Definition iowrite32 (val addr : Z) : St (rtsds_io D) unit := fun w =>
  (tt, mk_io (io_base w) (dev_write (io_dev w) addr (u32 val))
             (io_trace w ++ [EvWrite addr (u32 val)])).

Definition usleep_range (lo hi : Z) : St (rtsds_io D) unit := fun w =>
  (tt, mk_io (io_base w) (io_dev w) (io_trace w ++ [EvSleep lo hi])).

(** [iomask32(mask, value, addr)]:
    [iowrite32((ioread32(addr) & ~(mask)) | (value), addr)]. *)
Definition iomask32 (mask value addr : Z) : St (rtsds_io D) unit :=
  old <- ioread32 addr ;;
  iowrite32 (Z.lor (Z.land old (not32 mask)) (u32 value)) addr.

(** The statement [if (c) ioread32(addr);] whose value is dropped. *)
Definition when_read (c : bool) (addr : Z) : St (rtsds_io D) unit :=
  if c then (_ <- ioread32 addr ;; ret tt) else ret tt.

(** *** RTL838x: registers mapped one per 32 bit word *)

Definition rtsds_838x_offset (sid page reg : Z) : Z :=
  if (page =? 0) || (page =? 3)
  then s32 (shl32 sid 9 + shl32 page 7 + shl32 reg 2)
  else s32 (0xb80 + shl32 sid 8 + shl32 page 7 + shl32 reg 2).

Definition rtsds_838x_read (sid page reg : Z) : St (rtsds_io D) Z :=
  if (sid >? RTSDS_838X_MAX_SDS) || (page >? RTSDS_838X_MAX_PAGE) || (reg >? 31)
  then ret (- EINVAL)
  else
    let offs := rtsds_838x_offset sid page reg in
    base <- ctrl_base ;;
    (* read twice for link status latch *)
    when_read ((page =? 2) && (reg =? 1)) (base + offs) ;;
    v <- ioread32 (base + offs) ;;
    ret (s32 v).

Definition rtsds_838x_mask (sid page reg val mask : Z) : St (rtsds_io D) Z :=
  if (sid >? RTSDS_838X_MAX_SDS) || (page >? RTSDS_838X_MAX_PAGE) || (reg >? 31)
  then ret (- EINVAL)
  else
    let offs := rtsds_838x_offset sid page reg in
    base <- ctrl_base ;;
    when_read ((page =? 2) && (reg =? 1)) (base + offs) ;;
    iomask32 mask val (base + offs) ;;
    ret 0.

Definition rtsds_838x_set_mode (sid combomode : Z) : St (rtsds_io D) Z :=
  let mode := RTSDS_MODE combomode in
  let submode := RTSDS_SUBMODE combomode in
  if sid >? RTSDS_838X_MAX_SDS then ret (- EINVAL)
  else
    (if (sid =? 4) || (sid =? 5)
     then
       let shift := s32 ((sid - 4) * 3) in
       iomask32 (shl32 0x7 shift) (shl32 (Z.land submode 0x7) shift)
                RTSDS_838X_INT_MODE_CTRL
     else ret tt) ;;
    let shift := s32 (25 - sid * 5) in
    iomask32 (shl32 0x1f shift) (shl32 (Z.land mode 0x1f) shift)
             RTSDS_838X_SDS_MODE_SEL ;;
    ret 0.

Definition rtsds_838x_get_mode (sid : Z) : St (rtsds_io D) Z :=
  if (sid <? 0) || (sid >? RTSDS_838X_MAX_SDS) then ret (- EINVAL)
  else
    submode <-
      (if (sid =? 4) || (sid =? 5)
       then
         let shift := s32 ((sid - 4) * 3) in
         v <- ioread32 RTSDS_838X_INT_MODE_CTRL ;;
         ret (Z.land (shr32 v shift) 0x7)
       else ret 0) ;;
    let shift := s32 (25 - sid * 5) in
    v <- ioread32 RTSDS_838X_SDS_MODE_SEL ;;
    let mode := Z.land (shr32 v shift) 0x1f in
    ret (RTSDS_COMBOMODE mode submode).

(** *** RTL839x: two registers per 32 bit word, adjacent lanes coupled *)

Definition rtsds_839x_offset (sid page reg : Z) : Z :=
  let offs := s32 (shl32 (Z.land sid 0xfe) 9 + shl32 (Z.land reg 0xfe) 1) in
  if page <? 4 then
    s32 (offs + (shl32 (Z.land sid 1) 8 + shl32 page 6))
  else if page <? 8 then
    if negb (sid =? 8) && negb (sid =? 12) then -1
    else s32 (offs + (0x100 + shl32 page 6))
  else if page <? 10 then
    if (sid =? 8) || (sid =? 9) || (sid =? 12) || (sid =? 13) then -1
    else s32 (offs + (0x100 + shl32 (Z.land sid 1) 7 + shl32 page 6))
  else
    if negb (sid =? 8) && negb (sid =? 9) && negb (sid =? 12) && negb (sid =? 13)
    then -1
    else s32 (offs + (0x100 + shl32 (Z.land sid 1) 7 + shl32 (u32 (page - 2)) 6)).

Definition rtsds_839x_read (sid page reg : Z) : St (rtsds_io D) Z :=
  let shift := s32 (Z.land (shl32 reg 4) 0x10) in
  if (sid >? RTSDS_839X_MAX_SDS) || (page >? RTSDS_839X_MAX_PAGE) || (reg >? 31)
  then ret (- EINVAL)
  else
    let offs := rtsds_839x_offset sid page reg in
    if offs <? 0 then ret 0
    else
      base <- ctrl_base ;;
      (* read twice for link status latch *)
      when_read ((page =? 2) && (reg =? 1)) (base + offs) ;;
      v <- ioread32 (base + offs) ;;
      ret (s32 (Z.land (shr32 v shift) 0xffff)).

Definition rtsds_839x_mask (sid page reg val mask : Z) : St (rtsds_io D) Z :=
  if (sid >? RTSDS_839X_MAX_SDS) || (page >? RTSDS_839X_MAX_PAGE) || (reg >? 31)
  then ret (- EINVAL)
  else
    let offs := rtsds_839x_offset sid page reg in
    if offs <? 0 then ret 0
    else
      base <- ctrl_base ;;
      when_read ((page =? 2) && (reg =? 1)) (base + offs) ;;
      v <- ioread32 (base + offs) ;;
      let oldval := s32 v in
      let val' :=
        if negb (Z.land reg 1 =? 0)
        then Z.lor (Z.land (u32 oldval) (not32 (shl32 mask 16))) (shl32 val 16)
        else Z.lor (Z.land (u32 oldval) (not32 mask)) val in
      iowrite32 val' (base + offs) ;;
      ret 0.

Definition rtsds_839x_set_mode (sid combomode : Z) : St (rtsds_io D) Z :=
  let shift := s32 (shl32 (Z.land sid 7) 2) in
  let offs := s32 (Z.land (shr32 sid 1) (not32 3)) in
  let mode := RTSDS_MODE combomode in
  let submode := RTSDS_SUBMODE combomode in
  if sid >? RTSDS_839X_MAX_SDS then ret (- EINVAL)
  else
    _ <- rtsds_839x_mask sid 0 4 (Z.land (shl32 submode 12) 0xf000) 0xf000 ;;
    iomask32 (shl32 0xf shift) (shl32 (Z.land mode 0xf) shift)
             (RTSDS_839X_MAC_SERDES_IF_CTRL + offs) ;;
    ret 0.

Definition rtsds_839x_get_mode (sid : Z) : St (rtsds_io D) Z :=
  let shift := s32 (shl32 (Z.land sid 7) 2) in
  let offs := s32 (Z.land (shr32 sid 1) (not32 3)) in
  if sid >? RTSDS_839X_MAX_SDS then ret (- EINVAL)
  else
    r <- rtsds_839x_read sid 0 4 ;;
    let submode := Z.land (Z.shiftr r 12) 0xf in
    v <- ioread32 (RTSDS_839X_MAC_SERDES_IF_CTRL + offs) ;;
    let mode := Z.land (shr32 v shift) 0xf in
    ret (RTSDS_COMBOMODE mode submode).

(** *** RTL930x: an indirect command/status channel that is polled *)

(** The loop [while (--cnt && (ioread32(ctrl->base) & 1)) usleep_range(50, 60);]
    shared by the four functions of the indirect families.  The argument
    is the counter before the decrement (it starts at 100 and only goes
    down to 0, so it is a natural number, and the case [O] is not
    reached); the result is the counter when the loop is left. *)
Fixpoint rtsds_wait_idle (cnt : nat) : St (rtsds_io D) nat :=
  match cnt with
  | O => ret O
  | S O => ret O
  | S c =>
      base <- ctrl_base ;;
      v <- ioread32 base ;;
      if negb (Z.land v 1 =? 0)
      then usleep_range 50 60 ;; rtsds_wait_idle c
      else ret c
  end.

(** [(sid << 2) | (page << 7) | (reg << 13) | op], with [op] 1 for a
    read command and 3 for a write command. *)
Definition rtsds_930x_cmd (sid page reg op : Z) : Z :=
  Z.lor (Z.lor (Z.lor (shl32 sid 2) (shl32 page 7)) (shl32 reg 13)) op.

Definition rtsds_930x_read (sid page reg : Z) : St (rtsds_io D) Z :=
  let cmd := rtsds_930x_cmd sid page reg 1 in
  if (sid >? RTSDS_930X_MAX_SDS) || (page >? RTSDS_930X_MAX_PAGE) || (reg >? 31)
  then ret (- EINVAL)
  else
    base <- ctrl_base ;;
    iowrite32 cmd base ;;
    cnt <- rtsds_wait_idle 100 ;;
    match cnt with
    | O => ret (- EIO)
    | _ => v <- ioread32 (base + 4) ;; ret (Z.land v 0xffff)
    end.

Definition rtsds_930x_mask (sid page reg val mask : Z) : St (rtsds_io D) Z :=
  let cmd := rtsds_930x_cmd sid page reg 3 in
  if (sid >? RTSDS_930X_MAX_SDS) || (page >? RTSDS_930X_MAX_PAGE) || (reg >? 31)
  then ret (- EINVAL)
  else
    merged <-
      (if negb (mask =? 0xffff)
       then
         oldval <- rtsds_930x_read sid page reg ;;
         if oldval <? 0 then ret None
         else ret (Some (Z.lor val (Z.land (u32 oldval) (not32 mask))))
       else ret (Some val)) ;;
    match merged with
    | None => ret (- EIO)
    | Some val' =>
        base <- ctrl_base ;;
        iowrite32 val' (base + 4) ;;
        iowrite32 cmd base ;;
        cnt <- rtsds_wait_idle 100 ;;
        match cnt with
        | O => ret (- EIO)
        | _ => ret 0
        end
    end.

(** The four out-parameters, as (modereg, modeshift, subreg, subshift).
    For lanes 0 and 1 the submode shift is negative (-10 and -5) and for
    lane 11 it is 35; shifting a 32 bit value by such a count is undefined
    in C.  Here [Z.shiftl] by a negative count shifts right and a count
    of 35 moves the field out of the 32 bits, so the submode field is
    empty for these lanes, where compiled code that takes the count
    modulo 32 would touch submode bits of other lanes.  Every statement
    below about the values written or read through the submode field is
    made for lanes 2 to 9; the others are about return values and
    addresses only. *)
Definition rtsds_930x_mode_offset (sid : Z) : Z * Z * Z * Z :=
  let (subreg, subshift) :=
    if sid >? 3 then (RTSDS_930X_SDS_SUBMODE_CTRL1, (sid - 4) * 5)
    else (RTSDS_930X_SDS_SUBMODE_CTRL0, (sid - 2) * 5) in
  let (modereg, modeshift) :=
    if sid <? 4 then (RTSDS_930X_SDS_MODE_SEL_0, sid * 6)
    else if sid <? 8 then (RTSDS_930X_SDS_MODE_SEL_1, (sid - 4) * 6)
    else if sid <? 10 then (RTSDS_930X_SDS_MODE_SEL_2, (sid - 8) * 6)
    else (RTSDS_930X_SDS_MODE_SEL_3, (sid - 10) * 6) in
  (modereg, modeshift, subreg, subshift).

Definition rtsds_930x_set_mode (sid combomode : Z) : St (rtsds_io D) Z :=
  let mode := RTSDS_MODE combomode in
  let submode := RTSDS_SUBMODE combomode in
  if sid >? RTSDS_930X_MAX_SDS then ret (- EINVAL)
  else
    let '(modereg, modeshift, subreg, subshift) :=
      rtsds_930x_mode_offset (s32 sid) in
    (if (sid >=? 2) || (sid <=? 9)
     then iomask32 (shl32 0x1f subshift) (shl32 (Z.land submode 0x1f) subshift)
                   subreg
     else ret tt) ;;
    iomask32 (shl32 0x1f modeshift) (shl32 (Z.land mode 0x1f) modeshift)
             modereg ;;
    ret 0.

Definition rtsds_930x_get_mode (sid : Z) : St (rtsds_io D) Z :=
  if sid >? RTSDS_930X_MAX_SDS then ret (- EINVAL)
  else
    let '(modereg, modeshift, subreg, subshift) :=
      rtsds_930x_mode_offset (s32 sid) in
    submode <-
      (if (sid >=? 2) || (sid <=? 9)
       then v <- ioread32 subreg ;; ret (Z.land (shr32 v subshift) 0x1f)
       else ret 0) ;;
    v <- ioread32 modereg ;;
    let mode := Z.land (shr32 v modeshift) 0x1f in
    ret (RTSDS_COMBOMODE mode submode).

(** *** RTL931x: the same channel, with frontend lanes spread over
    background lanes *)

Definition rtsds_931x_backsid (sid page : Z) : Z :=
  let map := [0; 1; 2; 3; 6; 7; 10; 11; 14; 15; 18; 19; 22; 23] in
  let backsid := nth (Z.to_nat sid) map 0 in
  if negb (Z.land sid 1 =? 0) && negb (sid =? 1)
  then s32 (backsid + shr32 page 6)
  else if page >=? 128 then backsid + 1
  else backsid.

Definition rtsds_931x_cmd (backsid page reg op : Z) : Z :=
  Z.lor (Z.lor (Z.lor (shl32 backsid 2) (shl32 (Z.land page 0x3f) 7))
               (shl32 reg 13)) op.

Definition rtsds_931x_read (sid page reg : Z) : St (rtsds_io D) Z :=
  if (sid >? RTSDS_931X_MAX_SDS) || (page >? RTSDS_931X_MAX_PAGE) || (reg >? 31)
  then ret (- EINVAL)
  else
    let backsid := rtsds_931x_backsid sid page in
    let cmd := rtsds_931x_cmd backsid page reg 1 in
    base <- ctrl_base ;;
    iowrite32 cmd base ;;
    cnt <- rtsds_wait_idle 100 ;;
    match cnt with
    | O => ret (- EIO)
    | _ => v <- ioread32 (base + 4) ;; ret (Z.land v 0xffff)
    end.

Definition rtsds_931x_mask (sid page reg val mask : Z) : St (rtsds_io D) Z :=
  if (sid >? RTSDS_931X_MAX_SDS) || (page >? RTSDS_931X_MAX_PAGE) || (reg >? 31)
  then ret (- EINVAL)
  else
    let backsid := rtsds_931x_backsid sid page in
    let cmd := rtsds_931x_cmd backsid page reg 3 in
    merged <-
      (if negb (mask =? 0xffff)
       then
         oldval <- rtsds_931x_read sid page reg ;;
         if oldval <? 0 then ret None
         else ret (Some (Z.lor val (Z.land (u32 oldval) (not32 mask))))
       else ret (Some val)) ;;
    match merged with
    | None => ret (- EIO)
    | Some val' =>
        base <- ctrl_base ;;
        iowrite32 val' (base + 4) ;;
        iowrite32 cmd base ;;
        cnt <- rtsds_wait_idle 100 ;;
        match cnt with
        | O => ret (- EIO)
        | _ => ret 0
        end
    end.

Definition rtsds_931x_set_mode (sid combomode : Z) : St (rtsds_io D) Z :=
  let shift := s32 (shl32 (Z.land sid 3) 3) in
  let offs := s32 (Z.land sid (not32 3)) in
  let mode := RTSDS_MODE combomode in
  let submode := RTSDS_SUBMODE combomode in
  if sid >? RTSDS_931X_MAX_SDS then ret (- EINVAL)
  else
    _ <- rtsds_931x_mask sid 31 9 (Z.land submode (Z.shiftl 0x3f 6)) 0x0fc0 ;;
    iomask32 (shl32 0xff shift)
             (shl32 (Z.land (Z.lor mode RTSDS_931X_SDS_FORCE_SETUP) 0xff) shift)
             (RTSDS_931X_SERDES_MODE_CTRL + offs) ;;
    ret 0.

Definition rtsds_931x_get_mode (sid : Z) : St (rtsds_io D) Z :=
  let shift := s32 (shl32 (Z.land sid 3) 3) in
  let offs := s32 (Z.land sid (not32 3)) in
  if sid >? RTSDS_931X_MAX_SDS then ret (- EINVAL)
  else
    r <- rtsds_931x_read sid 31 9 ;;
    let submode := Z.land (Z.shiftr r 6) 0x3f in
    v <- ioread32 (RTSDS_931X_SERDES_MODE_CTRL + offs) ;;
    let mode := Z.land (shr32 v shift) 0x1f in
    ret (RTSDS_COMBOMODE mode submode).

End Hardware.

(** ** Portable interface modes *)

(** Modelled from the spec: the portable interface-mode symbols, with the
    "not applicable" symbol first and the count of symbols as the marker
    for "no match".  They are the kernel's [phy_interface_t]
    (include/linux/phy.h), which the driver includes and these sources do
    not contain; the symbols the four tables name are numbered as in that
    header for Linux 6.6.  The general statements below hold for any
    numbering. *)
Definition PHY_INTERFACE_MODE_NA : Z := 0.
Definition PHY_INTERFACE_MODE_INTERNAL : Z := 1.
Definition PHY_INTERFACE_MODE_SGMII : Z := 4.
Definition PHY_INTERFACE_MODE_XGMII : Z := 15.
Definition PHY_INTERFACE_MODE_QSGMII : Z := 19.
Definition PHY_INTERFACE_MODE_100BASEX : Z := 21.
Definition PHY_INTERFACE_MODE_1000BASEX : Z := 22.
Definition PHY_INTERFACE_MODE_2500BASEX : Z := 23.
Definition PHY_INTERFACE_MODE_10GBASER : Z := 27.
Definition PHY_INTERFACE_MODE_USXGMII : Z := 29.
Definition PHY_INTERFACE_MODE_QUSGMII : Z := 31.
Definition PHY_INTERFACE_MODE_MAX : Z := 33.

(** A table given by designated initializers [[index] = value]: the
    entries that are not named are zero. *)
Definition designated (inits : list (Z * Z)) : list Z :=
  map (fun m =>
         match find (fun e => fst e =? Z.of_nat m) inits with
         | Some e => snd e
         | None => 0
         end)
      (seq 0 (Z.to_nat PHY_INTERFACE_MODE_MAX)).

(** ** Controller data *)

(** One step of an event script ([struct rtsds_seq], six u16 fields). *)
Record rtsds_seq : Type := mk_seq {
  seq_action : Z;
  seq_ports : Z;
  seq_page : Z;
  seq_reg : Z;
  seq_val : Z;
  seq_mask : Z
}.

(** [struct rtsds_sds] without the [phy] pointer. *)
Record rtsds_sds : Type := mk_sds {
  sds_mode : Z;
  sds_link : Z;
  sds_min_port : Z;
  sds_max_port : Z
}.

(** [struct rtsds_conf].  The entries take the window and device where the
    C functions take [ctrl]; the [reset] entry is not part of the model. *)
Record rtsds_conf (D : Type) : Type := mk_conf {
  max_sds : Z;
  max_page : Z;
  conf_read : Z -> Z -> Z -> St (rtsds_io D) Z;
  conf_mask : Z -> Z -> Z -> Z -> Z -> St (rtsds_io D) Z;
  conf_set_mode : Z -> Z -> St (rtsds_io D) Z;
  conf_get_mode : Z -> St (rtsds_io D) Z;
  mode_map : list Z
}.
Arguments mk_conf {D} _ _ _ _ _ _ _.
Arguments max_sds {D} _.
Arguments max_page {D} _.
Arguments conf_read {D} _ _ _ _.
Arguments conf_mask {D} _ _ _ _ _ _.
Arguments conf_set_mode {D} _ _ _.
Arguments conf_get_mode {D} _ _.
Arguments mode_map {D} _.

(** [struct rtsds_ctrl].  [sequence] holds, per event, the records read
    from the device tree ([None] for a NULL pointer); [sds] is the lane
    table, declared with [RTSDS_930X_MAX_SDS + 1] entries. *)
Record rtsds_ctrl (D : Type) : Type := mk_ctrl {
  ctrl_io : rtsds_io D;
  sds_mask : Z;
  conf : rtsds_conf D;
  sds : list rtsds_sds;
  sequence : list (option (list rtsds_seq))
}.
Arguments mk_ctrl {D} _ _ _ _ _.
Arguments ctrl_io {D} _.
Arguments sds_mask {D} _.
Arguments conf {D} _.
Arguments sds {D} _.
Arguments sequence {D} _.

Section Families.
Context {D : Type} `{Device D}.

Definition rtsds_838x_conf : rtsds_conf D :=
  mk_conf RTSDS_838X_MAX_SDS RTSDS_838X_MAX_PAGE
    rtsds_838x_read rtsds_838x_mask rtsds_838x_set_mode rtsds_838x_get_mode
    (designated
       [ (PHY_INTERFACE_MODE_NA, RTSDS_COMBOMODE 0 0);
         (PHY_INTERFACE_MODE_1000BASEX, RTSDS_COMBOMODE 4 1);
         (PHY_INTERFACE_MODE_100BASEX, RTSDS_COMBOMODE 5 1);
         (PHY_INTERFACE_MODE_QSGMII, RTSDS_COMBOMODE 6 0) ]).

Definition rtsds_839x_conf : rtsds_conf D :=
  mk_conf RTSDS_839X_MAX_SDS RTSDS_839X_MAX_PAGE
    rtsds_839x_read rtsds_839x_mask rtsds_839x_set_mode rtsds_839x_get_mode
    (designated
       [ (PHY_INTERFACE_MODE_NA, RTSDS_COMBOMODE 0 0);
         (PHY_INTERFACE_MODE_10GBASER, RTSDS_COMBOMODE 1 0);
         (PHY_INTERFACE_MODE_1000BASEX, RTSDS_COMBOMODE 7 0);
         (PHY_INTERFACE_MODE_100BASEX, RTSDS_COMBOMODE 8 0);
         (PHY_INTERFACE_MODE_QSGMII, RTSDS_COMBOMODE 6 0);
         (PHY_INTERFACE_MODE_SGMII, RTSDS_COMBOMODE 7 5) ]).

Definition rtsds_930x_conf : rtsds_conf D :=
  mk_conf RTSDS_930X_MAX_SDS RTSDS_930X_MAX_PAGE
    rtsds_930x_read rtsds_930x_mask rtsds_930x_set_mode rtsds_930x_get_mode
    (designated
       [ (PHY_INTERFACE_MODE_NA, RTSDS_COMBOMODE 31 0);
         (PHY_INTERFACE_MODE_10GBASER, RTSDS_COMBOMODE 26 0);
         (PHY_INTERFACE_MODE_2500BASEX, RTSDS_COMBOMODE 22 0);
         (PHY_INTERFACE_MODE_1000BASEX, RTSDS_COMBOMODE 4 0);
         (PHY_INTERFACE_MODE_USXGMII, RTSDS_COMBOMODE 13 0);
         (PHY_INTERFACE_MODE_QUSGMII, RTSDS_COMBOMODE 13 2);
         (PHY_INTERFACE_MODE_QSGMII, RTSDS_COMBOMODE 6 0) ]).

Definition rtsds_931x_conf : rtsds_conf D :=
  mk_conf RTSDS_931X_MAX_SDS RTSDS_931X_MAX_PAGE
    rtsds_931x_read rtsds_931x_mask rtsds_931x_set_mode rtsds_931x_get_mode
    (designated
       [ (PHY_INTERFACE_MODE_NA, RTSDS_COMBOMODE 31 63);
         (PHY_INTERFACE_MODE_10GBASER, RTSDS_COMBOMODE 31 53);
         (PHY_INTERFACE_MODE_1000BASEX, RTSDS_COMBOMODE 31 57);
         (PHY_INTERFACE_MODE_USXGMII, RTSDS_COMBOMODE 13 0);
         (PHY_INTERFACE_MODE_XGMII, RTSDS_COMBOMODE 16 0);
         (PHY_INTERFACE_MODE_QSGMII, RTSDS_COMBOMODE 6 0) ]).

(** The four entries of [rtsds_compatible_ids]. *)
Definition rtsds_families : list (rtsds_conf D) :=
  [rtsds_838x_conf; rtsds_839x_conf; rtsds_930x_conf; rtsds_931x_conf].

End Families.

(** ** Sequencer *)

(** The records of one device tree property, six u16 cells each. *)
Fixpoint rtsds_parse_seq (fuel : nat) (cells : list Z) : list rtsds_seq :=
  match fuel, cells with
  | S n, a :: p :: pg :: r :: v :: m :: rest =>
      mk_seq a p pg r v m :: rtsds_parse_seq n rest
  | _, _ => []
  end.

(** One round of the loop of [rtsds_load_events]: [None] stands for a
    property that is absent or empty.  The array is allocated zeroed and
    one record longer than the data, so what follows the loaded records is
    a record whose action is [RTSDS_SEQ_STOP]: it is not stored in the
    list, the sequencer reads it when the list is exhausted. *)
Definition rtsds_load_event (prop : option (list Z)) : option (list rtsds_seq) :=
  match prop with
  | None => None
  | Some cells =>
      let elems := Z.of_nat (length cells) in
      if elems <=? 0 then None
      else if negb ((elems * 2) mod 12 =? 0) then None
      else Some (rtsds_parse_seq (length cells) cells)
  end.

Definition seq_applies (s : rtsds_seq) (sid : Z) : bool :=
  negb (Z.land (seq_ports s) (BIT sid) =? 0).

Section Controller.
Context {D : Type} `{Device D}.

(** Run a backend computation on the controller's window. *)
Definition on_io {A : Type} (m : St (rtsds_io D) A) : St (rtsds_ctrl D) A :=
  fun c =>
    let (a, w) := m (ctrl_io c) in
    (a, mk_ctrl w (sds_mask c) (conf c) (sds c) (sequence c)).

Definition mutex_lock : St (rtsds_ctrl D) unit := fun c =>
  let w := ctrl_io c in
  (tt, mk_ctrl (mk_io (io_base w) (io_dev w) (io_trace w ++ [EvLock]))
               (sds_mask c) (conf c) (sds c) (sequence c)).

Definition mutex_unlock : St (rtsds_ctrl D) unit := fun c =>
  let w := ctrl_io c in
  (tt, mk_ctrl (mk_io (io_base w) (io_dev w) (io_trace w ++ [EvUnlock]))
               (sds_mask c) (conf c) (sds c) (sequence c)).

(** [if (delay) usleep_range(delay << 10, (delay << 10) + 1000);] *)
Definition rtsds_delay_sleep (delay : Z) : St (rtsds_io D) unit :=
  if negb (delay =? 0)
  then usleep_range (Z.shiftl delay 10) (Z.shiftl delay 10 + 1000)
  else ret tt.

(** The [while] loop of [rtsds_run_event], from the record [seq] points
    to, with the current value of [delay]. *)
Fixpoint rtsds_run_steps (cf : rtsds_conf D) (sid : Z)
         (seq : list rtsds_seq) (delay : Z) : St (rtsds_io D) Z :=
  match seq with
  | [] => ret 0
  | s :: rest =>
      if seq_action s =? RTSDS_SEQ_STOP then ret 0
      else
        let delay :=
          if (seq_action s =? RTSDS_SEQ_WAIT) && seq_applies s sid
          then seq_val s else delay in
        rtsds_delay_sleep delay ;;
        if (seq_action s =? RTSDS_SEQ_MASK) && seq_applies s sid
        then
          r <- conf_mask cf sid (seq_page s) (seq_reg s) (seq_val s) (seq_mask s) ;;
          if negb (r =? 0) then ret (- EIO)
          else rtsds_run_steps cf sid rest delay
        else rtsds_run_steps cf sid rest delay
  end.

Definition rtsds_run_event (sid evt : Z) : St (rtsds_ctrl D) Z := fun c =>
  if (evt >? RTSDS_EVENT_MAX) || (sid >? max_sds (conf c))
  then (- EINVAL, c)
  else
    match nth (Z.to_nat evt) (sequence c) None with
    | None => (0, c)
    | Some seq => on_io (rtsds_run_steps (conf c) sid seq 0) c
    end.

Definition rtsds_hwmode_to_phymode (c : rtsds_ctrl D) (hwmode : Z) : Z :=
  match find (fun m => nth m (mode_map (conf c)) 0 =? hwmode)
             (seq 0 (Z.to_nat PHY_INTERFACE_MODE_MAX)) with
  | Some m => Z.of_nat m
  | None => PHY_INTERFACE_MODE_MAX
  end.

(** ** Lane handle *)

Definition managed (c : rtsds_ctrl D) (sid : Z) : bool :=
  negb (Z.land (sds_mask c) (BIT sid) =? 0).

Definition rtsds_read (sid page reg : Z) : St (rtsds_ctrl D) Z := fun c =>
  on_io (conf_read (conf c) sid page reg) c.

Definition rtsds_mask (sid page reg val mask : Z) : St (rtsds_ctrl D) Z := fun c =>
  if negb (managed c sid) then (- EACCES, c)
  else on_io (conf_mask (conf c) sid page reg val mask) c.

Definition rtsds_write (sid page reg val : Z) : St (rtsds_ctrl D) Z :=
  rtsds_mask sid page reg val 0xffff.

(** [ctrl->sds[sid].mode = phymode].  The assignment is defined for the
    entries the table has.  For a larger [sid] (lanes 12 and 13 of the
    RTL839x and RTL931x, the table having twelve entries) the C store is
    outside the array, which is undefined; in the compiled structure it
    falls on [sequence], the member that follows.  The list is left as it
    is then, and every statement about a table after a store is made for
    a lane inside the table. *)
Fixpoint sds_store_mode (l : list rtsds_sds) (n : nat) (phymode : Z)
  : list rtsds_sds :=
  match l, n with
  | [], _ => []
  | x :: r, O =>
      mk_sds phymode (sds_link x) (sds_min_port x) (sds_max_port x) :: r
  | x :: r, S k => x :: sds_store_mode r k phymode
  end.

Definition set_sds_mode (sid phymode : Z) : St (rtsds_ctrl D) unit := fun c =>
  (tt, mk_ctrl (ctrl_io c) (sds_mask c) (conf c)
               (sds_store_mode (sds c) (Z.to_nat sid) phymode) (sequence c)).

Definition rtsds_phy_init (sid : Z) : St (rtsds_ctrl D) Z := fun c =>
  if negb (managed c sid) then (0, c)
  else
    (mutex_lock ;;
     r <- rtsds_run_event sid RTSDS_EVENT_INIT ;;
     mutex_unlock ;;
     ret r) c.

Definition rtsds_phy_power_on (sid : Z) : St (rtsds_ctrl D) Z := fun c =>
  if negb (managed c sid) then (0, c)
  else
    (mutex_lock ;;
     r <- rtsds_run_event sid RTSDS_EVENT_POWER_ON ;;
     mutex_unlock ;;
     ret r) c.

Definition rtsds_phy_power_off (sid : Z) : St (rtsds_ctrl D) Z := fun c =>
  if negb (managed c sid) then (0, c)
  else
    (mutex_lock ;;
     r <- rtsds_run_event sid RTSDS_EVENT_PRE_POWER_OFF ;;
     r <- (if r =? 0
           then on_io (conf_set_mode (conf c) sid
                         (nth (Z.to_nat PHY_INTERFACE_MODE_NA) (mode_map (conf c)) 0))
           else ret r) ;;
     r <- (if r =? 0 then rtsds_run_event sid RTSDS_EVENT_POST_POWER_OFF
           else ret r) ;;
     mutex_unlock ;;
     ret r) c.

Definition rtsds_phy_set_mode_int (sid phymode hwmode : Z) : St (rtsds_ctrl D) Z :=
  fun c =>
    (mutex_lock ;;
     r <- rtsds_run_event sid RTSDS_EVENT_PRE_SET_MODE ;;
     r <- (if r =? 0 then on_io (conf_set_mode (conf c) sid hwmode) else ret r) ;;
     r <- (if r =? 0
           then set_sds_mode sid phymode ;;
                rtsds_run_event sid RTSDS_EVENT_POST_SET_MODE
           else ret r) ;;
     mutex_unlock ;;
     ret r) c.

(** [mode] is an [enum phy_mode] of linux/phy/phy.h; the value of
    [PHY_MODE_ETHERNET] is a parameter. *)
Definition rtsds_phy_set_mode (PHY_MODE_ETHERNET : Z) (sid mode submode : Z)
  : St (rtsds_ctrl D) Z := fun c =>
  if negb (managed c sid) then (0, c)
  else if negb (mode =? PHY_MODE_ETHERNET) then (- EINVAL, c)
  else rtsds_phy_set_mode_int sid submode
         (nth (Z.to_nat submode) (mode_map (conf c)) 0) c.

End Controller.

(** ** Concrete devices *)

(** Plain memory: a read returns what was last written to the address. *)
Definition ram : Type := Z -> Z.

#[export] Instance ram_device : Device ram := {
  dev_read := fun m a => (m a, m);
  dev_write := fun m a v => fun x => if x =? a then v else m x
}.

(** A bus that never finishes a command: every read has bit 0 set. *)
Inductive stuck_bus : Type := Stuck.

#[export] Instance stuck_device : Device stuck_bus := {
  dev_read := fun d _ => (1, d);
  dev_write := fun d _ _ => d
}.

(** A bus that finishes every command at once: every read is 0. *)
Inductive idle_bus : Type := Idle.

#[export] Instance idle_device : Device idle_bus := {
  dev_read := fun d _ => (0, d);
  dev_write := fun d _ _ => d
}.

Definition ram_zero : ram := fun _ => 0.

Definition io_zero : rtsds_io ram := mk_io 0xbb00e780 ram_zero [].
Definition io_stuck : rtsds_io stuck_bus := mk_io 0xbb0003b0 Stuck [].

Definition sds_off : rtsds_sds := mk_sds PHY_INTERFACE_MODE_NA (-1) (-1) (-1).

(** A controller with the given backend, managed lanes and the script of
    every event; the lane table has its twelve entries. *)
Definition ctrl_with {D : Type} (w : rtsds_io D) (cf : rtsds_conf D)
           (managed_lanes : Z) (scripts : list (option (list rtsds_seq)))
  : rtsds_ctrl D :=
  mk_ctrl w managed_lanes cf (repeat sds_off 12) scripts.

(** ** What a run does, step by step *)

(** The operations a run issues: a sleep of the current delay, or one call
    of the backend's mask entry. *)
Inductive seq_op : Type :=
| OpSleep (delay : Z)
| OpModify (page reg val mask : Z).

Definition is_wait (sid : Z) (s : rtsds_seq) : bool :=
  (seq_action s =? RTSDS_SEQ_WAIT) && seq_applies s sid.

Definition is_modify (sid : Z) (s : rtsds_seq) : bool :=
  (seq_action s =? RTSDS_SEQ_MASK) && seq_applies s sid.

(** The steps in front of the first STOP. *)
Fixpoint before_stop (seq : list rtsds_seq) : list rtsds_seq :=
  match seq with
  | [] => []
  | s :: rest =>
      if seq_action s =? RTSDS_SEQ_STOP then [] else s :: before_stop rest
  end.

(** The delay requested by the last applicable WAIT among [steps], and
    [d] when there is none. *)
Definition delay_of (sid : Z) (d : Z) (steps : list rtsds_seq) : Z :=
  last (map seq_val (filter (is_wait sid) steps)) d.

(** What step [s] issues when [delay] is the delay in force at it. *)
Definition ops_of_step (sid : Z) (delay : Z) (s : rtsds_seq) : list seq_op :=
  (if delay =? 0 then [] else [OpSleep delay]) ++
  (if is_modify sid s
   then [OpModify (seq_page s) (seq_reg s) (seq_val s) (seq_mask s)]
   else []).

(** The operations of a whole script for lane [sid], entered with delay
    [d]: step [k] sleeps the delay of the last applicable WAIT among the
    steps 0..k, then modifies if it is an applicable MODIFY. *)
Definition rtsds_plan_from (sid : Z) (d : Z) (seq : list rtsds_seq) : list seq_op :=
  let live := before_stop seq in
  concat (map (fun k => ops_of_step sid (delay_of sid d (firstn (S k) live))
                                    (nth k live (mk_seq 0 0 0 0 0 0)))
              (List.seq 0 (length live))).

Definition rtsds_plan (sid : Z) (seq : list rtsds_seq) : list seq_op :=
  rtsds_plan_from sid 0 seq.

(** The sequencer as the words of the specification describe it: an
    applicable WAIT adds its delay to a pending delay; the pending delay
    is slept once, before the next applicable MODIFY, and is then used up. *)
Fixpoint spec_plan_from (sid : Z) (pending : Z) (seq : list rtsds_seq)
  : list seq_op :=
  match seq with
  | [] => []
  | s :: rest =>
      if seq_action s =? RTSDS_SEQ_STOP then []
      else if is_wait sid s then spec_plan_from sid (pending + seq_val s) rest
      else if is_modify sid s then
        (if pending =? 0 then [] else [OpSleep pending]) ++
        OpModify (seq_page s) (seq_reg s) (seq_val s) (seq_mask s)
          :: spec_plan_from sid 0 rest
      else spec_plan_from sid pending rest
  end.

Definition spec_plan (sid : Z) (seq : list rtsds_seq) : list seq_op :=
  spec_plan_from sid 0 seq.

(** The pair the specification calls unpack. *)
Definition rtsds_unpack (combomode : Z) : Z * Z :=
  (RTSDS_MODE combomode, RTSDS_SUBMODE combomode).

(** Half [h] (0: low, 1: high) of a 32 bit word.  On the RTL839x register
    [reg] lives in half [reg & 1] of its word and its neighbour [reg ^ 1]
    in the other half. *)
Definition half_word (h : Z) (word : Z) : Z :=
  Z.land (Z.shiftr word (16 * h)) 0xffff.

Definition is_read_of (addr : Z) (e : io_event) : bool :=
  match e with
  | EvRead a => a =? addr
  | _ => false
  end.

Definition is_lock (e : io_event) : bool :=
  match e with
  | EvLock => true
  | _ => false
  end.

(** [n] rounds of the polling loop: a read of the command register, found
    busy, and the sleep that follows it. *)
Definition busy_polls (base : Z) (n : nat) : list io_event :=
  concat (repeat [EvRead base; EvSleep 50 60] n).

(** How often the trace reads [addr]. *)
Definition count_reads (addr : Z) (t : list io_event) : nat :=
  length (filter (is_read_of addr) t).

Section Plans.
Context {D : Type} `{Device D}.

(** Issue the operations in order; a failing modify ends the run. *)
Fixpoint exec_plan (cf : rtsds_conf D) (sid : Z) (ops : list seq_op)
  : St (rtsds_io D) Z :=
  match ops with
  | [] => ret 0
  | OpSleep d :: rest =>
      usleep_range (Z.shiftl d 10) (Z.shiftl d 10 + 1000) ;;
      exec_plan cf sid rest
  | OpModify page reg val mask :: rest =>
      r <- conf_mask cf sid page reg val mask ;;
      if negb (r =? 0) then ret (- EIO) else exec_plan cf sid rest
  end.

(** What the backend's mode change returned during a [set_mode]
    transition: [None] when the transition did not get to the call. *)
Definition set_mode_outcome (c : rtsds_ctrl D) (sid hwmode : Z) : option Z :=
  let (r1, c2) := rtsds_run_event sid RTSDS_EVENT_PRE_SET_MODE (snd (mutex_lock c)) in
  if r1 =? 0
  then Some (fst (on_io (conf_set_mode (conf c) sid hwmode) c2))
  else None.

End Plans.

Definition lane_mode {D : Type} (c : rtsds_ctrl D) (lane : nat) : option Z :=
  option_map sds_mode (nth_error (sds c) lane).

(** ** Sample scripts and controllers *)

(** Two waits, two modifies and the stop marker, for all lanes. *)
Definition script_waits_then_modifies : list rtsds_seq :=
  [ mk_seq RTSDS_SEQ_WAIT 0xffff 0 0 3 0;
    mk_seq RTSDS_SEQ_WAIT 0xffff 0 0 5 0;
    mk_seq RTSDS_SEQ_MASK 0xffff 0 3 0x10 0xffff;
    mk_seq RTSDS_SEQ_MASK 0xffff 0 4 0x20 0xffff;
    mk_seq RTSDS_SEQ_STOP 0 0 0 0 0 ].

(** A modify of page 4, which the RTL838x does not have, between two
    modifies that it accepts. *)
Definition script_with_bad_page : list rtsds_seq :=
  [ mk_seq RTSDS_SEQ_MASK 0xffff 0 3 0x10 0xffff;
    mk_seq RTSDS_SEQ_MASK 0xffff 4 0 0x55 0xffff;
    mk_seq RTSDS_SEQ_MASK 0xffff 0 4 0x20 0xffff ].

(** An RTL838x controller over zeroed memory that manages all six lanes
    and has [script] for the event [evt] only. *)
Definition ctrl_838x (evt : Z) (script : list rtsds_seq) : rtsds_ctrl ram :=
  ctrl_with io_zero rtsds_838x_conf 0x3f
            (repeat None (Z.to_nat evt) ++ [Some script]).

(** An RTL930x controller on the idle bus, no lane managed, no script. *)
Definition ctrl_930x : rtsds_ctrl idle_bus :=
  ctrl_with (mk_io 0xbb0003b0 Idle []) rtsds_930x_conf 0 [].

(** The cells marked <zero> in the page table of the RTL839x comment:
    pages 4-7 exist on lanes 8 and 12 only, pages 8-9 on the 5G lanes
    (all but 8, 9, 12, 13) and pages 10-11 on the 10G lanes 8, 9, 12, 13. *)
Definition rtsds_839x_no_area (sid page : Z) : bool :=
  let is_10g := (sid =? 8) || (sid =? 9) || (sid =? 12) || (sid =? 13) in
  if page <? 4 then false
  else if page <? 8 then negb ((sid =? 8) || (sid =? 12))
  else if page <? 10 then is_10g
  else negb is_10g.

(** The integers 0 .. n-1. *)
Definition zrange (n : nat) : list Z := map Z.of_nat (List.seq 0 n).

(** The offset is negative exactly on the missing areas, checked over all
    in-bounds lanes, pages and registers. *)
Definition rtsds_839x_offset_check : bool :=
  forallb (fun sid =>
    forallb (fun page =>
      forallb (fun reg =>
        Bool.eqb (rtsds_839x_offset sid page reg <? 0)
                 (rtsds_839x_no_area sid page))
        (zrange 32))
      (zrange 12))
    (zrange 14).

(** ** Reset entries *)

Section Reset.
Context {D : Type} `{Device D}.

(** [for (u32 sid = sidlo; sid <= sidhi; sid++) body(sid);] *)
Definition for_each_sid (sidlo sidhi : Z) (body : Z -> St (rtsds_io D) unit)
  : St (rtsds_io D) unit :=
  fold_right (fun k rest => body (sidlo + Z.of_nat k) ;; rest) (ret tt)
             (List.seq 0 (Z.to_nat (sidhi - sidlo + 1))).

(** The functions below take the family descriptor [cf] where the C
    functions read [ctrl->conf]. *)
Definition rtsds_83xx_soft_reset (cf : rtsds_conf D) (sidlo sidhi usec : Z)
  : St (rtsds_io D) unit :=
  for_each_sid sidlo sidhi
    (fun sid => _ <- conf_mask cf sid 0x00 0x03 0x7146 0xffff ;; ret tt) ;;
  usleep_range usec (usec + 1000) ;;
  for_each_sid sidlo sidhi
    (fun sid => _ <- conf_mask cf sid 0x00 0x03 0x7106 0xffff ;; ret tt).

Definition rtsds_838x_reset (cf : rtsds_conf D) (sid : Z) : St (rtsds_io D) Z :=
  if sid >? RTSDS_838X_MAX_SDS then ret (- EINVAL)
  else
    (* RX reset *)
    _ <- rtsds_838x_mask sid 0x01 0x09 0x0200 0x0200 ;;
    _ <- rtsds_838x_mask sid 0x01 0x09 0x0000 0x0200 ;;
    (* CMU reset *)
    _ <- rtsds_838x_mask sid 0x01 0x00 0x4040 0xffff ;;
    _ <- rtsds_838x_mask sid 0x01 0x00 0x4740 0xffff ;;
    _ <- rtsds_838x_mask sid 0x01 0x00 0x47c0 0xffff ;;
    _ <- rtsds_838x_mask sid 0x01 0x00 0x4000 0xffff ;;
    rtsds_83xx_soft_reset cf sid sid 1000 ;;
    (* RX/TX reset *)
    _ <- rtsds_838x_mask sid 0x00 0x00 0x0400 0xffff ;;
    _ <- rtsds_838x_mask sid 0x00 0x00 0x0403 0xffff ;;
    ret 0.

Definition rtsds_839x_reset (cf : rtsds_conf D) (sid : Z) : St (rtsds_io D) Z :=
  let lo := s32 (Z.land sid (not32 1)) in
  let hi := s32 (Z.lor sid 1) in
  if sid >? RTSDS_839X_MAX_SDS then ret (- EINVAL)
  else
    (if (lo <? 8) || (lo =? 10)
     then
       _ <- rtsds_839x_mask hi 0x09 0x01 0x0050 0xffff ;;
       _ <- rtsds_839x_mask hi 0x09 0x01 0x00f0 0xffff ;;
       _ <- rtsds_839x_mask hi 0x09 0x01 0x0000 0xffff ;;
       _ <- rtsds_839x_mask lo 0x08 0x14 0x0000 0x0001 ;;
       _ <- rtsds_839x_mask lo 0x08 0x14 0x0200 0x0200 ;;
       usleep_range 100000 101000 ;;
       _ <- rtsds_839x_mask lo 0x08 0x14 0x0000 0x0200 ;;
       ret tt
     else
       _ <- rtsds_839x_mask lo 0x0a 0x10 0x0000 0x0008 ;;
       _ <- rtsds_839x_mask lo 0x0b 0x00 0x8000 0x8000 ;;
       usleep_range 100000 101000 ;;
       _ <- rtsds_839x_mask lo 0x0b 0x00 0x0000 0x8000 ;;
       ret tt) ;;
    rtsds_83xx_soft_reset cf lo hi 100000 ;;
    ret 0.

Definition rtsds_930x_reset (cf : rtsds_conf D) (sid : Z) : St (rtsds_io D) Z :=
  let modeoff := nth (Z.to_nat PHY_INTERFACE_MODE_NA) (mode_map cf) 0 in
  if sid >? RTSDS_930X_MAX_SDS then ret (- EINVAL)
  else
    modecur <- rtsds_930x_get_mode sid ;;
    (* It is enough to power off SerDes and set to old mode again *)
    (if negb (modecur =? modeoff)
     then
       _ <- rtsds_930x_set_mode sid modeoff ;;
       _ <- rtsds_930x_set_mode sid modecur ;;
       ret tt
     else ret tt) ;;
    ret 0.

Definition rtsds_931x_reset (cf : rtsds_conf D) (sid : Z) : St (rtsds_io D) Z :=
  let modeoff := nth (Z.to_nat PHY_INTERFACE_MODE_NA) (mode_map cf) 0 in
  if sid >? RTSDS_931X_MAX_SDS then ret (- EINVAL)
  else
    modecur <- rtsds_931x_get_mode sid ;;
    (if negb (modecur =? modeoff)
     then
       (* reset with mode switch cycle while being powered off *)
       v <- ioread32 RTSDS_931X_PS_SERDES_OFF_MODE_CTRL ;;
       let pwr := s32 v in
       iowrite32 (Z.lor (u32 pwr) (BIT sid)) RTSDS_931X_PS_SERDES_OFF_MODE_CTRL ;;
       _ <- rtsds_931x_set_mode sid modeoff ;;
       _ <- rtsds_931x_set_mode sid modecur ;;
       iowrite32 pwr RTSDS_931X_PS_SERDES_OFF_MODE_CTRL
     else ret tt) ;;
    ret 0.

(** The [reset] entry of each of the four descriptors, in the order of
    [rtsds_families]. *)
Definition rtsds_family_resets
  : list (rtsds_conf D * (rtsds_conf D -> Z -> St (rtsds_io D) Z)) :=
  [ (rtsds_838x_conf, rtsds_838x_reset); (rtsds_839x_conf, rtsds_839x_reset);
    (rtsds_930x_conf, rtsds_930x_reset); (rtsds_931x_conf, rtsds_931x_reset) ].

(** [rtsds_phy_reset_int]; [reset] is the [reset] entry of [ctrl->conf]. *)
Definition rtsds_phy_reset_int (reset : rtsds_conf D -> Z -> St (rtsds_io D) Z)
           (sid : Z) : St (rtsds_ctrl D) Z := fun c =>
  (mutex_lock ;;
   r <- rtsds_run_event sid RTSDS_EVENT_PRE_RESET ;;
   r <- (if r =? 0 then on_io (reset (conf c) sid) else ret r) ;;
   r <- (if r =? 0 then rtsds_run_event sid RTSDS_EVENT_POST_RESET else ret r) ;;
   mutex_unlock ;;
   ret r) c.

Definition rtsds_phy_reset (reset : rtsds_conf D -> Z -> St (rtsds_io D) Z)
           (sid : Z) : St (rtsds_ctrl D) Z := fun c =>
  if negb (managed c sid) then (0, c)
  else rtsds_phy_reset_int reset sid c.

(** ** Setup, binding and the debug mode file *)

(** One round of the loop of [rtsds_setup]. *)
Definition rtsds_setup_lane (sid : Z) : St (rtsds_ctrl D) unit := fun c =>
  ((if managed c sid
    then
      (* power off controlled SerDes *)
      let hwmode := nth (Z.to_nat PHY_INTERFACE_MODE_NA) (mode_map (conf c)) 0 in
      r <- on_io (conf_set_mode (conf c) sid hwmode) ;;
      _ <- (if r =? 0 then rtsds_run_event sid RTSDS_EVENT_SETUP else ret r) ;;
      ret tt
    else ret tt) ;;
   (* in any case sync back hardware status *)
   hwmode <- on_io (conf_get_mode (conf c) sid) ;;
   set_sds_mode sid (rtsds_hwmode_to_phymode c hwmode)) c.

Fixpoint rtsds_setup_lanes (sids : list Z) : St (rtsds_ctrl D) unit :=
  match sids with
  | [] => ret tt
  | sid :: rest => rtsds_setup_lane sid ;; rtsds_setup_lanes rest
  end.

(** [for (u32 sid = 0; sid <= ctrl->conf->max_sds; sid++)] *)
Definition rtsds_setup : St (rtsds_ctrl D) unit := fun c =>
  rtsds_setup_lanes (zrange (Z.to_nat (max_sds (conf c) + 1))) c.

(** [ctrl->sds[sid].link = link], as [sds_store_mode]: defined for the
    entries the table has, the list left as it is for a larger [sid]. *)
Fixpoint sds_store_link (l : list rtsds_sds) (n : nat) (link : Z)
  : list rtsds_sds :=
  match l, n with
  | [], _ => []
  | x :: r, O =>
      mk_sds (sds_mode x) link (sds_min_port x) (sds_max_port x) :: r
  | x :: r, S k => x :: sds_store_link r k link
  end.

(** [ctrl->sds[sid].min_port = min_port; ctrl->sds[sid].max_port = max_port],
    for the entries the table has, as [sds_store_mode]. *)
Fixpoint sds_store_ports (l : list rtsds_sds) (n : nat) (min_port max_port : Z)
  : list rtsds_sds :=
  match l, n with
  | [], _ => []
  | x :: r, O => mk_sds (sds_mode x) (sds_link x) min_port max_port :: r
  | x :: r, S k => x :: sds_store_ports r k min_port max_port
  end.

(** [rtsds_simple_xlate].  [args] are the u32 cells of the phandle; the
    result is [inl] of the error or [inr] of the lane whose phy is
    returned.  [sid], [sid2] and the ports are [int]; in the two tests
    against [max_sds], which is a [u32], they are compared as unsigned. *)
Definition rtsds_simple_xlate (args : list Z) : St (rtsds_ctrl D) (Z + Z) :=
  fun c =>
    if negb (Z.of_nat (length args) =? 4) then (inl (- EINVAL), c)
    else
      let sid := s32 (nth 0 args 0) in
      if (sid <? 0) || (u32 sid >? max_sds (conf c)) then (inl (- EINVAL), c)
      else
        let sid2 := s32 (nth 1 args 0) in
        if (sid2 <? -1) || (u32 sid2 >? max_sds (conf c)) then (inl (- EINVAL), c)
        else
          let min_port := s32 (nth 2 args 0) in
          if min_port <? 0 then (inl (- EINVAL), c)
          else
            let max_port := s32 (nth 3 args 0) in
            if max_port <? min_port then (inl (- EINVAL), c)
            else
              let l1 := sds_store_link (sds c) (Z.to_nat sid) sid2 in
              let l2 := if sid2 >=? 0
                        then sds_store_link l1 (Z.to_nat sid2) sid else l1 in
              let l3 := sds_store_ports l2 (Z.to_nat sid) min_port max_port in
              (inr sid, mk_ctrl (ctrl_io c) (sds_mask c) (conf c) l3 (sequence c)).

(** [rtsds_dbg_mode_write] once the number [hwmode] is read from the user. *)
Definition rtsds_dbg_mode_write (sid hwmode : Z) : St (rtsds_ctrl D) unit :=
  fun c =>
    let phymode := rtsds_hwmode_to_phymode c hwmode in
    (_ <- rtsds_phy_set_mode_int sid phymode hwmode ;; ret tt) c.

(** The reads of [rtsds_dbg_registers_show]: every register of every page
    of lane [sid], in order; the values are what is printed. *)
Definition rtsds_dbg_registers (sid : Z) : St (rtsds_ctrl D) (list Z) := fun c =>
  fold_right
    (fun pr rest =>
       v <- on_io (conf_read (conf c) sid (fst pr) (snd pr)) ;;
       vs <- rest ;;
       ret (v :: vs))
    (ret [])
    (list_prod (zrange (Z.to_nat (max_page (conf c) + 1))) (zrange 32)) c.

End Reset.

(** ** What the trace gains *)

(** An operation on the controller's mutex: the lock or the unlock. *)
Definition is_mutex (e : io_event) : bool :=
  match e with
  | EvLock | EvUnlock => true
  | _ => false
  end.

(** Accesses and sleeps only: neither a lock nor an unlock event. *)
Definition no_lock (l : list io_event) : Prop :=
  Forall (fun e => is_mutex e = false) l.

(** [w'] is [w] after some accesses and sleeps, none of them a lock or
    an unlock event; the window is the same. *)
Definition io_appends {D : Type} (w w' : rtsds_io D) : Prop :=
  io_base w' = io_base w /\
  exists l, io_trace w' = io_trace w ++ l /\ no_lock l.

(** A computation that only accesses the hardware and sleeps. *)
Definition io_only {D A : Type} (m : St (rtsds_io D) A) : Prop :=
  forall w, io_appends w (snd (m w)).

(** The cells of a script record, in the order of [struct rtsds_seq]. *)
Definition rtsds_seq_cells (s : rtsds_seq) : list Z :=
  [seq_action s; seq_ports s; seq_page s; seq_reg s; seq_val s; seq_mask s].

(** The scan of [rtsds_hwmode_to_phymode] over a table. *)
Definition hwmode_lookup (table : list Z) (hwmode : Z) : Z :=
  match find (fun m => nth m table 0 =? hwmode)
             (List.seq 0 (Z.to_nat PHY_INTERFACE_MODE_MAX)) with
  | Some m => Z.of_nat m
  | None => PHY_INTERFACE_MODE_MAX
  end.

(** Every symbol the table maps is found again from its code. *)
Definition mode_map_roundtrip_check (table : list Z) : bool :=
  forallb (fun m => (nth m table 0 =? 0)
                    || (hwmode_lookup table (nth m table 0) =? Z.of_nat m))
          (List.seq 0 (Z.to_nat PHY_INTERFACE_MODE_MAX)).

(** The four entries of a family descriptor only access the hardware
    and sleep. *)
Definition conf_io_only {D : Type} (cf : rtsds_conf D) : Prop :=
  (forall sid page reg, io_only (conf_read cf sid page reg)) /\
  (forall sid page reg val mask, io_only (conf_mask cf sid page reg val mask)) /\
  (forall sid mode, io_only (conf_set_mode cf sid mode)) /\
  (forall sid, io_only (conf_get_mode cf sid)).

(** The same for a computation on a controller whose descriptor is [cf]. *)
Definition ctrl_io_only {D A : Type} (cf : rtsds_conf D)
           (m : St (rtsds_ctrl D) A) : Prop :=
  forall c, conf c = cf ->
            io_appends (ctrl_io c) (ctrl_io (snd (m c))) /\
            conf (snd (m c)) = cf.

(** A computation on the controller that ends with the unlock and has
    neither a lock nor another unlock before it. *)
Definition ends_unlocked {D A : Type} (cf : rtsds_conf D)
           (m : St (rtsds_ctrl D) A) : Prop :=
  forall c, conf c = cf ->
            exists mid,
              io_trace (ctrl_io (snd (m c)))
              = io_trace (ctrl_io c) ++ mid ++ [EvUnlock] /\
              no_lock mid.

(** [t'] is [t] followed by one locked section: the lock, then accesses
    and sleeps only (no lock and no unlock among them), then the
    unlock. *)
Definition locked_section (t t' : list io_event) : Prop :=
  exists mid, t' = t ++ EvLock :: mid ++ [EvUnlock] /\ no_lock mid.

(** ** Bit fields *)

(** The [w] bits of [x] from bit [s] on: [(x >> s) & ((1 << w) - 1)]. *)
Definition bit_field (s w x : Z) : Z := Z.land (Z.shiftr x s) (Z.ones w).

(** Plain memory after [iomask32] has replaced the field of [w] bits at
    bit [s] of the word at [addr] by [v]. *)
Definition set_field (m : ram) (addr s w v : Z) : ram :=
  fun a =>
    if a =? addr
    then u32 (Z.lor (Z.land (u32 (m addr)) (not32 (shl32 (Z.ones w) s)))
                    (u32 (shl32 (Z.land v (Z.ones w)) s)))
    else m a.

(** The background lane stays below 26 for every frontend lane and page. *)
Definition rtsds_931x_backsid_check : bool :=
  forallb (fun sid =>
    forallb (fun page =>
      (0 <=? rtsds_931x_backsid sid page) && (rtsds_931x_backsid sid page <=? 25))
      (zrange 192))
    (zrange 14).

(** ** Where a computation writes *)

(** An event that is not a write, or a write to an address in [P]. *)
Definition writes_to (P : Z -> Prop) (e : io_event) : Prop :=
  match e with
  | EvWrite a _ => P a
  | _ => True
  end.

(** On a window mapped at [base], the computation keeps the window and
    every write it makes goes to an address in [P]. *)
Definition writes_in {D A : Type} (P : Z -> Prop) (base : Z)
           (m : St (rtsds_io D) A) : Prop :=
  forall w, io_base w = base ->
            io_base (snd (m w)) = base /\
            exists l, io_trace (snd (m w)) = io_trace w ++ l /\
                      Forall (writes_to P) l.

(** The registers of lane [sid] on the RTL838x and the RTL839x. *)
Definition rtsds_838x_lane_reg (base sid : Z) (a : Z) : Prop :=
  exists page reg,
    0 <= page <= RTSDS_838X_MAX_PAGE /\ 0 <= reg <= 31 /\
    a = base + rtsds_838x_offset sid page reg.

Definition rtsds_839x_lane_reg (base sid : Z) (a : Z) : Prop :=
  exists page reg,
    0 <= page <= RTSDS_839X_MAX_PAGE /\ 0 <= reg <= 31 /\
    0 <= rtsds_839x_offset sid page reg /\
    a = base + rtsds_839x_offset sid page reg.

(** Every register a lane has lies in the 1 KiB block of its lane pair. *)
Definition rtsds_839x_block_check : bool :=
  forallb (fun sid =>
    forallb (fun page =>
      forallb (fun reg =>
        let offs := rtsds_839x_offset sid page reg in
        (offs <? 0)
        || ((1024 * (sid / 2) <=? offs) && (offs <? 1024 * (sid / 2) + 1024)))
        (zrange 32))
      (zrange 12))
    (zrange 14).

(** The command and data registers of the indirect bus. *)
Definition rtsds_bus_reg (base : Z) (a : Z) : Prop :=
  a = base \/ a = base + 4.

(** A computation that leaves the lane table as it is. *)
Definition keeps_sds {D A : Type} (m : St (rtsds_ctrl D) A) : Prop :=
  forall c, sds (snd (m c)) = sds c.

(** A code whose mode fits [mbits] bits and whose submode fits [sbits]
    bits, so that masking the two fields and packing them again gives
    the code back. *)
Definition code_fits (mbits sbits code : Z) : bool :=
  RTSDS_COMBOMODE (Z.land (RTSDS_MODE code) (Z.ones mbits))
                  (Z.land (RTSDS_SUBMODE code) (Z.ones sbits)) =? code.

(** Every code of a table fits the fields of the family's mode
    registers. *)
Definition table_fits (mbits sbits : Z) (table : list Z) : bool :=
  forallb (fun code => (code =? 0) || code_fits mbits sbits code) table.

(** The (page, register) pairs in the order of the two loops of
    [rtsds_dbg_registers_show]: page by page, the 32 registers of each. *)
Definition rtsds_dump_order {D : Type} (cf : rtsds_conf D) : list (Z * Z) :=
  list_prod (zrange (Z.to_nat (max_page cf + 1))) (zrange 32).

(** The hardware after the registers [prs] of lane [sid] have been read
    one after the other through the [read] entry. *)
Definition rtsds_after_reads {D : Type} (cf : rtsds_conf D) (sid : Z)
           (prs : list (Z * Z)) (w : rtsds_io D) : rtsds_io D :=
  fold_left (fun w pr => snd (conf_read cf sid (fst pr) (snd pr) w)) prs w.

(** * Properties *)

(** ** Integer facts *)

Lemma u32_small (x : Z) : 0 <= x < 2 ^ 32 -> u32 x = x.
Proof. intros Hx. unfold u32. now apply Z.mod_small. Qed.

Lemma u32_range (x : Z) : 0 <= u32 x < 2 ^ 32.
Proof. unfold u32. apply Z.mod_pos_bound. lia. Qed.

Lemma u32_idem (x : Z) : u32 (u32 x) = u32 x.
Proof. apply u32_small, u32_range. Qed.

Lemma u32_s32 (x : Z) : u32 (s32 x) = u32 x.
Proof.
  unfold s32. destruct (u32 x <? 2 ^ 31).
  - apply u32_idem.
  - unfold u32 at 1.
    replace (u32 x - 2 ^ 32) with (u32 x + (-1) * 2 ^ 32) by lia.
    rewrite Z.mod_add by lia. apply u32_idem.
Qed.

Lemma s32_small (x : Z) : 0 <= x < 2 ^ 31 -> s32 x = x.
Proof.
  intros Hx. unfold s32. rewrite u32_small by lia.
  destruct (Z.ltb_spec x (2 ^ 31)); lia.
Qed.

Lemma u32_testbit (x i : Z) :
  Z.testbit (u32 x) i = (i <? 32) && Z.testbit x i.
Proof. unfold u32. apply Z.testbit_mod_pow2. lia. Qed.

Lemma gtb_any (a b c x y z : Z) :
  a > x \/ b > y \/ c > z -> (a >? x) || (b >? y) || (c >? z) = true.
Proof.
  intros Hor.
  destruct (Z.gtb_spec a x), (Z.gtb_spec b y), (Z.gtb_spec c z); simpl; auto; lia.
Qed.

Lemma gtb_none (a b c x y z : Z) :
  a <= x -> b <= y -> c <= z -> (a >? x) || (b >? y) || (c >? z) = false.
Proof.
  intros Ha Hb Hc.
  destruct (Z.gtb_spec a x), (Z.gtb_spec b y), (Z.gtb_spec c z); simpl; auto; lia.
Qed.

(** ** Register backends: argument checks *)

Section BackendBounds.
Context {D : Type} `{Device D}.

(** C2.  For each of the four family backends, [read] and the masked
    write called with a lane above the family's last lane, or a page
    above its last page, or a register above 31, return [-EINVAL] and
    leave the window, the device and the trace exactly as they were: no
    read, no write, no bus command. *)
Theorem backend_rejects_out_of_range :
  forall (cf : rtsds_conf D), In cf rtsds_families ->
  forall (w : rtsds_io D) (sid page reg val mask : Z),
    sid > max_sds cf \/ page > max_page cf \/ reg > 31 ->
    conf_read cf sid page reg w = (- EINVAL, w) /\
    conf_mask cf sid page reg val mask w = (- EINVAL, w).
Proof.
  intros cf Hin w sid page reg val mask Hout.
  simpl in Hin.
  destruct Hin as [<- | [<- | [<- | [<- | []]]]]; simpl in Hout |- *.
  - unfold rtsds_838x_read, rtsds_838x_mask.
    rewrite (gtb_any _ _ _ _ _ _ Hout). split; reflexivity.
  - unfold rtsds_839x_read, rtsds_839x_mask.
    rewrite (gtb_any _ _ _ _ _ _ Hout). split; reflexivity.
  - unfold rtsds_930x_read, rtsds_930x_mask.
    rewrite (gtb_any _ _ _ _ _ _ Hout). split; reflexivity.
  - unfold rtsds_931x_read, rtsds_931x_mask.
    rewrite (gtb_any _ _ _ _ _ _ Hout). split; reflexivity.
Qed.

(** ** RTL839x: areas a lane does not have *)

Lemma rtsds_839x_offset_hole (sid page reg : Z) :
  4 <= page <= 7 -> sid <> 8 -> sid <> 12 ->
  rtsds_839x_offset sid page reg = -1.
Proof.
  intros Hp H8 H12. unfold rtsds_839x_offset.
  destruct (Z.ltb_spec page 4); [lia |].
  destruct (Z.ltb_spec page 8); [| lia].
  destruct (Z.eqb_spec sid 8); [lia |].
  destruct (Z.eqb_spec sid 12); [lia |].
  reflexivity.
Qed.

Lemma zrange_In (n : nat) (x : Z) : 0 <= x < Z.of_nat n -> In x (zrange n).
Proof.
  intros Hx. unfold zrange. apply in_map_iff.
  exists (Z.to_nat x). split; [lia |].
  apply in_seq. lia.
Qed.

(** For in-bounds arguments the offset is negative exactly where the lane
    has no such area. *)
Lemma rtsds_839x_offset_neg_iff (sid page reg : Z) :
  0 <= sid <= RTSDS_839X_MAX_SDS -> 0 <= page <= RTSDS_839X_MAX_PAGE ->
  0 <= reg <= 31 ->
  (rtsds_839x_offset sid page reg <? 0) = rtsds_839x_no_area sid page.
Proof.
  unfold RTSDS_839X_MAX_SDS, RTSDS_839X_MAX_PAGE. intros Hs Hp Hr.
  assert (Hall : rtsds_839x_offset_check = true) by (vm_compute; reflexivity).
  unfold rtsds_839x_offset_check in Hall.
  rewrite forallb_forall in Hall.
  specialize (Hall sid (zrange_In 14 sid ltac:(lia))).
  rewrite forallb_forall in Hall.
  specialize (Hall page (zrange_In 12 page ltac:(lia))).
  rewrite forallb_forall in Hall.
  specialize (Hall reg (zrange_In 32 reg ltac:(lia))).
  now apply Bool.eqb_prop in Hall.
Qed.

(** C10.  On the RTL839x an in-bounds (lane, page, register) whose page
    lies in an area the lane does not have (the offset computation
    answers the negative marker) is a silent no-op: [read] returns 0, the
    masked write returns 0, and neither touches the hardware. *)
Theorem rtsds_839x_no_area_is_noop :
  forall (w : rtsds_io D) (sid page reg val mask : Z),
    sid <= RTSDS_839X_MAX_SDS -> page <= RTSDS_839X_MAX_PAGE -> reg <= 31 ->
    rtsds_839x_offset sid page reg < 0 ->
    rtsds_839x_read sid page reg w = (0, w) /\
    rtsds_839x_mask sid page reg val mask w = (0, w).
Proof.
  intros w sid page reg val mask Hs Hp Hr Hneg.
  unfold rtsds_839x_read, rtsds_839x_mask.
  rewrite (gtb_none _ _ _ _ _ _ Hs Hp Hr).
  destruct (Z.ltb_spec (rtsds_839x_offset sid page reg) 0); [| lia].
  split; reflexivity.
Qed.

End BackendBounds.

Lemma backend_rejects_out_of_range_witness :
  conf_read rtsds_930x_conf 12 0 0 io_zero = (- EINVAL, io_zero) /\
  conf_mask rtsds_930x_conf 12 0 0 0x10 0xffff io_zero = (- EINVAL, io_zero).
Proof.
  apply (backend_rejects_out_of_range rtsds_930x_conf).
  - simpl. auto.
  - left. reflexivity.
Defined.

Lemma rtsds_839x_no_area_is_noop_witness :
  rtsds_839x_read 0 4 3 io_zero = (0, io_zero) /\
  rtsds_839x_mask 0 4 3 0x10 0xffff io_zero = (0, io_zero).
Proof.
  apply rtsds_839x_no_area_is_noop.
  - unfold RTSDS_839X_MAX_SDS. lia.
  - unfold RTSDS_839X_MAX_PAGE. lia.
  - lia.
  - rewrite rtsds_839x_offset_hole; lia.
Defined.

(** ** Lane handle: writes to lanes that are not managed *)

(** C3.  On a lane whose bit is not set in [sds_mask], [rtsds_write] and
    [rtsds_mask] return [-EACCES] and hand back the controller untouched,
    whatever the family backend is: since this holds for every mask entry,
    also one that records each of its calls, the entry is not called. *)
Theorem rtsds_mask_unmanaged_denied :
  forall (D : Type) (c : rtsds_ctrl D) (sid page reg val mask : Z),
    Z.land (sds_mask c) (BIT sid) = 0 ->
    rtsds_mask sid page reg val mask c = (- EACCES, c) /\
    rtsds_write sid page reg val c = (- EACCES, c).
Proof.
  intros D c sid page reg val mask Hbit.
  unfold rtsds_write, rtsds_mask, managed.
  rewrite Hbit. simpl. split; reflexivity.
Qed.

Lemma rtsds_mask_unmanaged_denied_witness :
  let c := ctrl_with io_zero rtsds_838x_conf 0x1 [] in
  rtsds_mask 1 0 3 0x10 0xff c = (- EACCES, c) /\
  rtsds_write 1 0 3 0x10 c = (- EACCES, c).
Proof.
  intro c.
  apply (rtsds_mask_unmanaged_denied ram c 1 0 3 0x10 0xff).
  reflexivity.
Defined.

(** ** Mode codec *)

Lemma byte_high_bits (x i : Z) :
  0 <= x <= 255 -> 8 <= i -> Z.testbit x i = false.
Proof.
  intros Hx Hi.
  destruct (Z.eq_dec x 0) as [-> | Hnz]; [apply Z.testbit_0_l |].
  apply Z.bits_above_log2; [lia |].
  assert (Z.log2 x < 8) by (apply Z.log2_lt_pow2; lia). lia.
Qed.

Ltac byte_bits :=
  repeat match goal with
         | Hx : 0 <= ?x <= 255 |- context [Z.testbit ?x ?i] =>
             rewrite (byte_high_bits x i Hx) by lia
         | |- context [Z.testbit _ ?i] =>
             rewrite (Z.testbit_neg_r _ i) by lia
         end;
  rewrite ?Bool.andb_false_r, ?Bool.andb_true_r, ?Bool.orb_false_r,
    ?Bool.orb_false_l;
  try reflexivity.

Lemma RTSDS_MODE_COMBOMODE (m s : Z) :
  0 <= m <= 255 -> 0 <= s <= 255 -> RTSDS_MODE (RTSDS_COMBOMODE m s) = m.
Proof.
  intros Hm Hs. unfold RTSDS_MODE, RTSDS_COMBOMODE.
  change 0xff with (Z.ones 8). change 0x10000 with (Z.shiftl 1 16).
  Z.bitblast; byte_bits.
Qed.

Lemma RTSDS_SUBMODE_COMBOMODE (m s : Z) :
  0 <= m <= 255 -> 0 <= s <= 255 -> RTSDS_SUBMODE (RTSDS_COMBOMODE m s) = s.
Proof.
  intros Hm Hs. unfold RTSDS_SUBMODE, RTSDS_COMBOMODE.
  change 0xff with (Z.ones 8). change 0x10000 with (Z.shiftl 1 16).
  Z.bitblast; byte_bits.
Qed.

Lemma RTSDS_COMBOMODE_tag (m s : Z) :
  Z.testbit (RTSDS_COMBOMODE m s) 16 = true.
Proof.
  unfold RTSDS_COMBOMODE. rewrite !Z.lor_spec. reflexivity.
Qed.

Lemma RTSDS_COMBOMODE_nonzero (m s : Z) : RTSDS_COMBOMODE m s <> 0.
Proof.
  intros Hz. pose proof (RTSDS_COMBOMODE_tag m s) as Ht.
  rewrite Hz in Ht. discriminate.
Qed.

(** The reverse lookup answers the no-match marker or the index of an
    entry that is exactly the code asked for. *)
Lemma rtsds_hwmode_to_phymode_exact {D : Type} (c : rtsds_ctrl D) (hwmode : Z) :
  let r := rtsds_hwmode_to_phymode c hwmode in
  r = PHY_INTERFACE_MODE_MAX \/
  (0 <= r < PHY_INTERFACE_MODE_MAX /\
   nth (Z.to_nat r) (mode_map (conf c)) 0 = hwmode).
Proof.
  unfold rtsds_hwmode_to_phymode.
  destruct (find _ _) as [m |] eqn:Hfind; [right | left; reflexivity].
  apply find_some in Hfind. destruct Hfind as [Hin Heq].
  apply in_seq in Hin. apply Z.eqb_eq in Heq.
  rewrite Nat2Z.id. split; [| exact Heq].
  unfold PHY_INTERFACE_MODE_MAX in *. lia.
Qed.

(** C4, as the code has it.  For mode and submode in 0..255 unpacking
    [RTSDS_COMBOMODE mode submode] gives back the pair, and the packed code
    has the tag bit 0x10000 set: it is never the un-set value 0, and the
    reverse lookup of a packed code answers the no-match marker or an
    entry holding exactly this code, never an un-set entry.  The unpack
    macros do not look at the tag: for the un-set value 0 they answer
    (0, 0), there is no marker. *)
Theorem combomode_roundtrip_and_tag :
  forall (m s : Z), 0 <= m <= 255 -> 0 <= s <= 255 ->
    rtsds_unpack (RTSDS_COMBOMODE m s) = (m, s) /\
    Z.testbit (RTSDS_COMBOMODE m s) 16 = true /\
    RTSDS_COMBOMODE m s <> 0 /\
    rtsds_unpack 0 = (0, 0) /\
    (forall (D : Type) (c : rtsds_ctrl D),
        let r := rtsds_hwmode_to_phymode c (RTSDS_COMBOMODE m s) in
        r = PHY_INTERFACE_MODE_MAX \/
        (0 <= r < PHY_INTERFACE_MODE_MAX /\
         nth (Z.to_nat r) (mode_map (conf c)) 0 = RTSDS_COMBOMODE m s /\
         nth (Z.to_nat r) (mode_map (conf c)) 0 <> 0)).
Proof.
  intros m s Hm Hs.
  split; [| split; [| split; [| split]]].
  - unfold rtsds_unpack.
    now rewrite RTSDS_MODE_COMBOMODE, RTSDS_SUBMODE_COMBOMODE.
  - apply RTSDS_COMBOMODE_tag.
  - apply RTSDS_COMBOMODE_nonzero.
  - reflexivity.
  - intros D c r.
    destruct (rtsds_hwmode_to_phymode_exact c (RTSDS_COMBOMODE m s))
      as [Hmax | [Hr Hnth]]; [left; exact Hmax | right].
    fold r in Hnth.
    split; [exact Hr |]. split; [exact Hnth |]. rewrite Hnth.
    apply RTSDS_COMBOMODE_nonzero.
Qed.

Lemma combomode_roundtrip_and_tag_witness :
  rtsds_unpack (RTSDS_COMBOMODE 4 1) = (4, 1) /\
  Z.testbit (RTSDS_COMBOMODE 4 1) 16 = true /\
  RTSDS_COMBOMODE 4 1 <> 0 /\
  rtsds_unpack 0 = (0, 0) /\
  (forall (D : Type) (c : rtsds_ctrl D),
      let r := rtsds_hwmode_to_phymode c (RTSDS_COMBOMODE 4 1) in
      r = PHY_INTERFACE_MODE_MAX \/
      (0 <= r < PHY_INTERFACE_MODE_MAX /\
       nth (Z.to_nat r) (mode_map (conf c)) 0 = RTSDS_COMBOMODE 4 1 /\
       nth (Z.to_nat r) (mode_map (conf c)) 0 <> 0)).
Proof.
  apply (combomode_roundtrip_and_tag 4 1); lia.
Defined.

(** C4 as it is worded fails: the un-set value 0 unpacks to the very pair
    that the packed code of (0, 0) unpacks to, so the backend programs the
    same mode for both, and (0, 0) is a code in use (the RTL838x table
    maps [PHY_INTERFACE_MODE_NA] to it); the reverse lookup of 0 answers
    the first un-set entry, not the no-match marker. *)
Lemma unpack_unset_is_a_valid_pair :
  rtsds_unpack 0 = rtsds_unpack (RTSDS_COMBOMODE 0 0) /\
  io_trace (snd (rtsds_838x_set_mode 4 0 io_zero))
    = io_trace (snd (rtsds_838x_set_mode 4 (RTSDS_COMBOMODE 0 0) io_zero)) /\
  nth (Z.to_nat PHY_INTERFACE_MODE_NA)
      (mode_map (conf (ctrl_with io_zero rtsds_838x_conf 0 []))) 0
    = RTSDS_COMBOMODE 0 0 /\
  rtsds_hwmode_to_phymode (ctrl_with io_zero rtsds_838x_conf 0 []) 0
    = PHY_INTERFACE_MODE_INTERNAL /\
  PHY_INTERFACE_MODE_INTERNAL <> PHY_INTERFACE_MODE_MAX.
Proof.
  repeat split. discriminate.
Qed.

(** ** RTL930x: a bus that stays busy *)

Section BusyBus.
Context {D : Type} `{Device D}.

Lemma rtsds_wait_idle_busy (n : nat) :
  forall (w : rtsds_io D),
    (forall d, Z.land (u32 (fst (dev_read d (io_base w)))) 1 <> 0) ->
    exists d',
      rtsds_wait_idle (S n) w
      = (O, mk_io (io_base w) d' (io_trace w ++ busy_polls (io_base w) n)).
Proof.
  induction n as [| k IH]; intros w Hbusy.
  - exists (io_dev w). simpl. unfold ret. rewrite app_nil_r.
    destruct w; reflexivity.
  - change (rtsds_wait_idle (S (S k)) w)
      with ((base <- ctrl_base ;;
             v <- ioread32 base ;;
             if negb (Z.land v 1 =? 0)
             then usleep_range 50 60 ;; rtsds_wait_idle (S k)
             else ret (S k)) w).
    unfold bind, ctrl_base, ioread32, usleep_range.
    pose proof (Hbusy (io_dev w)) as Hb.
    destruct (dev_read (io_dev w) (io_base w)) as [v d]. simpl in Hb.
    destruct (Z.eqb_spec (Z.land (u32 v) 1) 0) as [Heq | _]; [contradiction |].
    cbv beta iota delta [negb].
    match goal with
    | |- context [rtsds_wait_idle (S k) ?w'] =>
        destruct (IH w') as (d' & Hrun); [exact Hbusy |]
    end.
    rewrite Hrun. exists d'.
    cbn [io_base io_trace]. unfold busy_polls.
    cbn [repeat concat]. rewrite <- !app_assoc. reflexivity.
Qed.

Lemma rtsds_930x_read_busy (w : rtsds_io D) (sid page reg : Z) :
  (forall d, Z.land (u32 (fst (dev_read d (io_base w)))) 1 <> 0) ->
  sid <= RTSDS_930X_MAX_SDS -> page <= RTSDS_930X_MAX_PAGE -> reg <= 31 ->
  exists d',
    rtsds_930x_read sid page reg w
    = (- EIO,
       mk_io (io_base w) d'
             (io_trace w ++
              EvWrite (io_base w) (u32 (rtsds_930x_cmd sid page reg 1))
                :: busy_polls (io_base w) 99)).
Proof.
  intros Hbusy Hs Hp Hr.
  unfold rtsds_930x_read.
  rewrite (gtb_none _ _ _ _ _ _ Hs Hp Hr).
  unfold bind, ctrl_base, iowrite32.
  match goal with
  | |- context [rtsds_wait_idle 100 ?w'] =>
      destruct (rtsds_wait_idle_busy 99 w') as (d' & Hrun); [exact Hbusy |]
  end.
  rewrite Hrun. exists d'. unfold ret.
  cbn [io_base io_trace]. rewrite <- app_assoc. reflexivity.
Qed.

Lemma rtsds_930x_mask_busy (w : rtsds_io D) (sid page reg val mask : Z) :
  (forall d, Z.land (u32 (fst (dev_read d (io_base w)))) 1 <> 0) ->
  sid <= RTSDS_930X_MAX_SDS -> page <= RTSDS_930X_MAX_PAGE -> reg <= 31 ->
  exists d',
    rtsds_930x_mask sid page reg val mask w
    = (- EIO,
       mk_io (io_base w) d'
             (io_trace w ++
              (if mask =? 0xffff
               then [EvWrite (io_base w + 4) (u32 val);
                     EvWrite (io_base w) (u32 (rtsds_930x_cmd sid page reg 3))]
               else [EvWrite (io_base w) (u32 (rtsds_930x_cmd sid page reg 1))]) ++
              busy_polls (io_base w) 99)).
Proof.
  intros Hbusy Hs Hp Hr.
  unfold rtsds_930x_mask.
  rewrite (gtb_none _ _ _ _ _ _ Hs Hp Hr).
  destruct (Z.eqb_spec mask 0xffff) as [Hm | Hm]; cbv beta iota delta [negb].
  - unfold bind, ret, ctrl_base, iowrite32.
    match goal with
    | |- context [rtsds_wait_idle 100 ?w'] =>
        destruct (rtsds_wait_idle_busy 99 w') as (d' & Hrun); [exact Hbusy |]
    end.
    rewrite Hrun. exists d'. cbn [io_base io_trace].
    rewrite <- !app_assoc. reflexivity.
  - destruct (rtsds_930x_read_busy w sid page reg Hbusy Hs Hp Hr) as (d1 & Hread).
    exists d1. unfold bind. rewrite Hread.
    replace (- EIO <? 0) with true by reflexivity.
    reflexivity.
Qed.

(** C5, as the code has it.  When the busy bit never clears, an
    in-bounds [rtsds_930x_read] writes its command, polls the command
    register 99 times (the counter starts at 100 and is decremented
    before each poll), sleeping 50 to 60 after each poll, and returns
    [-EIO]; nothing follows the last sleep.  The masked write does the
    same after writing the data register and its command when the mask
    is 0xffff, and otherwise fails in the read that comes first,
    without writing the data register or a write command. *)
Theorem rtsds_930x_busy_times_out :
  forall (w : rtsds_io D) (sid page reg val mask : Z),
    (forall d, Z.land (u32 (fst (dev_read d (io_base w)))) 1 <> 0) ->
    sid <= RTSDS_930X_MAX_SDS -> page <= RTSDS_930X_MAX_PAGE -> reg <= 31 ->
    let base := io_base w in
    fst (rtsds_930x_read sid page reg w) = - EIO /\
    io_trace (snd (rtsds_930x_read sid page reg w))
      = io_trace w ++
        EvWrite base (u32 (rtsds_930x_cmd sid page reg 1)) :: busy_polls base 99 /\
    fst (rtsds_930x_mask sid page reg val mask w) = - EIO /\
    io_trace (snd (rtsds_930x_mask sid page reg val mask w))
      = io_trace w ++
        (if mask =? 0xffff
         then [EvWrite (base + 4) (u32 val);
               EvWrite base (u32 (rtsds_930x_cmd sid page reg 3))]
         else [EvWrite base (u32 (rtsds_930x_cmd sid page reg 1))]) ++
        busy_polls base 99.
Proof.
  intros w sid page reg val mask Hbusy Hs Hp Hr base.
  destruct (rtsds_930x_read_busy w sid page reg Hbusy Hs Hp Hr) as (d1 & Hread).
  destruct (rtsds_930x_mask_busy w sid page reg val mask Hbusy Hs Hp Hr)
    as (d2 & Hmask).
  rewrite Hread, Hmask. cbn [fst snd io_trace].
  repeat split; reflexivity.
Qed.

End BusyBus.

Lemma rtsds_930x_busy_times_out_witness :
  fst (rtsds_930x_read 2 0 3 io_stuck) = - EIO /\
  fst (rtsds_930x_mask 2 0 3 0x10 0xff io_stuck) = - EIO.
Proof.
  destruct (rtsds_930x_busy_times_out io_stuck 2 0 3 0x10 0xff)
    as (Hr & _ & Hm & _).
  - intros d. simpl. discriminate.
  - unfold RTSDS_930X_MAX_SDS. lia.
  - unfold RTSDS_930X_MAX_PAGE. lia.
  - lia.
  - split; [exact Hr | exact Hm].
Defined.

(** C5 as it is worded fails on the number of polls: with the counter
    starting at 100 and decremented before the test, the command register
    is read 99 times, not 100, both by the read and by the masked write. *)
Lemma rtsds_930x_polls_99_times :
  count_reads (io_base io_stuck)
              (io_trace (snd (rtsds_930x_read 2 0 3 io_stuck))) = 99%nat /\
  count_reads (io_base io_stuck)
              (io_trace (snd (rtsds_930x_mask 2 0 3 0x10 0xffff io_stuck))) = 99%nat /\
  99%nat <> 100%nat.
Proof.
  repeat split; try (vm_compute; reflexivity). discriminate.
Qed.

(** ** RTL839x: two registers in one word *)

Lemma half_high_bits (x i : Z) :
  0 <= x <= 0xffff -> 16 <= i -> Z.testbit x i = false.
Proof.
  intros Hx Hi.
  destruct (Z.eq_dec x 0) as [-> | Hnz]; [apply Z.testbit_0_l |].
  apply Z.bits_above_log2; [lia |].
  assert (Z.log2 x < 16) by (apply Z.log2_lt_pow2; lia). lia.
Qed.

Lemma land_1_cases (x : Z) : Z.land x 1 = 0 \/ Z.land x 1 = 1.
Proof.
  assert (Hmod : Z.land x 1 = x mod 2)
    by (change 1 with (Z.ones 1); rewrite Z.land_ones by lia; reflexivity).
  assert (0 <= x mod 2 < 2) by (apply Z.mod_pos_bound; lia).
  lia.
Qed.

(** A write to the register in the high half keeps the low half. *)
Lemma merge_high_keeps_low (x val mask : Z) :
  half_word 0 (u32 (Z.lor (Z.land (u32 (s32 (u32 x))) (not32 (shl32 mask 16)))
                          (shl32 val 16)))
  = half_word 0 x.
Proof.
  rewrite u32_s32, u32_idem.
  unfold half_word, not32, shl32. change 0xffff with (Z.ones 16).
  apply Z.bits_inj'. intros i Hi.
  rewrite !Z.land_spec, !Z.shiftr_spec, !u32_testbit, Z.lor_spec, Z.land_spec,
    !u32_testbit, Z.lnot_spec, u32_testbit, !Z.shiftl_spec by lia.
  rewrite Z.testbit_ones_nonneg by lia.
  destruct (Z.ltb_spec i 16); [| now rewrite !Bool.andb_false_r].
  rewrite !(Z.testbit_neg_r _ (i + 16 * 0 - 16)) by lia.
  replace (i + 16 * 0 <? 32) with true by (symmetry; apply Z.ltb_lt; lia).
  simpl. now rewrite Bool.orb_false_r, !Bool.andb_true_r.
Qed.

(** A write to the register in the low half keeps the high half, when
    value and mask stay within 16 bits. *)
Lemma merge_low_keeps_high (x val mask : Z) :
  0 <= val <= 0xffff -> 0 <= mask <= 0xffff ->
  half_word 1 (u32 (Z.lor (Z.land (u32 (s32 (u32 x))) (not32 mask)) val))
  = half_word 1 x.
Proof.
  intros Hv Hm.
  rewrite u32_s32, u32_idem.
  unfold half_word, not32. change 0xffff with (Z.ones 16).
  apply Z.bits_inj'. intros i Hi.
  rewrite !Z.land_spec, !Z.shiftr_spec, !u32_testbit, Z.lor_spec, Z.land_spec,
    !u32_testbit, Z.lnot_spec by lia.
  rewrite Z.testbit_ones_nonneg by lia.
  destruct (Z.ltb_spec i 16); [| now rewrite !Bool.andb_false_r].
  rewrite (half_high_bits val), (half_high_bits mask) by lia.
  replace (i + 16 * 1 <? 32) with true by (symmetry; apply Z.ltb_lt; lia).
  simpl. now rewrite Bool.orb_false_r, !Bool.andb_true_r.
Qed.

(** The shift [(reg << 4) & 0x10] selects the half of the register. *)
Lemma rtsds_839x_shift (reg : Z) :
  s32 (Z.land (shl32 reg 4) 0x10) = 16 * Z.land reg 1.
Proof.
  assert (Hbits : Z.land (shl32 reg 4) 0x10 = Z.shiftl (Z.land reg 1) 4).
  { unfold shl32. change 0x10 with (2 ^ 4).
    apply Z.bits_inj'. intros i Hi.
    rewrite Z.land_spec, u32_testbit, !Z.shiftl_spec, Z.land_spec,
      Z.pow2_bits_eqb by lia.
    destruct (Z.eqb_spec 4 i) as [<- | Hne].
    - reflexivity.
    - rewrite Bool.andb_false_r.
      destruct (Z.ltb_spec i 4).
      + now rewrite (Z.testbit_neg_r reg (i - 4)) by lia.
      + replace (Z.testbit 1 (i - 4)) with false;
          [now rewrite Bool.andb_false_r |].
        symmetry. apply Z.bits_above_log2; simpl; lia. }
  rewrite Hbits, Z.shiftl_mul_pow2 by lia.
  destruct (land_1_cases reg) as [-> | ->]; reflexivity.
Qed.

Lemma half_word_shr32 (h x : Z) :
  h = 0 \/ h = 1 ->
  Z.land (shr32 (u32 x) (16 * h)) 0xffff = half_word h x.
Proof.
  intros Hh. unfold shr32, half_word. rewrite u32_idem.
  change 0xffff with (Z.ones 16).
  apply Z.bits_inj'. intros i Hi.
  rewrite !Z.land_spec, !Z.shiftr_spec, u32_testbit by lia.
  rewrite Z.testbit_ones_nonneg by lia.
  destruct (Z.ltb_spec i 16); [| now rewrite !Bool.andb_false_r].
  replace (i + 16 * h <? 32) with true by (symmetry; apply Z.ltb_lt; lia).
  reflexivity.
Qed.

(** What [rtsds_839x_read] returns over plain memory. *)
Lemma rtsds_839x_read_ram (w : rtsds_io ram) (sid page reg : Z) :
  fst (rtsds_839x_read sid page reg w)
  = if (sid >? RTSDS_839X_MAX_SDS) || (page >? RTSDS_839X_MAX_PAGE) || (reg >? 31)
    then - EINVAL
    else if rtsds_839x_offset sid page reg <? 0 then 0
    else s32 (half_word (Z.land reg 1)
                        (io_dev w (io_base w + rtsds_839x_offset sid page reg))).
Proof.
  unfold rtsds_839x_read.
  destruct ((sid >? RTSDS_839X_MAX_SDS) || (page >? RTSDS_839X_MAX_PAGE) || (reg >? 31));
    [reflexivity |].
  destruct (rtsds_839x_offset sid page reg <? 0); [reflexivity |].
  rewrite rtsds_839x_shift.
  unfold bind, ctrl_base, when_read, ioread32, ret.
  destruct ((page =? 2) && (reg =? 1)); unfold bind, ioread32, ret;
    cbn [dev_read ram_device io_dev io_base fst];
    (rewrite half_word_shr32; [reflexivity | apply land_1_cases]).
Qed.

(** What [rtsds_839x_mask] leaves in plain memory: nothing is written, or
    the word of the register is replaced by the merged value. *)
Lemma rtsds_839x_mask_ram (m : ram) (base : Z) (tr : list io_event)
      (sid page reg val mask : Z) (a : Z) :
  let w' := snd (rtsds_839x_mask sid page reg val mask (mk_io base m tr)) in
  let addr := base + rtsds_839x_offset sid page reg in
  io_base w' = base /\
  (io_dev w' a = m a \/
   a = addr /\
   io_dev w' a
   = u32 (if negb (Z.land reg 1 =? 0)
          then Z.lor (Z.land (u32 (s32 (u32 (m addr)))) (not32 (shl32 mask 16)))
                     (shl32 val 16)
          else Z.lor (Z.land (u32 (s32 (u32 (m addr)))) (not32 mask)) val)).
Proof.
  unfold rtsds_839x_mask.
  destruct ((sid >? RTSDS_839X_MAX_SDS) || (page >? RTSDS_839X_MAX_PAGE) || (reg >? 31));
    [split; [reflexivity | left; reflexivity] |].
  destruct (rtsds_839x_offset sid page reg <? 0);
    [split; [reflexivity | left; reflexivity] |].
  unfold bind, ctrl_base, when_read, ioread32, iowrite32, ret.
  destruct ((page =? 2) && (reg =? 1)); unfold bind, ioread32, ret;
    cbn [dev_read dev_write ram_device io_dev io_base snd];
    (split; [reflexivity |]);
    (destruct (Z.eqb_spec a (base + rtsds_839x_offset sid page reg)) as [-> | Hne];
     [right; split; reflexivity | left; reflexivity]).
Qed.

(** C6.  On the RTL839x, over plain memory, a masked write to register
    [reg] with value and mask within 16 bits leaves, in every word of the
    window, the half that belongs to the paired register as it was: the
    word of [reg] keeps its other half and no other word is written.  The
    register that shares the word with [reg] therefore reads after the
    write what it read before. *)
Theorem rtsds_839x_mask_keeps_paired_half :
  forall (m : ram) (base : Z) (tr : list io_event) (sid page reg val mask : Z),
    0 <= val <= 0xffff -> 0 <= mask <= 0xffff ->
    let w := mk_io base m tr in
    let w' := snd (rtsds_839x_mask sid page reg val mask w) in
    (forall a : Z,
        half_word (1 - Z.land reg 1) (io_dev w' a)
        = half_word (1 - Z.land reg 1) (m a)) /\
    (forall a : Z,
        a <> base + rtsds_839x_offset sid page reg -> io_dev w' a = m a) /\
    (forall reg' : Z,
        Z.land reg' 0xfe = Z.land reg 0xfe ->
        Z.land reg' 1 = 1 - Z.land reg 1 ->
        fst (rtsds_839x_read sid page reg' w')
        = fst (rtsds_839x_read sid page reg' w)).
Proof.
  intros m base tr sid page reg val mask Hv Hm w w'. subst w w'.
  set (w' := snd (rtsds_839x_mask sid page reg val mask (mk_io base m tr))).
  assert (Hram := rtsds_839x_mask_ram m base tr sid page reg val mask).
  cbv zeta in Hram. fold w' in Hram.
  assert (Hhalf : forall a : Z,
             half_word (1 - Z.land reg 1) (io_dev w' a)
             = half_word (1 - Z.land reg 1) (m a)).
  { intros a.
    destruct (Hram a) as [_ [Hsame | [-> Hnew]]]; [now rewrite Hsame |].
    rewrite Hnew.
    destruct (land_1_cases reg) as [Hpar | Hpar]; rewrite Hpar.
    - change (negb (0 =? 0)) with false. cbv iota.
      change (1 - 0) with 1. now apply merge_low_keeps_high.
    - change (negb (1 =? 0)) with true. cbv iota.
      change (1 - 1) with 0. apply merge_high_keeps_low. }
  split; [exact Hhalf |]. split.
  - intros a Hne.
    destruct (Hram a) as [_ [Hsame | [Heq _]]]; [exact Hsame | contradiction].
  - intros reg' Hword Hother.
    rewrite !rtsds_839x_read_ram.
    destruct (Hram 0) as [Hbase _].
    rewrite Hbase. cbn [io_base io_dev].
    assert (Hoffs : rtsds_839x_offset sid page reg' = rtsds_839x_offset sid page reg)
      by (unfold rtsds_839x_offset; now rewrite Hword).
    rewrite Hother, Hoffs. now rewrite Hhalf.
Qed.

Lemma rtsds_839x_mask_keeps_paired_half_witness :
  let w := mk_io 0xbb00a000 (fun _ => 0xabcd5678) [] in
  let w' := snd (rtsds_839x_mask 0 0 2 0x1234 0xffff w) in
  half_word 1 (io_dev w' 0xbb00a004) = 0xabcd /\
  fst (rtsds_839x_read 0 0 3 w') = fst (rtsds_839x_read 0 0 3 w).
Proof.
  intros w w'.
  destruct (rtsds_839x_mask_keeps_paired_half
              (fun _ => 0xabcd5678) 0xbb00a000 [] 0 0 2 0x1234 0xffff)
    as (Hhalf & _ & Hread); [lia | lia |].
  split.
  - exact (Hhalf 0xbb00a004).
  - apply Hread; reflexivity.
Defined.

(** ** Sequencer *)

Lemma last_cons {A : Type} (l : list A) (x d : A) : last (x :: l) d = last l x.
Proof.
  revert x d. induction l as [| y l IH]; intros x d; [reflexivity |].
  change (last (x :: y :: l) d) with (last (y :: l) d).
  now rewrite (IH y d), (IH y x).
Qed.

Lemma delay_of_cons (sid d : Z) (s : rtsds_seq) (l : list rtsds_seq) :
  delay_of sid d (s :: l)
  = delay_of sid (if is_wait sid s then seq_val s else d) l.
Proof.
  unfold delay_of. simpl filter.
  destruct (is_wait sid s); [| reflexivity].
  simpl map. apply last_cons.
Qed.

Lemma rtsds_plan_from_cons (sid d : Z) (s : rtsds_seq) (rest : list rtsds_seq) :
  seq_action s <> RTSDS_SEQ_STOP ->
  let d' := if is_wait sid s then seq_val s else d in
  rtsds_plan_from sid d (s :: rest)
  = ops_of_step sid d' s ++ rtsds_plan_from sid d' rest.
Proof.
  intros Hns d'. unfold rtsds_plan_from. simpl before_stop.
  destruct (Z.eqb_spec (seq_action s) RTSDS_SEQ_STOP) as [Heq | _]; [contradiction |].
  cbv zeta. simpl length.
  change (List.seq 0 (S (length (before_stop rest))))
    with (0%nat :: List.seq 1 (length (before_stop rest))).
  rewrite <- seq_shift, map_cons, map_map. simpl concat.
  f_equal.
  - simpl firstn. simpl nth. now rewrite delay_of_cons.
  - f_equal. apply map_ext. intros k.
    change (firstn (S (S k)) (s :: before_stop rest))
      with (s :: firstn (S k) (before_stop rest)).
    now rewrite delay_of_cons.
Qed.

Lemma rtsds_plan_from_stop (sid d : Z) (s : rtsds_seq) (rest : list rtsds_seq) :
  seq_action s = RTSDS_SEQ_STOP -> rtsds_plan_from sid d (s :: rest) = [].
Proof.
  intros Hs. unfold rtsds_plan_from. simpl before_stop.
  rewrite Hs. reflexivity.
Qed.

Section Sequencer.
Context {D : Type} `{Device D}.
Variable cf : rtsds_conf D.
Variable sid : Z.

(** The loop issues exactly the operations of the plan, in order. *)
Lemma rtsds_run_steps_plan (seq : list rtsds_seq) :
  forall (d : Z) (w : rtsds_io D),
    rtsds_run_steps cf sid seq d w
    = exec_plan cf sid (rtsds_plan_from sid d seq) w.
Proof.
  induction seq as [| s rest IH]; intros d w; [reflexivity |].
  simpl rtsds_run_steps.
  destruct (Z.eqb_spec (seq_action s) RTSDS_SEQ_STOP) as [Hs | Hs].
  - now rewrite rtsds_plan_from_stop.
  - rewrite (rtsds_plan_from_cons sid d s rest Hs). cbv zeta.
    fold (is_wait sid s). fold (is_modify sid s).
    set (d' := if is_wait sid s then seq_val s else d).
    unfold ops_of_step, rtsds_delay_sleep, bind.
    destruct (d' =? 0); simpl negb; cbv iota;
      destruct (is_modify sid s); simpl; unfold bind, usleep_range, ret.
    + destruct (conf_mask cf sid _ _ _ _ w) as [r w1].
      destruct (r =? 0); [apply IH | reflexivity].
    + apply IH.
    + destruct (conf_mask cf sid _ _ _ _ _) as [r w1].
      destruct (r =? 0); [apply IH | reflexivity].
    + apply IH.
Qed.

(** Running a script that starts with [pre], none of it a STOP: the
    steps of [pre] are run; if they went through, the run goes on with
    what follows, with the delay [pre] leaves behind. *)
Lemma rtsds_run_steps_app (pre rest : list rtsds_seq) :
  Forall (fun x => seq_action x <> RTSDS_SEQ_STOP) pre ->
  forall (d : Z) (w : rtsds_io D),
    rtsds_run_steps cf sid (pre ++ rest) d w
    = let (r, w1) := rtsds_run_steps cf sid pre d w in
      if r =? 0 then rtsds_run_steps cf sid rest (delay_of sid d pre) w1
      else (r, w1).
Proof.
  induction 1 as [| s pre Hs Hpre IH]; intros d w; [reflexivity |].
  rewrite delay_of_cons. simpl app. simpl rtsds_run_steps.
  destruct (Z.eqb_spec (seq_action s) RTSDS_SEQ_STOP) as [Heq | _]; [contradiction |].
  fold (is_wait sid s). fold (is_modify sid s).
  set (d' := if is_wait sid s then seq_val s else d).
  unfold bind. destruct (rtsds_delay_sleep d' w) as [[] w0].
  destruct (is_modify sid s); [| apply IH].
  destruct (conf_mask cf sid _ _ _ _ w0) as [r w1].
  destruct (r =? 0); simpl negb; cbv iota; [apply IH | reflexivity].
Qed.

End Sequencer.

Section SequencerRun.
Context {D : Type} `{Device D}.

Lemma rtsds_run_event_steps (c : rtsds_ctrl D) (sid evt : Z) (seq : list rtsds_seq) :
  evt <= RTSDS_EVENT_MAX -> sid <= max_sds (conf c) ->
  nth (Z.to_nat evt) (sequence c) None = Some seq ->
  rtsds_run_event sid evt c = on_io (rtsds_run_steps (conf c) sid seq 0) c.
Proof.
  intros He Hs Hseq. unfold rtsds_run_event.
  destruct (Z.gtb_spec evt RTSDS_EVENT_MAX); [lia |].
  destruct (Z.gtb_spec sid (max_sds (conf c))); [lia |].
  simpl. now rewrite Hseq.
Qed.

(** C1, as the code has it.  A run for lane [sid] goes through the
    steps of the event's script in order, up to the first STOP, where
    it ends with 0.  At every step it first sleeps the delay in force,
    when that is not zero, and then calls the backend if the step is a
    MODIFY for this lane.  The delay in force at a step is the value of
    the last WAIT for this lane among the steps so far, the step itself
    included: a later WAIT replaces it, nothing is added up, and it
    stays in force, and is slept again, at every later step. *)
Theorem rtsds_run_event_follows_plan :
  forall (c : rtsds_ctrl D) (sid evt : Z) (seq : list rtsds_seq),
    evt <= RTSDS_EVENT_MAX -> sid <= max_sds (conf c) ->
    nth (Z.to_nat evt) (sequence c) None = Some seq ->
    rtsds_run_event sid evt c
    = on_io (exec_plan (conf c) sid (rtsds_plan sid seq)) c.
Proof.
  intros c sid evt seq He Hs Hseq.
  rewrite (rtsds_run_event_steps c sid evt seq He Hs Hseq).
  unfold on_io, rtsds_plan.
  now rewrite rtsds_run_steps_plan.
Qed.

(** C7, as the code has it.  When the steps in front of a MODIFY for
    this lane went through and the backend call of that MODIFY returns
    an error, the run returns [-EIO], whatever the backend returned;
    the controller is left as the failed call left it, with all that the
    earlier steps did, and the steps behind the MODIFY play no part. *)
Theorem rtsds_run_event_aborts_on_error :
  forall (c : rtsds_ctrl D) (sid evt : Z) (pre post : list rtsds_seq)
         (s : rtsds_seq) (w1 w2 : rtsds_io D) (r : Z),
    evt <= RTSDS_EVENT_MAX -> sid <= max_sds (conf c) ->
    nth (Z.to_nat evt) (sequence c) None = Some (pre ++ s :: post) ->
    Forall (fun x => seq_action x <> RTSDS_SEQ_STOP) pre ->
    rtsds_run_steps (conf c) sid pre 0 (ctrl_io c) = (0, w1) ->
    is_modify sid s = true ->
    conf_mask (conf c) sid (seq_page s) (seq_reg s) (seq_val s) (seq_mask s)
              (snd (rtsds_delay_sleep (delay_of sid 0 pre) w1)) = (r, w2) ->
    r <> 0 ->
    rtsds_run_event sid evt c
    = (- EIO, mk_ctrl w2 (sds_mask c) (conf c) (sds c) (sequence c)).
Proof.
  intros c sid evt pre post s w1 w2 r He Hs Hseq Hpre Hrun Hmod Hmask Hr.
  rewrite (rtsds_run_event_steps c sid evt _ He Hs Hseq).
  unfold on_io.
  rewrite (rtsds_run_steps_app (conf c) sid pre (s :: post) Hpre), Hrun.
  simpl Z.eqb. cbv iota.
  simpl rtsds_run_steps.
  unfold is_modify in Hmod. apply andb_prop in Hmod. destruct Hmod as [Hact Happ].
  apply Z.eqb_eq in Hact. rewrite Hact, Happ.
  change (RTSDS_SEQ_MASK =? RTSDS_SEQ_STOP) with false.
  change (RTSDS_SEQ_MASK =? RTSDS_SEQ_WAIT) with false.
  change (RTSDS_SEQ_MASK =? RTSDS_SEQ_MASK) with true.
  cbn [andb]. unfold bind.
  destruct (rtsds_delay_sleep (delay_of sid 0 pre) w1) as [[] w0].
  simpl snd in Hmask. rewrite Hmask.
  destruct (Z.eqb_spec r 0) as [Hz | _]; [contradiction |].
  reflexivity.
Qed.

End SequencerRun.

Lemma rtsds_run_event_follows_plan_witness :
  rtsds_run_event 0 RTSDS_EVENT_INIT
                  (ctrl_838x RTSDS_EVENT_INIT script_waits_then_modifies)
  = on_io (exec_plan rtsds_838x_conf 0
                     (rtsds_plan 0 script_waits_then_modifies))
          (ctrl_838x RTSDS_EVENT_INIT script_waits_then_modifies).
Proof.
  apply (rtsds_run_event_follows_plan
           (ctrl_838x RTSDS_EVENT_INIT script_waits_then_modifies)
           0 RTSDS_EVENT_INIT script_waits_then_modifies).
  - unfold RTSDS_EVENT_INIT, RTSDS_EVENT_MAX. lia.
  - simpl. unfold RTSDS_838X_MAX_SDS. lia.
  - reflexivity.
Defined.

(** C1 as it is worded fails.  On two waits of 3 and 5 followed by two
    modifies the code sleeps 3, then 5, then 5 again in front of each
    modify; the wording has one sleep of 8 in front of the first modify
    and none after it. *)
Lemma rtsds_run_event_sleeps_again :
  io_trace (ctrl_io (snd (rtsds_run_event 0 RTSDS_EVENT_INIT
                            (ctrl_838x RTSDS_EVENT_INIT script_waits_then_modifies))))
  = [ EvSleep 3072 4072; EvSleep 5120 6120;
      EvSleep 5120 6120; EvRead 0xbb00e78c; EvWrite 0xbb00e78c 0x10;
      EvSleep 5120 6120; EvRead 0xbb00e790; EvWrite 0xbb00e790 0x20 ] /\
  io_trace (snd (exec_plan rtsds_838x_conf 0
                           (spec_plan 0 script_waits_then_modifies) io_zero))
  = [ EvSleep 8192 9192; EvRead 0xbb00e78c; EvWrite 0xbb00e78c 0x10;
      EvRead 0xbb00e790; EvWrite 0xbb00e790 0x20 ] /\
  rtsds_plan 0 script_waits_then_modifies
  <> spec_plan 0 script_waits_then_modifies.
Proof.
  split; [vm_compute; reflexivity |].
  split; [vm_compute; reflexivity |].
  vm_compute. discriminate.
Qed.

Lemma rtsds_run_event_aborts_on_error_witness :
  fst (rtsds_run_event 0 RTSDS_EVENT_INIT
                       (ctrl_838x RTSDS_EVENT_INIT script_with_bad_page))
  = - EIO.
Proof.
  set (c := ctrl_838x RTSDS_EVENT_INIT script_with_bad_page).
  set (pre := [mk_seq RTSDS_SEQ_MASK 0xffff 0 3 0x10 0xffff]).
  set (s := mk_seq RTSDS_SEQ_MASK 0xffff 4 0 0x55 0xffff).
  set (post := [mk_seq RTSDS_SEQ_MASK 0xffff 0 4 0x20 0xffff]).
  set (w1 := snd (rtsds_run_steps (conf c) 0 pre 0 (ctrl_io c))).
  rewrite (rtsds_run_event_aborts_on_error
             c 0 RTSDS_EVENT_INIT pre post s w1 w1 (- EINVAL)).
  - reflexivity.
  - unfold RTSDS_EVENT_INIT, RTSDS_EVENT_MAX. lia.
  - simpl. unfold RTSDS_838X_MAX_SDS. lia.
  - reflexivity.
  - repeat constructor; discriminate.
  - reflexivity.
  - reflexivity.
  - reflexivity.
  - discriminate.
Defined.

(** C7 as it is worded fails on the error that is returned: the RTL838x
    backend rejects page 4 with [-EINVAL], the run that meets this step
    returns [-EIO]. *)
Lemma rtsds_run_event_replaces_error :
  fst (conf_mask rtsds_838x_conf 0 4 0 0x55 0xffff io_zero) = - EINVAL /\
  fst (rtsds_run_event 0 RTSDS_EVENT_INIT
         (ctrl_838x RTSDS_EVENT_INIT [mk_seq RTSDS_SEQ_MASK 0xffff 4 0 0x55 0xffff]))
  = - EIO /\
  - EIO <> - EINVAL.
Proof.
  repeat split. discriminate.
Qed.

(** ** The set_mode transition and the stored mode *)

Lemma sds_store_mode_other (l : list rtsds_sds) (n lane : nat) (phymode : Z) :
  lane <> n ->
  nth_error (sds_store_mode l n phymode) lane = nth_error l lane.
Proof.
  revert n lane. induction l as [| x l IH]; intros n lane Hne; [reflexivity |].
  destruct n as [| n], lane as [| lane]; simpl; try reflexivity.
  - contradiction.
  - apply IH. intros ->. now apply Hne.
Qed.

Lemma sds_store_mode_same (l : list rtsds_sds) (n : nat) (phymode : Z) :
  (n < length l)%nat ->
  option_map sds_mode (nth_error (sds_store_mode l n phymode) n) = Some phymode.
Proof.
  revert n. induction l as [| x l IH]; intros n Hn; simpl in Hn; [lia |].
  destruct n as [| n]; simpl; [reflexivity |].
  apply IH. lia.
Qed.

Ltac zeqb_0 :=
  try change (0 =? 0) with true;
  repeat match goal with
         | |- context [Z.pos ?p =? 0] => change (Z.pos p =? 0) with false
         | |- context [Z.neg ?p =? 0] => change (Z.neg p =? 0) with false
         end;
  cbv beta iota.

Section SetMode.
Context {D : Type} `{Device D}.

Lemma on_io_sds {A : Type} (m : St (rtsds_io D) A) (c : rtsds_ctrl D) :
  sds (snd (on_io m c)) = sds c.
Proof. unfold on_io. now destruct (m (ctrl_io c)). Qed.

Lemma rtsds_run_event_sds (sid evt : Z) (c : rtsds_ctrl D) :
  sds (snd (rtsds_run_event sid evt c)) = sds c.
Proof.
  unfold rtsds_run_event.
  destruct ((evt >? RTSDS_EVENT_MAX) || (sid >? max_sds (conf c)));
    [reflexivity |].
  destruct (nth (Z.to_nat evt) (sequence c) None); [| reflexivity].
  apply on_io_sds.
Qed.

(** What [rtsds_phy_set_mode_int] leaves in the lane table, by the
    outcome of the backend's mode change. *)
Lemma rtsds_phy_set_mode_int_sds (c : rtsds_ctrl D) (sid phymode hwmode : Z) :
  let res := rtsds_phy_set_mode_int sid phymode hwmode c in
  match set_mode_outcome c sid hwmode with
  | Some 0 => sds (snd res) = sds_store_mode (sds c) (Z.to_nat sid) phymode
  | _ => fst res <> 0 /\ sds (snd res) = sds c
  end.
Proof.
  unfold rtsds_phy_set_mode_int, set_mode_outcome, bind.
  destruct (mutex_lock c) as [[] c1] eqn:Hlock.
  assert (Hc1 : sds c1 = sds c).
  { unfold mutex_lock in Hlock. injection Hlock as <-. reflexivity. }
  simpl snd.
  pose proof (rtsds_run_event_sds sid RTSDS_EVENT_PRE_SET_MODE c1) as Hpre.
  destruct (rtsds_run_event sid RTSDS_EVENT_PRE_SET_MODE c1) as [r1 c2].
  simpl in Hpre.
  destruct r1 as [| p | p]; zeqb_0.
  - pose proof (on_io_sds (conf_set_mode (conf c) sid hwmode) c2) as Hset.
    destruct (on_io (conf_set_mode (conf c) sid hwmode) c2) as [r2 c3].
    simpl in Hset. simpl fst.
    destruct r2 as [| p | p]; zeqb_0.
    + unfold set_sds_mode.
      match goal with
      | |- context [rtsds_run_event sid RTSDS_EVENT_POST_SET_MODE ?c4] =>
          pose proof (rtsds_run_event_sds sid RTSDS_EVENT_POST_SET_MODE c4) as Hpost;
          destruct (rtsds_run_event sid RTSDS_EVENT_POST_SET_MODE c4) as [r3 c5]
      end.
      simpl in Hpost. unfold mutex_unlock, ret. simpl.
      rewrite Hpost. congruence.
    + unfold ret, mutex_unlock. simpl.
      split; [discriminate | congruence].
    + unfold ret, mutex_unlock. simpl.
      split; [discriminate | congruence].
  - unfold ret, mutex_unlock. simpl.
    split; [discriminate | congruence].
  - unfold ret, mutex_unlock. simpl.
    split; [discriminate | congruence].
Qed.

(** When the backend's mode change went through, the transition returns
    what the POST_SET_MODE script returns, run after the store. *)
Lemma rtsds_phy_set_mode_int_result (c : rtsds_ctrl D) (sid phymode hwmode : Z) :
  let c2 := snd (rtsds_run_event sid RTSDS_EVENT_PRE_SET_MODE
                   (snd (mutex_lock c))) in
  let c3 := snd (on_io (conf_set_mode (conf c) sid hwmode) c2) in
  let c4 := snd (set_sds_mode sid phymode c3) in
  set_mode_outcome c sid hwmode = Some 0 ->
  fst (rtsds_phy_set_mode_int sid phymode hwmode c)
  = fst (rtsds_run_event sid RTSDS_EVENT_POST_SET_MODE c4).
Proof.
  intros c2 c3 c4 Hout. subst c4 c3 c2.
  unfold set_mode_outcome in Hout.
  unfold rtsds_phy_set_mode_int, bind.
  destruct (mutex_lock c) as [[] c1]. cbn [snd] in *.
  destruct (rtsds_run_event sid RTSDS_EVENT_PRE_SET_MODE c1) as [r1 c2].
  cbn [snd].
  destruct (r1 =? 0); [| discriminate Hout].
  destruct (on_io (conf_set_mode (conf c) sid hwmode) c2) as [r2 c3].
  cbn [fst snd] in *. injection Hout as ->.
  change (0 =? 0) with true. cbv iota.
  unfold set_sds_mode. cbn [snd].
  destruct (rtsds_run_event sid RTSDS_EVENT_POST_SET_MODE _) as [r3 c5].
  reflexivity.
Qed.

(** C8, as the code has it.  [rtsds_phy_set_mode_int] stores the new
    mode for the lane exactly when the backend's mode change was reached
    and returned 0.  When the PRE_SET_MODE script failed or the backend
    returned an error, the transition returns an error and the lane table
    is exactly what it was.  When the backend's mode change went through,
    the mode is stored and the transition returns what the POST_SET_MODE
    script returns, run after the store: an error of that script reaches
    the caller with the new mode in the table.  No other lane's stored
    mode changes in any case.  What is said about the table after a
    store is said for a lane inside the table. *)
Theorem rtsds_phy_set_mode_int_updates_on_success_only :
  forall (c : rtsds_ctrl D) (sid phymode hwmode : Z),
    let res := rtsds_phy_set_mode_int sid phymode hwmode c in
    let before_call :=
      snd (rtsds_run_event sid RTSDS_EVENT_PRE_SET_MODE (snd (mutex_lock c))) in
    let after_call :=
      snd (on_io (conf_set_mode (conf c) sid hwmode) before_call) in
    let after_store := snd (set_sds_mode sid phymode after_call) in
    (set_mode_outcome c sid hwmode <> Some 0 ->
     fst res <> 0 /\ sds (snd res) = sds c) /\
    ((Z.to_nat sid < length (sds c))%nat ->
     (forall lane : nat,
         lane <> Z.to_nat sid -> lane_mode (snd res) lane = lane_mode c lane) /\
     (lane_mode (snd res) (Z.to_nat sid) <> lane_mode c (Z.to_nat sid) ->
      set_mode_outcome c sid hwmode = Some 0) /\
     (set_mode_outcome c sid hwmode = Some 0 ->
      lane_mode (snd res) (Z.to_nat sid) = Some phymode /\
      fst res
      = fst (rtsds_run_event sid RTSDS_EVENT_POST_SET_MODE after_store))).
Proof.
  intros c sid phymode hwmode res before_call after_call after_store.
  assert (Hcases :
    (set_mode_outcome c sid hwmode = Some 0 /\
     sds (snd res) = sds_store_mode (sds c) (Z.to_nat sid) phymode) \/
    (set_mode_outcome c sid hwmode <> Some 0 /\
     fst res <> 0 /\ sds (snd res) = sds c)).
  { pose proof (rtsds_phy_set_mode_int_sds c sid phymode hwmode) as Hsds.
    fold res in Hsds. cbv zeta in Hsds.
    destruct (set_mode_outcome c sid hwmode) as [[| p | p] |];
      [left; split; [reflexivity | exact Hsds] | right ..];
      (split; [discriminate | exact Hsds]). }
  destruct Hcases as [[Hout Hsds] | (Hout & Hret & Hsds)];
    unfold lane_mode; rewrite Hsds.
  - split; [intros Hne; contradiction |].
    intros Hlen. split; [| split].
    + intros lane Hne. now rewrite sds_store_mode_other.
    + intros _. exact Hout.
    + intros _. split; [now apply sds_store_mode_same |].
      now apply rtsds_phy_set_mode_int_result.
  - split; [intros _; split; [exact Hret | reflexivity] |].
    intros Hlen. split; [| split].
    + reflexivity.
    + intros Hne. now contradiction Hne.
    + intros Hyes. contradiction.
Qed.

End SetMode.

Lemma rtsds_phy_set_mode_int_updates_on_success_only_witness :
  (let c := ctrl_838x RTSDS_EVENT_PRE_SET_MODE script_with_bad_page in
   let res := rtsds_phy_set_mode_int 4 PHY_INTERFACE_MODE_1000BASEX
                                     (RTSDS_COMBOMODE 4 1) c in
   fst res <> 0 /\ sds (snd res) = sds c) /\
  (let c := ctrl_838x RTSDS_EVENT_PRE_SET_MODE script_waits_then_modifies in
   let res := rtsds_phy_set_mode_int 4 PHY_INTERFACE_MODE_1000BASEX
                                     (RTSDS_COMBOMODE 4 1) c in
   lane_mode (snd res) (Z.to_nat 4) = Some PHY_INTERFACE_MODE_1000BASEX).
Proof.
  split; intros c res.
  - apply (proj1 (rtsds_phy_set_mode_int_updates_on_success_only
                    c 4 PHY_INTERFACE_MODE_1000BASEX (RTSDS_COMBOMODE 4 1))).
    vm_compute. discriminate.
  - refine (proj1 (proj2 (proj2
              (proj2 (rtsds_phy_set_mode_int_updates_on_success_only
                        c 4 PHY_INTERFACE_MODE_1000BASEX (RTSDS_COMBOMODE 4 1))
                     _)) _)).
    + vm_compute. lia.
    + vm_compute. reflexivity.
Defined.

(** C8 as it is worded fails.  When only the POST_SET_MODE script fails
    (here its step names page 4, which the RTL838x does not have), the
    backend's mode change has gone through and the mode is stored: the
    transition returns [-EIO] and the lane, which was off, is recorded as
    1000BASE-X. *)
Lemma rtsds_phy_set_mode_int_post_script_fails :
  let c := ctrl_838x RTSDS_EVENT_POST_SET_MODE script_with_bad_page in
  let res := rtsds_phy_set_mode_int 4 PHY_INTERFACE_MODE_1000BASEX
                                    (RTSDS_COMBOMODE 4 1) c in
  set_mode_outcome c 4 (RTSDS_COMBOMODE 4 1) = Some 0 /\
  fst res = - EIO /\
  lane_mode c 4 = Some PHY_INTERFACE_MODE_NA /\
  lane_mode (snd res) 4 = Some PHY_INTERFACE_MODE_1000BASEX /\
  PHY_INTERFACE_MODE_1000BASEX <> PHY_INTERFACE_MODE_NA.
Proof.
  repeat split. discriminate.
Qed.

(** ** The controller's lock *)

(** C9 fails on the code.  [rtsds_read] on an RTL930x lane issues a bus
    command, polls the command register and reads the data register
    without taking the controller's lock, and [rtsds_write] on a managed
    RTL838x lane reads and writes its register without it: the traces of
    these calls have no lock event.  The lifecycle operations do take the
    lock: the trace of [rtsds_phy_init] starts with the lock and ends with
    the unlock. *)
Theorem rtsds_read_takes_no_lock :
  io_trace (ctrl_io (snd (rtsds_read 0 0 0 ctrl_930x)))
  = [EvWrite 0xbb0003b0 1; EvRead 0xbb0003b0; EvRead 0xbb0003b4] /\
  filter is_lock (io_trace (ctrl_io (snd (rtsds_read 0 0 0 ctrl_930x)))) = [] /\
  io_trace (ctrl_io (snd (rtsds_write 0 0 3 0x10
                            (ctrl_838x RTSDS_EVENT_INIT script_with_bad_page))))
  = [EvRead 0xbb00e78c; EvWrite 0xbb00e78c 0x10] /\
  io_trace (ctrl_io (snd (rtsds_phy_init 0
                            (ctrl_838x RTSDS_EVENT_INIT script_with_bad_page))))
  = [EvLock; EvRead 0xbb00e78c; EvWrite 0xbb00e78c 0x10; EvUnlock].
Proof.
  split; [vm_compute; reflexivity |].
  split; [vm_compute; reflexivity |].
  split; vm_compute; reflexivity.
Qed.

(** * Further properties of the driver *)

(** ** Scripts: loading *)

Lemma rtsds_parse_seq_cells (n : nat) :
  forall (cells : list Z) (fuel : nat),
    length cells = (6 * n)%nat -> (n <= fuel)%nat ->
    concat (map rtsds_seq_cells (rtsds_parse_seq fuel cells)) = cells /\
    length (rtsds_parse_seq fuel cells) = n.
Proof.
  induction n as [| n IH]; intros cells fuel Hlen Hfuel.
  - destruct cells; [| discriminate]. destruct fuel; simpl; auto.
  - destruct fuel as [| fuel]; [lia |].
    destruct cells as [| a [| p [| pg [| r [| v [| m rest]]]]]];
      try (simpl in Hlen; lia).
    simpl in Hlen.
    destruct (IH rest fuel) as [Hcells Hn]; [lia | lia |].
    simpl. rewrite Hcells, Hn. auto.
Qed.

(** X1.  A device tree property of 6n cells (n > 0) is loaded as n
    records that hold the cells in order: flattening the records gives
    the property back.  A property that is absent, empty, or whose number
    of cells is not a multiple of 6 is ignored. *)
Theorem rtsds_load_event_cells :
  forall (cells : list Z),
    (forall n : nat, (0 < n)%nat -> length cells = (6 * n)%nat ->
       exists recs,
         rtsds_load_event (Some cells) = Some recs /\
         length recs = n /\
         concat (map rtsds_seq_cells recs) = cells) /\
    ((length cells mod 6 <> 0)%nat -> rtsds_load_event (Some cells) = None) /\
    rtsds_load_event (Some []) = None /\
    rtsds_load_event None = None.
Proof.
  intros cells. repeat split.
  - intros n Hn Hlen.
    exists (rtsds_parse_seq (length cells) cells).
    destruct (rtsds_parse_seq_cells n cells (length cells) Hlen) as [Hc Hl]; [lia |].
    split; [| split; assumption].
    unfold rtsds_load_event.
    destruct (Z.leb_spec (Z.of_nat (length cells)) 0); [lia |].
    replace ((Z.of_nat (length cells) * 2) mod 12) with 0; [reflexivity |].
    rewrite Hlen, Nat2Z.inj_mul.
    replace (Z.of_nat 6 * Z.of_nat n * 2) with (Z.of_nat n * 12) by lia.
    now rewrite Z.mod_mul.
  - intros Hmod. unfold rtsds_load_event.
    destruct (Z.leb_spec (Z.of_nat (length cells)) 0); [reflexivity |].
    destruct (Z.eqb_spec ((Z.of_nat (length cells) * 2) mod 12) 0) as [Hz | _];
      [| reflexivity].
    exfalso. apply Hmod.
    assert (Hdiv : (Z.of_nat (length cells)) mod 6 = 0).
    { assert (H12 : (Z.of_nat (length cells) * 2) mod (6 * 2) = 0) by exact Hz.
      rewrite Z.mul_mod_distr_r in H12 by lia. lia. }
    apply Nat2Z.inj. rewrite Nat2Z.inj_mod. exact Hdiv.
Qed.

Lemma rtsds_load_event_cells_witness :
  exists recs,
    rtsds_load_event (Some [1; 0xffff; 0; 3; 0x10; 0xffff]) = Some recs /\
    length recs = 1%nat /\
    concat (map rtsds_seq_cells recs) = [1; 0xffff; 0; 3; 0x10; 0xffff].
Proof.
  apply (proj1 (rtsds_load_event_cells [1; 0xffff; 0; 3; 0x10; 0xffff]) 1%nat);
    [lia | reflexivity].
Defined.

(** ** Scripts: steps for other lanes *)

Section OtherLanes.
Context {D : Type} `{Device D}.

Lemma rtsds_run_steps_inapplicable (cf : rtsds_conf D) (sid : Z)
      (seq : list rtsds_seq) (w : rtsds_io D) :
  Forall (fun s => seq_applies s sid = false) seq ->
  rtsds_run_steps cf sid seq 0 w = (0, w).
Proof.
  induction 1 as [| s rest Hs Hrest IH]; [reflexivity |].
  simpl. destruct (seq_action s =? RTSDS_SEQ_STOP); [reflexivity |].
  rewrite Hs, !Bool.andb_false_r.
  unfold bind, rtsds_delay_sleep. simpl. exact IH.
Qed.

(** X2.  A script in which no step names the lane in its lane mask does
    nothing for that lane: the run returns 0 and leaves the controller,
    the hardware and the trace as they were (no sleep, no backend call),
    whatever the actions of the steps are. *)
Theorem rtsds_run_event_other_lanes :
  forall (c : rtsds_ctrl D) (sid evt : Z) (seq : list rtsds_seq),
    evt <= RTSDS_EVENT_MAX -> sid <= max_sds (conf c) ->
    nth (Z.to_nat evt) (sequence c) None = Some seq ->
    Forall (fun s => seq_applies s sid = false) seq ->
    rtsds_run_event sid evt c = (0, c).
Proof.
  intros c sid evt seq He Hs Hseq Hnone.
  rewrite (rtsds_run_event_steps c sid evt seq He Hs Hseq).
  unfold on_io. rewrite rtsds_run_steps_inapplicable by exact Hnone.
  destruct c; reflexivity.
Qed.

End OtherLanes.

Lemma rtsds_run_event_other_lanes_witness :
  let c := ctrl_838x RTSDS_EVENT_INIT
             [ mk_seq RTSDS_SEQ_WAIT 0x0002 0 0 7 0;
               mk_seq RTSDS_SEQ_MASK 0x003e 0 3 0x10 0xffff ] in
  rtsds_run_event 0 RTSDS_EVENT_INIT c = (0, c).
Proof.
  intro c.
  apply (rtsds_run_event_other_lanes c 0 RTSDS_EVENT_INIT
           [ mk_seq RTSDS_SEQ_WAIT 0x0002 0 0 7 0;
             mk_seq RTSDS_SEQ_MASK 0x003e 0 3 0x10 0xffff ]).
  - unfold RTSDS_EVENT_INIT, RTSDS_EVENT_MAX. lia.
  - simpl. unfold RTSDS_838X_MAX_SDS. lia.
  - reflexivity.
  - repeat constructor.
Defined.

(** ** Lifecycle operations on lanes that are not managed *)

(** X3.  On a lane whose bit is not set in [sds_mask] the operations
    init, power_on, power_off, set_mode and reset return 0 and leave the
    controller untouched: no lock, no script, no backend call.  For
    set_mode this comes before the test of the mode, so a mode that is
    not [PHY_MODE_ETHERNET] is answered 0 as well. *)
Theorem lifecycle_unmanaged_is_noop :
  forall (D : Type) (HD : Device D) (c : rtsds_ctrl D) (sid : Z),
    Z.land (sds_mask c) (BIT sid) = 0 ->
    rtsds_phy_init sid c = (0, c) /\
    rtsds_phy_power_on sid c = (0, c) /\
    rtsds_phy_power_off sid c = (0, c) /\
    (forall eth mode submode, rtsds_phy_set_mode eth sid mode submode c = (0, c)) /\
    (forall reset, rtsds_phy_reset reset sid c = (0, c)).
Proof.
  intros D HD c sid Hbit.
  unfold rtsds_phy_init, rtsds_phy_power_on, rtsds_phy_power_off,
    rtsds_phy_set_mode, rtsds_phy_reset, managed.
  rewrite Hbit. simpl. repeat split.
Qed.

Lemma lifecycle_unmanaged_is_noop_witness :
  let c := ctrl_with io_zero rtsds_838x_conf 0x1 [] in
  rtsds_phy_init 1 c = (0, c) /\
  rtsds_phy_power_on 1 c = (0, c) /\
  rtsds_phy_power_off 1 c = (0, c) /\
  (forall eth mode submode, rtsds_phy_set_mode eth 1 mode submode c = (0, c)) /\
  (forall reset, rtsds_phy_reset reset 1 c = (0, c)).
Proof.
  intro c. apply (lifecycle_unmanaged_is_noop ram _ c 1). reflexivity.
Defined.

(** ** Mode tables *)

(** X4.  In each of the four families the table is a one-to-one map on
    the symbols it names: the reverse lookup of the code stored for a
    mapped symbol answers that symbol. *)
Theorem mode_map_lookup_roundtrip :
  forall (D : Type) (HD : Device D) (c : rtsds_ctrl D) (m : Z),
    In (conf c) rtsds_families ->
    0 <= m < PHY_INTERFACE_MODE_MAX ->
    nth (Z.to_nat m) (mode_map (conf c)) 0 <> 0 ->
    rtsds_hwmode_to_phymode c (nth (Z.to_nat m) (mode_map (conf c)) 0) = m.
Proof.
  intros D HD c m Hin Hm Hmapped.
  change (rtsds_hwmode_to_phymode c (nth (Z.to_nat m) (mode_map (conf c)) 0))
    with (hwmode_lookup (mode_map (conf c)) (nth (Z.to_nat m) (mode_map (conf c)) 0)).
  assert (Hcheck : mode_map_roundtrip_check (mode_map (conf c)) = true).
  { simpl in Hin.
    destruct Hin as [<- | [<- | [<- | [<- | []]]]]; vm_compute; reflexivity. }
  unfold mode_map_roundtrip_check in Hcheck.
  rewrite forallb_forall in Hcheck.
  specialize (Hcheck (Z.to_nat m)).
  assert (Hinm : In (Z.to_nat m) (List.seq 0 (Z.to_nat PHY_INTERFACE_MODE_MAX))).
  { apply in_seq. unfold PHY_INTERFACE_MODE_MAX in *. lia. }
  specialize (Hcheck Hinm).
  apply Bool.orb_true_iff in Hcheck. destruct Hcheck as [Hz | Hfound].
  - apply Z.eqb_eq in Hz. contradiction.
  - apply Z.eqb_eq in Hfound. rewrite Hfound. lia.
Qed.

Lemma mode_map_lookup_roundtrip_witness :
  rtsds_hwmode_to_phymode (ctrl_838x 0 [])
    (nth (Z.to_nat PHY_INTERFACE_MODE_1000BASEX)
         (mode_map (conf (ctrl_838x 0 []))) 0)
  = PHY_INTERFACE_MODE_1000BASEX.
Proof.
  apply (mode_map_lookup_roundtrip ram _ (ctrl_838x 0 [])
                                   PHY_INTERFACE_MODE_1000BASEX).
  - simpl. auto.
  - unfold PHY_INTERFACE_MODE_1000BASEX, PHY_INTERFACE_MODE_MAX. lia.
  - vm_compute. discriminate.
Defined.

(** ** The lock around the lifecycle operations *)

Lemma no_lock_app (l1 l2 : list io_event) :
  no_lock l1 -> no_lock l2 -> no_lock (l1 ++ l2).
Proof. unfold no_lock. intros H1 H2. apply Forall_app; auto. Qed.

Lemma io_appends_refl {D : Type} (w : rtsds_io D) : io_appends w w.
Proof.
  split; [reflexivity |]. exists []. rewrite app_nil_r.
  split; [reflexivity | constructor].
Qed.

Lemma io_appends_trans {D : Type} (w1 w2 w3 : rtsds_io D) :
  io_appends w1 w2 -> io_appends w2 w3 -> io_appends w1 w3.
Proof.
  intros [Hb1 (l1 & Ht1 & Hn1)] [Hb2 (l2 & Ht2 & Hn2)].
  split; [congruence |].
  exists (l1 ++ l2). rewrite Ht2, Ht1, app_assoc.
  split; [reflexivity | now apply no_lock_app].
Qed.

Section IoOnly.
Context {D : Type} `{Device D}.

Lemma io_only_ret {A : Type} (a : A) : io_only (ret (W := rtsds_io D) a).
Proof. intros w. apply io_appends_refl. Qed.

Lemma io_only_bind {A B : Type} (m : St (rtsds_io D) A) (k : A -> St (rtsds_io D) B) :
  io_only m -> (forall a, io_only (k a)) -> io_only (bind m k).
Proof.
  intros Hm Hk w. unfold bind.
  specialize (Hm w). destruct (m w) as [a w1]. simpl in Hm.
  eapply io_appends_trans; [exact Hm | apply Hk].
Qed.

Lemma io_only_event (e : io_event) (w : rtsds_io D) (d : D) :
  is_mutex e = false ->
  io_appends w (mk_io (io_base w) d (io_trace w ++ [e])).
Proof.
  intros He. split; [reflexivity |].
  exists [e]. split; [reflexivity |]. repeat constructor. exact He.
Qed.

Lemma io_only_ctrl_base : io_only (D := D) ctrl_base.
Proof. intros w. apply io_appends_refl. Qed.

Lemma io_only_ioread32 (addr : Z) : io_only (ioread32 addr).
Proof.
  intros w. unfold ioread32.
  destruct (dev_read (io_dev w) addr) as [v d]. now apply io_only_event.
Qed.

Lemma io_only_iowrite32 (val addr : Z) : io_only (iowrite32 val addr).
Proof. intros w. unfold iowrite32. now apply io_only_event. Qed.

Lemma io_only_usleep_range (lo hi : Z) : io_only (D := D) (usleep_range lo hi).
Proof. intros w. unfold usleep_range. now apply io_only_event. Qed.

Ltac io_only_step :=
  match goal with
  | |- io_only (bind _ _) => apply io_only_bind; [| intros ?]
  | |- io_only (ret _) => apply io_only_ret
  | |- io_only ctrl_base => apply io_only_ctrl_base
  | |- io_only (ioread32 _) => apply io_only_ioread32
  | |- io_only (iowrite32 _ _) => apply io_only_iowrite32
  | |- io_only (usleep_range _ _) => apply io_only_usleep_range
  | |- io_only (if ?b then _ else _) => destruct b
  | |- io_only (match ?x with _ => _ end) => destruct x
  | |- io_only _ => solve [auto]
  end.

Ltac io_only_solve := cbv zeta; repeat io_only_step.

Lemma io_only_iomask32 (mask value addr : Z) : io_only (iomask32 mask value addr).
Proof. unfold iomask32. io_only_solve. Qed.

Lemma io_only_when_read (c : bool) (addr : Z) : io_only (when_read c addr).
Proof. unfold when_read. io_only_solve. Qed.

Lemma io_only_rtsds_wait_idle (n : nat) : io_only (rtsds_wait_idle n).
Proof.
  induction n as [| n IH]; [apply io_only_ret |].
  destruct n as [| n]; [apply io_only_ret |].
  change (rtsds_wait_idle (S (S n)))
    with (base <- ctrl_base ;;
          v <- ioread32 base ;;
          if negb (Z.land v 1 =? 0)
          then usleep_range 50 60 ;; rtsds_wait_idle (S n)
          else ret (S n)).
  io_only_solve.
Qed.

#[local] Hint Resolve io_only_iomask32 io_only_when_read io_only_rtsds_wait_idle : core.

Lemma io_only_838x_read (s p r : Z) : io_only (rtsds_838x_read s p r).
Proof. unfold rtsds_838x_read. io_only_solve. Qed.
Lemma io_only_838x_mask (s p r v m : Z) : io_only (rtsds_838x_mask s p r v m).
Proof. unfold rtsds_838x_mask. io_only_solve. Qed.
Lemma io_only_838x_set_mode (s c : Z) : io_only (rtsds_838x_set_mode s c).
Proof. unfold rtsds_838x_set_mode. io_only_solve. Qed.
Lemma io_only_838x_get_mode (s : Z) : io_only (rtsds_838x_get_mode s).
Proof. unfold rtsds_838x_get_mode. io_only_solve. Qed.

Lemma io_only_839x_read (s p r : Z) : io_only (rtsds_839x_read s p r).
Proof. unfold rtsds_839x_read. io_only_solve. Qed.
Lemma io_only_839x_mask (s p r v m : Z) : io_only (rtsds_839x_mask s p r v m).
Proof. unfold rtsds_839x_mask. io_only_solve. Qed.
#[local] Hint Resolve io_only_839x_read io_only_839x_mask : core.
Lemma io_only_839x_set_mode (s c : Z) : io_only (rtsds_839x_set_mode s c).
Proof. unfold rtsds_839x_set_mode. io_only_solve. Qed.
Lemma io_only_839x_get_mode (s : Z) : io_only (rtsds_839x_get_mode s).
Proof. unfold rtsds_839x_get_mode. io_only_solve. Qed.

Lemma io_only_930x_read (s p r : Z) : io_only (rtsds_930x_read s p r).
Proof. unfold rtsds_930x_read. io_only_solve. Qed.
#[local] Hint Resolve io_only_930x_read : core.
Lemma io_only_930x_mask (s p r v m : Z) : io_only (rtsds_930x_mask s p r v m).
Proof. unfold rtsds_930x_mask. io_only_solve. Qed.
Lemma io_only_930x_set_mode (s c : Z) : io_only (rtsds_930x_set_mode s c).
Proof. unfold rtsds_930x_set_mode. io_only_solve. Qed.
Lemma io_only_930x_get_mode (s : Z) : io_only (rtsds_930x_get_mode s).
Proof. unfold rtsds_930x_get_mode. io_only_solve. Qed.

Lemma io_only_931x_read (s p r : Z) : io_only (rtsds_931x_read s p r).
Proof. unfold rtsds_931x_read. io_only_solve. Qed.
#[local] Hint Resolve io_only_931x_read : core.
Lemma io_only_931x_mask (s p r v m : Z) : io_only (rtsds_931x_mask s p r v m).
Proof. unfold rtsds_931x_mask. io_only_solve. Qed.
#[local] Hint Resolve io_only_931x_mask : core.
Lemma io_only_931x_set_mode (s c : Z) : io_only (rtsds_931x_set_mode s c).
Proof. unfold rtsds_931x_set_mode. io_only_solve. Qed.
Lemma io_only_931x_get_mode (s : Z) : io_only (rtsds_931x_get_mode s).
Proof. unfold rtsds_931x_get_mode. io_only_solve. Qed.

#[local] Hint Resolve io_only_838x_read io_only_838x_mask io_only_838x_set_mode
  io_only_838x_get_mode io_only_839x_set_mode io_only_839x_get_mode
  io_only_930x_mask io_only_930x_set_mode io_only_930x_get_mode
  io_only_931x_set_mode io_only_931x_get_mode : core.

Lemma families_io_only (cf : rtsds_conf D) :
  In cf rtsds_families -> conf_io_only cf.
Proof.
  intros Hin. simpl in Hin.
  destruct Hin as [<- | [<- | [<- | [<- | []]]]];
    unfold conf_io_only; cbn [conf_read conf_mask conf_set_mode conf_get_mode
                                rtsds_838x_conf rtsds_839x_conf rtsds_930x_conf
                                rtsds_931x_conf];
    (split; [| split; [| split]]); intros;
    first [ apply io_only_838x_read | apply io_only_838x_mask
          | apply io_only_838x_set_mode | apply io_only_838x_get_mode
          | apply io_only_839x_read | apply io_only_839x_mask
          | apply io_only_839x_set_mode | apply io_only_839x_get_mode
          | apply io_only_930x_read | apply io_only_930x_mask
          | apply io_only_930x_set_mode | apply io_only_930x_get_mode
          | apply io_only_931x_read | apply io_only_931x_mask
          | apply io_only_931x_set_mode | apply io_only_931x_get_mode ].
Qed.

Lemma io_only_for_each_sid (lo hi : Z) (body : Z -> St (rtsds_io D) unit) :
  (forall sid, io_only (body sid)) -> io_only (for_each_sid lo hi body).
Proof.
  intros Hbody. unfold for_each_sid.
  induction (List.seq 0 (Z.to_nat (hi - lo + 1))) as [| k l IH]; simpl.
  - apply io_only_ret.
  - apply io_only_bind; [apply Hbody | intros _; exact IH].
Qed.

Lemma io_only_83xx_soft_reset (cf : rtsds_conf D) (lo hi usec : Z) :
  conf_io_only cf -> io_only (rtsds_83xx_soft_reset cf lo hi usec).
Proof.
  intros (_ & Hmask & _). unfold rtsds_83xx_soft_reset.
  repeat (apply io_only_bind; [| intros ?]);
    try apply io_only_for_each_sid; try apply io_only_usleep_range;
    intros; io_only_solve.
Qed.

Lemma family_resets_io_only (cf : rtsds_conf D)
      (reset : rtsds_conf D -> Z -> St (rtsds_io D) Z) (sid : Z) :
  In (cf, reset) rtsds_family_resets -> io_only (reset cf sid).
Proof.
  intros Hin. simpl in Hin.
  assert (Hsoft : forall cf' lo hi usec,
             In cf' rtsds_families ->
             io_only (rtsds_83xx_soft_reset cf' lo hi usec)).
  { intros. apply io_only_83xx_soft_reset. now apply families_io_only. }
  destruct Hin as [Heq | [Heq | [Heq | [Heq | []]]]];
    injection Heq as <- <-.
  - unfold rtsds_838x_reset. io_only_solve. apply Hsoft. simpl; auto.
  - unfold rtsds_839x_reset. io_only_solve; apply Hsoft; simpl; auto.
  - unfold rtsds_930x_reset. io_only_solve.
  - unfold rtsds_931x_reset. io_only_solve.
Qed.

End IoOnly.

Section Locked.
Context {D : Type} `{Device D}.
Variable cf : rtsds_conf D.
Hypothesis Hcf : conf_io_only cf.

Lemma ctrl_io_only_ret {A : Type} (a : A) : ctrl_io_only cf (ret a).
Proof. intros c Hc. split; [apply io_appends_refl | exact Hc]. Qed.

Lemma ctrl_io_only_bind {A B : Type} (m : St (rtsds_ctrl D) A)
      (k : A -> St (rtsds_ctrl D) B) :
  ctrl_io_only cf m -> (forall a, ctrl_io_only cf (k a)) ->
  ctrl_io_only cf (bind m k).
Proof.
  intros Hm Hk c Hc. unfold bind.
  destruct (Hm c Hc) as [Happ Hconf]. destruct (m c) as [a c1].
  simpl in Happ, Hconf.
  destruct (Hk a c1 Hconf) as [Happ' Hconf'].
  split; [eapply io_appends_trans; eassumption | exact Hconf'].
Qed.

Lemma ctrl_io_only_on_io {A : Type} (m : St (rtsds_io D) A) :
  io_only m -> ctrl_io_only cf (on_io m).
Proof.
  intros Hm c Hc. unfold on_io.
  specialize (Hm (ctrl_io c)). destruct (m (ctrl_io c)) as [a w].
  simpl in *. auto.
Qed.

Lemma ctrl_io_only_set_sds_mode (sid phymode : Z) :
  ctrl_io_only cf (set_sds_mode sid phymode).
Proof. intros c Hc. split; [apply io_appends_refl | exact Hc]. Qed.

Lemma io_only_rtsds_run_steps (sid : Z) (seq : list rtsds_seq) :
  forall delay, io_only (rtsds_run_steps cf sid seq delay).
Proof.
  destruct Hcf as (_ & Hmask & _).
  induction seq as [| s rest IH]; intros delay; simpl.
  - apply io_only_ret.
  - destruct (seq_action s =? RTSDS_SEQ_STOP); [apply io_only_ret |].
    apply io_only_bind.
    + unfold rtsds_delay_sleep.
      destruct (negb _); [apply io_only_usleep_range | apply io_only_ret].
    + intros _.
      destruct ((seq_action s =? RTSDS_SEQ_MASK) && seq_applies s sid);
        [| apply IH].
      apply io_only_bind; [apply Hmask |].
      intros r. destruct (negb (r =? 0)); [apply io_only_ret | apply IH].
Qed.

Lemma ctrl_io_only_rtsds_run_event (sid evt : Z) :
  ctrl_io_only cf (rtsds_run_event sid evt).
Proof.
  intros c Hc. unfold rtsds_run_event.
  destruct ((evt >? RTSDS_EVENT_MAX) || (sid >? max_sds (conf c)));
    [split; [apply io_appends_refl | exact Hc] |].
  destruct (nth (Z.to_nat evt) (sequence c) None) as [seq |];
    [| split; [apply io_appends_refl | exact Hc]].
  apply ctrl_io_only_on_io; [| exact Hc].
  rewrite Hc. apply io_only_rtsds_run_steps.
Qed.

Lemma ends_unlocked_unlock {A : Type} (r : A) :
  ends_unlocked cf (mutex_unlock ;; ret r).
Proof.
  intros c Hc. exists []. split; [reflexivity | constructor].
Qed.

Lemma ends_unlocked_bind {A B : Type} (m : St (rtsds_ctrl D) A)
      (k : A -> St (rtsds_ctrl D) B) :
  ctrl_io_only cf m -> (forall a, ends_unlocked cf (k a)) ->
  ends_unlocked cf (bind m k).
Proof.
  intros Hm Hk c Hc. unfold bind.
  destruct (Hm c Hc) as [[_ (l & Ht & Hl)] Hconf]. destruct (m c) as [a c1].
  simpl in Ht, Hconf.
  destruct (Hk a c1 Hconf) as (mid & Ht' & Hmid).
  exists (l ++ mid). rewrite Ht', Ht, <- !app_assoc.
  split; [reflexivity | now apply no_lock_app].
Qed.

Lemma locked_section_lock {A : Type} (k : St (rtsds_ctrl D) A) (c : rtsds_ctrl D) :
  conf c = cf -> ends_unlocked cf k ->
  locked_section (io_trace (ctrl_io c))
                 (io_trace (ctrl_io (snd ((mutex_lock ;; k) c)))).
Proof.
  intros Hc Hk. unfold bind, mutex_lock.
  match goal with
  | |- context [k ?c1] => destruct (Hk c1 Hc) as (mid & Ht & Hmid)
  end.
  exists mid. rewrite Ht. simpl. rewrite <- app_assoc.
  split; [reflexivity | exact Hmid].
Qed.

End Locked.

Section LockedOps.
Context {D : Type} `{Device D}.

Ltac locked_body Hcf :=
  repeat first
    [ apply ends_unlocked_unlock
    | apply ends_unlocked_bind; [| intros ?]
    | apply ctrl_io_only_rtsds_run_event; exact Hcf
    | apply ctrl_io_only_set_sds_mode
    | apply ctrl_io_only_ret
    | apply ctrl_io_only_bind; [| intros ?]
    | apply ctrl_io_only_on_io
    | match goal with
      | |- ctrl_io_only _ (if ?b then _ else _) => destruct b
      | |- ends_unlocked _ (if ?b then _ else _) => destruct b
      end ].

(** X5.  With any of the four family backends, each lifecycle operation
    on a managed lane adds exactly one locked section to the trace: the
    lock, then the accesses and sleeps of its scripts and backend calls,
    with no further lock and no unlock among them, then the unlock.  The
    unlock is reached on every path, also when a script or the backend
    fails, and nothing is accessed outside the section. *)
Theorem lifecycle_runs_in_one_locked_section :
  forall (c : rtsds_ctrl D) (reset : rtsds_conf D -> Z -> St (rtsds_io D) Z)
         (sid : Z),
    In (conf c, reset) rtsds_family_resets ->
    Z.land (sds_mask c) (BIT sid) <> 0 ->
    let t := io_trace (ctrl_io c) in
    locked_section t (io_trace (ctrl_io (snd (rtsds_phy_init sid c)))) /\
    locked_section t (io_trace (ctrl_io (snd (rtsds_phy_power_on sid c)))) /\
    locked_section t (io_trace (ctrl_io (snd (rtsds_phy_power_off sid c)))) /\
    locked_section t (io_trace (ctrl_io (snd (rtsds_phy_reset reset sid c)))) /\
    (forall phymode hwmode,
        locked_section t
          (io_trace (ctrl_io (snd (rtsds_phy_set_mode_int sid phymode hwmode c))))).
Proof.
  intros c reset sid Hin Hman t.
  assert (Hfam : In (conf c) rtsds_families).
  { simpl in Hin |- *.
    destruct Hin as [Heq | [Heq | [Heq | [Heq | []]]]];
      injection Heq as Heq _; rewrite <- Heq; auto. }
  assert (Hcf : conf_io_only (conf c)) by now apply families_io_only.
  assert (Hreset : io_only (reset (conf c) sid))
    by now apply family_resets_io_only.
  unfold rtsds_phy_init, rtsds_phy_power_on, rtsds_phy_power_off,
    rtsds_phy_reset, rtsds_phy_reset_int, rtsds_phy_set_mode_int, managed.
  destruct (Z.eqb_spec (Z.land (sds_mask c) (BIT sid)) 0) as [Hz | _];
    [contradiction |].
  cbn [negb].
  repeat split; intros;
    apply (locked_section_lock (conf c) _ c eq_refl);
    locked_body Hcf; try exact Hcf; try assumption;
    apply (proj1 (proj2 (proj2 Hcf))).
Qed.

End LockedOps.

Lemma lifecycle_runs_in_one_locked_section_witness :
  locked_section []
    (io_trace (ctrl_io (snd (rtsds_phy_init 0
       (ctrl_838x RTSDS_EVENT_INIT script_with_bad_page))))).
Proof.
  destruct (lifecycle_runs_in_one_locked_section
              (ctrl_838x RTSDS_EVENT_INIT script_with_bad_page)
              rtsds_838x_reset 0) as [Hinit _].
  - left. reflexivity.
  - vm_compute. discriminate.
  - exact Hinit.
Defined.

(** ** What the mode entries return *)

Section ModeEntries.
Context {D : Type} `{Device D}.

Lemma fst_bind_const {A B : Type} (m : St (rtsds_io D) A)
      (k : A -> St (rtsds_io D) B) (b : B) (w : rtsds_io D) :
  (forall a w', fst (k a w') = b) -> fst (bind m k w) = b.
Proof. intros Hk. unfold bind. destruct (m w) as [a w']. apply Hk. Qed.

Lemma fst_bind_tagged {A : Type} (m : St (rtsds_io D) A)
      (k : A -> St (rtsds_io D) Z) (w : rtsds_io D) :
  (forall a w', Z.testbit (fst (k a w')) 16 = true) ->
  Z.testbit (fst (bind m k w)) 16 = true.
Proof. intros Hk. unfold bind. destruct (m w) as [a w']. apply Hk. Qed.

(** X6.  The mode entries of the four families report nothing but a lane
    out of range.  Above the family's last lane, [set_mode] and
    [get_mode] return [-EINVAL] and touch nothing.  For a lane in range,
    on any hardware, [set_mode] returns 0 (the result of the register
    write it makes through the backend is dropped) and [get_mode]
    returns a code with the tag bit 0x10000 set, never an error. *)
Theorem mode_entries_report_only_the_lane :
  forall (cf : rtsds_conf D), In cf rtsds_families ->
  forall (w : rtsds_io D) (sid combomode : Z),
    (sid > max_sds cf ->
     conf_set_mode cf sid combomode w = (- EINVAL, w) /\
     conf_get_mode cf sid w = (- EINVAL, w)) /\
    (0 <= sid <= max_sds cf ->
     fst (conf_set_mode cf sid combomode w) = 0 /\
     Z.testbit (fst (conf_get_mode cf sid w)) 16 = true).
Proof.
  intros cf Hin w sid combomode. simpl in Hin.
  destruct Hin as [<- | [<- | [<- | [<- | []]]]];
    cbn [conf_set_mode conf_get_mode max_sds rtsds_838x_conf rtsds_839x_conf
         rtsds_930x_conf rtsds_931x_conf];
    unfold rtsds_838x_set_mode, rtsds_838x_get_mode,
      rtsds_839x_set_mode, rtsds_839x_get_mode,
      rtsds_930x_set_mode, rtsds_930x_get_mode,
      rtsds_931x_set_mode, rtsds_931x_get_mode;
    (split;
     [ intros Hout;
       destruct (Z.gtb_spec sid 0) as [_ | _];
       match goal with
       | |- context [sid >? ?M] =>
           destruct (Z.gtb_spec sid M) as [_ | Hle]; [| lia]
       end;
       rewrite ?Bool.orb_true_r; split; reflexivity
     | intros [Hlo Hhi];
       match goal with
       | |- context [sid >? ?M] =>
           destruct (Z.gtb_spec sid M) as [Hgt | _]; [lia |]
       end;
       try (destruct (Z.ltb_spec sid 0) as [Hneg | _]; [lia |]);
       cbn [orb];
       try destruct (rtsds_930x_mode_offset (s32 sid)) as [[[modereg modeshift] subreg] subshift];
       split;
       [ repeat (apply fst_bind_const; intros); reflexivity
       | repeat (apply fst_bind_tagged; intros); apply RTSDS_COMBOMODE_tag ] ]).
Qed.

End ModeEntries.

Lemma mode_entries_report_only_the_lane_witness :
  conf_set_mode rtsds_931x_conf 14 (RTSDS_COMBOMODE 6 0) io_stuck
  = (- EINVAL, io_stuck) /\
  fst (conf_set_mode rtsds_931x_conf 3 (RTSDS_COMBOMODE 6 0) io_stuck) = 0.
Proof.
  assert (Hfam : In (rtsds_931x_conf (D := stuck_bus)) rtsds_families)
    by (simpl; auto).
  destruct (mode_entries_report_only_the_lane
              rtsds_931x_conf Hfam io_stuck 14 (RTSDS_COMBOMODE 6 0))
    as [Hout _].
  destruct (mode_entries_report_only_the_lane
              rtsds_931x_conf Hfam io_stuck 3 (RTSDS_COMBOMODE 6 0))
    as [_ Hin].
  split.
  - apply Hout. reflexivity.
  - apply Hin. simpl. unfold RTSDS_931X_MAX_SDS. lia.
Defined.

(** ** RTL931x: a read that times out inside [get_mode] *)

Lemma land_ones_range (x n : Z) : 0 <= n -> 0 <= Z.land x (Z.ones n) < 2 ^ n.
Proof.
  intros Hn. rewrite Z.land_ones by exact Hn.
  apply Z.mod_pos_bound. apply Z.pow_pos_nonneg; lia.
Qed.

Section BusyBus931x.
Context {D : Type} `{Device D}.

Lemma rtsds_931x_read_busy (w : rtsds_io D) (sid page reg : Z) :
  (forall d, Z.land (u32 (fst (dev_read d (io_base w)))) 1 <> 0) ->
  sid <= RTSDS_931X_MAX_SDS -> page <= RTSDS_931X_MAX_PAGE -> reg <= 31 ->
  exists d',
    rtsds_931x_read sid page reg w
    = (- EIO,
       mk_io (io_base w) d'
             (io_trace w ++
              EvWrite (io_base w)
                      (u32 (rtsds_931x_cmd (rtsds_931x_backsid sid page) page reg 1))
                :: busy_polls (io_base w) 99)).
Proof.
  intros Hbusy Hs Hp Hr.
  unfold rtsds_931x_read.
  rewrite (gtb_none _ _ _ _ _ _ Hs Hp Hr).
  unfold bind, ctrl_base, iowrite32.
  match goal with
  | |- context [rtsds_wait_idle 100 ?w'] =>
      destruct (rtsds_wait_idle_busy 99 w') as (d' & Hrun); [exact Hbusy |]
  end.
  rewrite Hrun. exists d'. unfold ret.
  cbn [io_base io_trace]. rewrite <- app_assoc. reflexivity.
Qed.

(** X7.  On the RTL931x, when the bus never finishes a command,
    [rtsds_931x_get_mode] of a lane in range does not fail: the [-EIO]
    of the register read is shifted and masked like a register value,
    and the code returned has submode 0x3f. *)
Theorem rtsds_931x_get_mode_hides_timeout :
  forall (w : rtsds_io D) (sid : Z),
    (forall d, Z.land (u32 (fst (dev_read d (io_base w)))) 1 <> 0) ->
    0 <= sid <= RTSDS_931X_MAX_SDS ->
    RTSDS_SUBMODE (fst (rtsds_931x_get_mode sid w)) = 0x3f /\
    Z.testbit (fst (rtsds_931x_get_mode sid w)) 16 = true.
Proof.
  intros w sid Hbusy [Hlo Hhi].
  unfold rtsds_931x_get_mode.
  destruct (Z.gtb_spec sid RTSDS_931X_MAX_SDS) as [Hgt | _]; [lia |].
  destruct (rtsds_931x_read_busy w sid 31 9 Hbusy Hhi) as (d' & Hread);
    [unfold RTSDS_931X_MAX_PAGE; lia | lia |].
  unfold bind. rewrite Hread.
  unfold ioread32.
  match goal with
  | |- context [dev_read ?d ?a] => destruct (dev_read d a) as [v d'']
  end.
  cbn [fst ret].
  change (Z.land (Z.shiftr (- EIO) 6) 0x3f) with 0x3f.
  split; [| apply RTSDS_COMBOMODE_tag].
  apply RTSDS_SUBMODE_COMBOMODE; [| lia].
  match goal with
  | |- 0 <= Z.land ?x 31 <= 255 =>
      pose proof (land_ones_range x 5 ltac:(lia)) as Hm
  end.
  change (Z.ones 5) with 31 in Hm. change (2 ^ 5) with 32 in Hm. lia.
Qed.

End BusyBus931x.

Lemma rtsds_931x_get_mode_hides_timeout_witness :
  RTSDS_SUBMODE (fst (rtsds_931x_get_mode 3 io_stuck)) = 0x3f /\
  Z.testbit (fst (rtsds_931x_get_mode 3 io_stuck)) 16 = true.
Proof.
  apply (rtsds_931x_get_mode_hides_timeout io_stuck 3).
  - intros d. simpl. discriminate.
  - unfold RTSDS_931X_MAX_SDS. lia.
Defined.

(** ** RTL838x: the register map *)

Lemma shl32_small (x n : Z) :
  0 <= x -> 0 <= n -> x * 2 ^ n < 2 ^ 32 -> shl32 x n = x * 2 ^ n.
Proof.
  intros Hx Hn Hlt. unfold shl32. rewrite Z.shiftl_mul_pow2 by exact Hn.
  apply u32_small. split; [| exact Hlt].
  apply Z.mul_nonneg_nonneg; [exact Hx |]. apply Z.pow_nonneg. lia.
Qed.

Lemma s32_u32 (x : Z) : s32 (u32 x) = s32 x.
Proof. unfold s32. now rewrite u32_idem. Qed.

Lemma rtsds_838x_offset_eq (sid page reg : Z) :
  0 <= sid <= RTSDS_838X_MAX_SDS -> 0 <= page <= RTSDS_838X_MAX_PAGE ->
  0 <= reg <= 31 ->
  rtsds_838x_offset sid page reg
  = if (page =? 0) || (page =? 3)
    then 512 * sid + 128 * page + 4 * reg
    else 2944 + 256 * sid + 128 * page + 4 * reg.
Proof.
  unfold RTSDS_838X_MAX_SDS, RTSDS_838X_MAX_PAGE. intros Hs Hp Hr.
  unfold rtsds_838x_offset.
  rewrite (shl32_small sid 9), (shl32_small sid 8), (shl32_small page 7),
    (shl32_small reg 2) by lia.
  change (2 ^ 9) with 512. change (2 ^ 8) with 256.
  change (2 ^ 7) with 128. change (2 ^ 2) with 4.
  destruct ((page =? 0) || (page =? 3)); rewrite s32_small; lia.
Qed.

Lemma rtsds_838x_offset_inj (sid page reg sid' page' reg' : Z) :
  0 <= sid <= RTSDS_838X_MAX_SDS -> 0 <= page <= RTSDS_838X_MAX_PAGE ->
  0 <= reg <= 31 ->
  0 <= sid' <= RTSDS_838X_MAX_SDS -> 0 <= page' <= RTSDS_838X_MAX_PAGE ->
  0 <= reg' <= 31 ->
  rtsds_838x_offset sid page reg = rtsds_838x_offset sid' page' reg' ->
  sid = sid' /\ page = page' /\ reg = reg'.
Proof.
  intros Hs Hp Hr Hs' Hp' Hr'.
  rewrite !rtsds_838x_offset_eq by assumption.
  unfold RTSDS_838X_MAX_SDS, RTSDS_838X_MAX_PAGE in *.
  assert (Hpc : page = 0 \/ page = 1 \/ page = 2 \/ page = 3) by lia.
  assert (Hpc' : page' = 0 \/ page' = 1 \/ page' = 2 \/ page' = 3) by lia.
  destruct Hpc as [-> | [-> | [-> | ->]]];
    destruct Hpc' as [-> | [-> | [-> | ->]]]; cbn [Z.eqb orb Pos.eqb]; lia.
Qed.

(** X8.  The RTL838x register map has no overlap: for lanes 0..5, pages
    0..3 and registers 0..31 the offset is a multiple of 4 inside the
    window of 0x1200 bytes, and two different (lane, page, register)
    never get the same offset. *)
Theorem rtsds_838x_offset_one_to_one :
  forall (sid page reg sid' page' reg' : Z),
    0 <= sid <= RTSDS_838X_MAX_SDS -> 0 <= page <= RTSDS_838X_MAX_PAGE ->
    0 <= reg <= 31 ->
    0 <= sid' <= RTSDS_838X_MAX_SDS -> 0 <= page' <= RTSDS_838X_MAX_PAGE ->
    0 <= reg' <= 31 ->
    0 <= rtsds_838x_offset sid page reg < 0x1200 /\
    rtsds_838x_offset sid page reg mod 4 = 0 /\
    (rtsds_838x_offset sid page reg = rtsds_838x_offset sid' page' reg' ->
     sid = sid' /\ page = page' /\ reg = reg').
Proof.
  intros sid page reg sid' page' reg' Hs Hp Hr Hs' Hp' Hr'.
  split; [| split].
  - rewrite rtsds_838x_offset_eq by assumption.
    unfold RTSDS_838X_MAX_SDS, RTSDS_838X_MAX_PAGE in *.
    destruct (Z.eqb_spec page 0), (Z.eqb_spec page 3); cbn [orb]; lia.
  - rewrite rtsds_838x_offset_eq by assumption.
    destruct ((page =? 0) || (page =? 3)).
    + replace (512 * sid + 128 * page + 4 * reg)
        with ((128 * sid + 32 * page + reg) * 4) by lia.
      apply Z.mod_mul. lia.
    + replace (2944 + 256 * sid + 128 * page + 4 * reg)
        with ((736 + 64 * sid + 32 * page + reg) * 4) by lia.
      apply Z.mod_mul. lia.
  - now apply rtsds_838x_offset_inj.
Qed.

Lemma rtsds_838x_offset_one_to_one_witness :
  0 <= rtsds_838x_offset 5 2 31 < 0x1200 /\
  rtsds_838x_offset 5 2 31 mod 4 = 0 /\
  (rtsds_838x_offset 5 2 31 = rtsds_838x_offset 0 3 0 ->
   5 = 0 /\ 2 = 3 /\ 31 = 0).
Proof.
  apply rtsds_838x_offset_one_to_one;
    unfold RTSDS_838X_MAX_SDS, RTSDS_838X_MAX_PAGE; lia.
Defined.

(** What [rtsds_838x_read] returns over plain memory. *)
Lemma rtsds_838x_read_ram (w : rtsds_io ram) (sid page reg : Z) :
  fst (rtsds_838x_read sid page reg w)
  = if (sid >? RTSDS_838X_MAX_SDS) || (page >? RTSDS_838X_MAX_PAGE) || (reg >? 31)
    then - EINVAL
    else s32 (u32 (io_dev w (io_base w + rtsds_838x_offset sid page reg))).
Proof.
  unfold rtsds_838x_read.
  destruct ((sid >? RTSDS_838X_MAX_SDS) || (page >? RTSDS_838X_MAX_PAGE) || (reg >? 31));
    [reflexivity |].
  unfold bind, ctrl_base, when_read, ioread32, ret.
  destruct ((page =? 2) && (reg =? 1)); reflexivity.
Qed.

(** What [rtsds_838x_mask] leaves in plain memory. *)
Lemma rtsds_838x_mask_ram (m : ram) (base : Z) (tr : list io_event)
      (sid page reg val mask : Z) (a : Z) :
  sid <= RTSDS_838X_MAX_SDS -> page <= RTSDS_838X_MAX_PAGE -> reg <= 31 ->
  let w' := snd (rtsds_838x_mask sid page reg val mask (mk_io base m tr)) in
  let addr := base + rtsds_838x_offset sid page reg in
  io_base w' = base /\
  io_dev w' a
  = if a =? addr
    then u32 (Z.lor (Z.land (u32 (m addr)) (not32 mask)) (u32 val))
    else m a.
Proof.
  intros Hs Hp Hr. unfold rtsds_838x_mask.
  rewrite (gtb_none _ _ _ _ _ _ Hs Hp Hr).
  unfold bind, ctrl_base, when_read, iomask32, ioread32, iowrite32, ret.
  destruct ((page =? 2) && (reg =? 1)); unfold bind, ioread32, ret;
    cbn [dev_read dev_write ram_device io_dev io_base snd];
    (split; [reflexivity |]);
    destruct (a =? base + rtsds_838x_offset sid page reg); reflexivity.
Qed.

(** X9.  Over plain memory the RTL838x registers are independent cells:
    after a masked write to an in-bounds register, a read of that register
    returns the old word with the masked bits replaced by the value, and
    a read of any other in-bounds register of any lane returns what it
    returned before. *)
Theorem rtsds_838x_registers_are_independent :
  forall (m : ram) (base : Z) (tr : list io_event)
         (sid page reg val mask sid' page' reg' : Z),
    0 <= sid <= RTSDS_838X_MAX_SDS -> 0 <= page <= RTSDS_838X_MAX_PAGE ->
    0 <= reg <= 31 ->
    0 <= sid' <= RTSDS_838X_MAX_SDS -> 0 <= page' <= RTSDS_838X_MAX_PAGE ->
    0 <= reg' <= 31 ->
    let w := mk_io base m tr in
    let w' := snd (rtsds_838x_mask sid page reg val mask w) in
    fst (rtsds_838x_read sid page reg w')
    = s32 (Z.lor (Z.land (u32 (m (base + rtsds_838x_offset sid page reg)))
                         (not32 mask))
                 (u32 val)) /\
    ((sid', page', reg') <> (sid, page, reg) ->
     fst (rtsds_838x_read sid' page' reg' w')
     = fst (rtsds_838x_read sid' page' reg' w)).
Proof.
  intros m base tr sid page reg val mask sid' page' reg' Hs Hp Hr Hs' Hp' Hr' w w'.
  subst w w'.
  pose proof (rtsds_838x_mask_ram m base tr sid page reg val mask) as Hram.
  cbv zeta in Hram.
  rewrite !rtsds_838x_read_ram.
  rewrite (gtb_none _ _ _ _ _ _ (proj2 Hs) (proj2 Hp) (proj2 Hr)).
  rewrite (gtb_none _ _ _ _ _ _ (proj2 Hs') (proj2 Hp') (proj2 Hr')).
  split.
  - destruct (Hram (base + rtsds_838x_offset sid page reg))
      as [Hbase Hdev]; try lia.
    rewrite Hbase, Hdev, Z.eqb_refl, u32_idem. apply s32_u32.
  - intros Hne.
    destruct (Hram (base + rtsds_838x_offset sid' page' reg'))
      as [Hbase Hdev]; try lia.
    rewrite Hbase, Hdev. cbn [io_base io_dev].
    destruct (Z.eqb_spec (base + rtsds_838x_offset sid' page' reg')
                         (base + rtsds_838x_offset sid page reg)) as [Heq | _];
      [| reflexivity].
    exfalso. apply Hne.
    destruct (rtsds_838x_offset_inj sid' page' reg' sid page reg)
      as (-> & -> & ->); try assumption; [lia | reflexivity].
Qed.

Lemma rtsds_838x_registers_are_independent_witness :
  let w := io_zero in
  let w' := snd (rtsds_838x_mask 0 0 3 0x7146 0xffff w) in
  fst (rtsds_838x_read 0 0 3 w') = 0x7146 /\
  fst (rtsds_838x_read 1 2 1 w') = fst (rtsds_838x_read 1 2 1 w).
Proof.
  intros w w'.
  destruct (rtsds_838x_registers_are_independent
              ram_zero 0xbb00e780 [] 0 0 3 0x7146 0xffff 1 2 1)
    as [Hsame Hother];
    try (unfold RTSDS_838X_MAX_SDS, RTSDS_838X_MAX_PAGE; lia).
  split.
  - exact Hsame.
  - apply Hother. discriminate.
Defined.

(** ** Bit fields and command words *)

Lemma ones_testbit (n i : Z) :
  0 <= n -> Z.testbit (Z.ones n) i = (0 <=? i) && (i <? n).
Proof.
  intros Hn. destruct (Z.leb_spec 0 i).
  - rewrite Z.testbit_ones_nonneg by lia. reflexivity.
  - rewrite Z.testbit_neg_r by lia. reflexivity.
Qed.

Lemma shiftl_testbit (a n i : Z) :
  0 <= i -> Z.testbit (Z.shiftl a n) i = Z.testbit a (i - n).
Proof. intros. now apply Z.shiftl_spec. Qed.

Lemma testbit_out (x w j : Z) :
  0 <= x < 2 ^ w -> j < 0 \/ w <= j -> Z.testbit x j = false.
Proof.
  intros Hx [Hj | Hj]; [now apply Z.testbit_neg_r |].
  destruct (Z.ltb_spec w 0) as [Hw | Hw].
  - rewrite Z.pow_neg_r in Hx by lia. lia.
  - rewrite <- (Z.mod_small x (2 ^ w)) by exact Hx.
    apply Z.mod_pow2_bits_high. lia.
Qed.

Ltac bits_norm :=
  repeat first
    [ rewrite Z.land_spec | rewrite Z.lor_spec
    | rewrite Z.shiftr_spec by lia
    | rewrite shiftl_testbit by lia
    | rewrite u32_testbit
    | rewrite Z.lnot_spec by lia
    | rewrite ones_testbit by lia ].

Ltac bits_cmp :=
  repeat match goal with
         | |- context [?a <? ?b] => destruct (Z.ltb_spec a b)
         | |- context [?a <=? ?b] => destruct (Z.leb_spec a b)
         end;
  cbn [andb orb negb];
  rewrite ?Bool.andb_true_r, ?Bool.andb_false_r, ?Bool.orb_false_r,
    ?Bool.orb_true_r;
  try reflexivity; try lia.

Lemma bit_field_u32 (s w x : Z) :
  0 <= s -> 0 <= w -> s + w <= 32 -> bit_field s w (u32 x) = bit_field s w x.
Proof.
  intros Hs Hw Hsw. unfold bit_field.
  apply Z.bits_inj'. intros i Hi. bits_norm. bits_cmp.
Qed.

Lemma bit_field_range (s w x : Z) : 0 <= w -> 0 <= bit_field s w x < 2 ^ w.
Proof. intros Hw. unfold bit_field. now apply land_ones_range. Qed.

Lemma bit_field_insert_same (old v s w : Z) :
  0 <= s -> 0 <= w -> s + w <= 32 ->
  bit_field s w (u32 (Z.lor (Z.land (u32 old) (not32 (shl32 (Z.ones w) s)))
                            (u32 (shl32 (Z.land v (Z.ones w)) s))))
  = Z.land v (Z.ones w).
Proof.
  intros Hs Hw Hsw. unfold bit_field, not32, shl32.
  apply Z.bits_inj'. intros i Hi.
  bits_norm. bits_cmp.
  all: replace (i + s - s) with i by lia; bits_cmp.
Qed.

Lemma bit_field_insert_other (old v s w s' w' : Z) :
  0 <= s -> 0 <= w -> 0 <= s' -> 0 <= w' -> s' + w' <= 32 ->
  s' + w' <= s \/ s + w <= s' ->
  bit_field s' w' (u32 (Z.lor (Z.land (u32 old) (not32 (shl32 (Z.ones w) s)))
                              (u32 (shl32 (Z.land v (Z.ones w)) s))))
  = bit_field s' w' old.
Proof.
  intros Hs Hw Hs' Hw' Hsw' Hdis. unfold bit_field, not32, shl32.
  apply Z.bits_inj'. intros i Hi.
  bits_norm. bits_cmp.
  all: try (rewrite (Z.testbit_neg_r v) by lia);
    rewrite ?Bool.andb_false_r, ?Bool.orb_false_r, ?Bool.andb_true_r;
    try reflexivity.
Qed.


(** ** Command words of the indirect bus *)

Lemma rtsds_930x_cmd_bits (sid page reg op i : Z) :
  0 <= sid < 32 -> 0 <= page < 64 -> 0 <= reg < 32 -> 0 <= op < 4 ->
  0 <= i ->
  Z.testbit (rtsds_930x_cmd sid page reg op) i
  = if i <? 2 then Z.testbit op i
    else if i <? 7 then Z.testbit sid (i - 2)
    else if i <? 13 then Z.testbit page (i - 7)
    else Z.testbit reg (i - 13).
Proof.
  intros Hs Hp Hr Ho Hi.
  change 32 with (2 ^ 5) in Hs, Hr. change 64 with (2 ^ 6) in Hp.
  change 4 with (2 ^ 2) in Ho.
  unfold rtsds_930x_cmd, shl32. bits_norm.
  destruct (Z.ltb_spec i 2); [| destruct (Z.ltb_spec i 7);
      [| destruct (Z.ltb_spec i 13)]];
      rewrite ?(testbit_out sid 5 (i - 2)), ?(testbit_out page 6 (i - 7)),
        ?(testbit_out reg 5 (i - 13)), ?(testbit_out op 2 i) by (try assumption; lia);
      destruct (Z.ltb_spec i 32); try lia;
      rewrite ?Bool.andb_false_r, ?Bool.orb_false_r, ?Bool.orb_false_l,
        ?Bool.andb_true_l, ?Bool.andb_false_l; try reflexivity;
      symmetry; apply (testbit_out reg 5); (try assumption; lia). 
Qed.

Lemma bit_field_of_bits (s w x y : Z) :
  0 <= s -> 0 <= w -> 0 <= y < 2 ^ w ->
  (forall i, 0 <= i < w -> Z.testbit x (i + s) = Z.testbit y i) ->
  bit_field s w x = y.
Proof.
  intros Hs Hw Hy Hbits. unfold bit_field.
  apply Z.bits_inj'. intros i Hi. bits_norm.
  destruct (Z.leb_spec 0 i); [| lia].
  destruct (Z.ltb_spec i w).
  - rewrite Hbits by lia. now rewrite Bool.andb_true_r.
  - rewrite (testbit_out y w i) by (try assumption; lia).
    now rewrite Bool.andb_false_r.
Qed.

Lemma rtsds_930x_cmd_fields (sid page reg op : Z) :
  0 <= sid < 32 -> 0 <= page < 64 -> 0 <= reg < 32 -> 0 <= op < 4 ->
  bit_field 0 2 (rtsds_930x_cmd sid page reg op) = op /\
  bit_field 2 5 (rtsds_930x_cmd sid page reg op) = sid /\
  bit_field 7 6 (rtsds_930x_cmd sid page reg op) = page /\
  bit_field 13 5 (rtsds_930x_cmd sid page reg op) = reg.
Proof.
  intros Hs Hp Hr Ho.
  pose proof (fun i => rtsds_930x_cmd_bits sid page reg op i Hs Hp Hr Ho) as Hbit.
  split; [| split; [| split]].
  - apply bit_field_of_bits; [lia | lia | exact Ho |].
    intros i Hi. rewrite Hbit by lia.
    destruct (Z.ltb_spec (i + 0) 2); [| lia]. f_equal. lia.
  - apply bit_field_of_bits; [lia | lia | exact Hs |].
    intros i Hi. rewrite Hbit by lia.
    destruct (Z.ltb_spec (i + 2) 2); [lia |].
    destruct (Z.ltb_spec (i + 2) 7); [| lia]. f_equal. lia.
  - apply bit_field_of_bits; [lia | lia | exact Hp |].
    intros i Hi. rewrite Hbit by lia.
    destruct (Z.ltb_spec (i + 7) 2); [lia |].
    destruct (Z.ltb_spec (i + 7) 7); [lia |].
    destruct (Z.ltb_spec (i + 7) 13); [| lia]. f_equal. lia.
  - apply bit_field_of_bits; [lia | lia | exact Hr |].
    intros i Hi. rewrite Hbit by lia.
    destruct (Z.ltb_spec (i + 13) 2); [lia |].
    destruct (Z.ltb_spec (i + 13) 7); [lia |].
    destruct (Z.ltb_spec (i + 13) 13); [lia |]. f_equal. lia.
Qed.

Lemma rtsds_930x_cmd_inj (sid page reg op sid' page' reg' op' : Z) :
  0 <= sid < 32 -> 0 <= page < 64 -> 0 <= reg < 32 -> 0 <= op < 4 ->
  0 <= sid' < 32 -> 0 <= page' < 64 -> 0 <= reg' < 32 -> 0 <= op' < 4 ->
  rtsds_930x_cmd sid page reg op = rtsds_930x_cmd sid' page' reg' op' ->
  sid = sid' /\ page = page' /\ reg = reg' /\ op = op'.
Proof.
  intros Hs Hp Hr Ho Hs' Hp' Hr' Ho' Heq.
  destruct (rtsds_930x_cmd_fields sid page reg op Hs Hp Hr Ho)
    as (H1 & H2 & H3 & H4).
  destruct (rtsds_930x_cmd_fields sid' page' reg' op' Hs' Hp' Hr' Ho')
    as (H1' & H2' & H3' & H4').
  rewrite Heq in H1, H2, H3, H4.
  repeat split; congruence.
Qed.

(** X10.  The command word of the indirect bus can be decoded: for an
    in-bounds lane, page and register and the read (1) or write (3)
    operation, bits 0-1 hold the operation, bits 2-6 the lane, bits 7-12
    the page and bits 13-17 the register.  Hence two in-bounds requests
    issue the same command word only if they name the same lane, page,
    register and operation. *)
Theorem rtsds_930x_cmd_one_to_one (sid page reg op sid' page' reg' op' : Z) :
  0 <= sid <= RTSDS_930X_MAX_SDS -> 0 <= page <= RTSDS_930X_MAX_PAGE ->
  0 <= reg <= 31 -> op = 1 \/ op = 3 ->
  0 <= sid' <= RTSDS_930X_MAX_SDS -> 0 <= page' <= RTSDS_930X_MAX_PAGE ->
  0 <= reg' <= 31 -> op' = 1 \/ op' = 3 ->
  (bit_field 0 2 (rtsds_930x_cmd sid page reg op) = op /\
   bit_field 2 5 (rtsds_930x_cmd sid page reg op) = sid /\
   bit_field 7 6 (rtsds_930x_cmd sid page reg op) = page /\
   bit_field 13 5 (rtsds_930x_cmd sid page reg op) = reg) /\
  (rtsds_930x_cmd sid page reg op = rtsds_930x_cmd sid' page' reg' op' ->
   sid = sid' /\ page = page' /\ reg = reg' /\ op = op').
Proof.
  unfold RTSDS_930X_MAX_SDS, RTSDS_930X_MAX_PAGE.
  intros Hs Hp Hr Ho Hs' Hp' Hr' Ho'. split.
  - apply rtsds_930x_cmd_fields; lia.
  - apply rtsds_930x_cmd_inj; lia.
Qed.

Lemma rtsds_930x_cmd_one_to_one_witness :
  bit_field 2 5 (rtsds_930x_cmd 9 63 31 3) = 9.
Proof.
  refine (proj1 (proj2 (proj1
            (rtsds_930x_cmd_one_to_one 9 63 31 3 0 0 0 1 _ _ _ _ _ _ _ _))));
    unfold RTSDS_930X_MAX_SDS, RTSDS_930X_MAX_PAGE; lia.
Defined.

Lemma rtsds_931x_backsid_range (sid page : Z) :
  0 <= sid <= RTSDS_931X_MAX_SDS -> 0 <= page <= RTSDS_931X_MAX_PAGE ->
  0 <= rtsds_931x_backsid sid page <= 25.
Proof.
  unfold RTSDS_931X_MAX_SDS, RTSDS_931X_MAX_PAGE. intros Hs Hp.
  assert (Hall : rtsds_931x_backsid_check = true) by (vm_compute; reflexivity).
  unfold rtsds_931x_backsid_check in Hall.
  rewrite forallb_forall in Hall.
  specialize (Hall sid (zrange_In 14 sid ltac:(lia))).
  rewrite forallb_forall in Hall.
  specialize (Hall page (zrange_In 192 page ltac:(lia))).
  apply andb_prop in Hall. destruct Hall as [H1 H2].
  apply Z.leb_le in H1, H2. lia.
Qed.

Lemma rtsds_931x_cmd_930x (backsid page reg op : Z) :
  rtsds_931x_cmd backsid page reg op
  = rtsds_930x_cmd backsid (Z.land page 0x3f) reg op.
Proof. reflexivity. Qed.

Lemma rtsds_931x_cmd_same_iff (sid page reg sid' page' reg' op : Z) :
  0 <= sid <= RTSDS_931X_MAX_SDS -> 0 <= page <= RTSDS_931X_MAX_PAGE ->
  0 <= reg <= 31 ->
  0 <= sid' <= RTSDS_931X_MAX_SDS -> 0 <= page' <= RTSDS_931X_MAX_PAGE ->
  0 <= reg' <= 31 -> op = 1 \/ op = 3 ->
  rtsds_931x_cmd (rtsds_931x_backsid sid page) page reg op
  = rtsds_931x_cmd (rtsds_931x_backsid sid' page') page' reg' op
  <-> rtsds_931x_backsid sid page = rtsds_931x_backsid sid' page' /\
      page mod 64 = page' mod 64 /\ reg = reg'.
Proof.
  intros Hs Hp Hr Hs' Hp' Hr' Ho.
  pose proof (rtsds_931x_backsid_range sid page Hs Hp) as Hb.
  pose proof (rtsds_931x_backsid_range sid' page' Hs' Hp') as Hb'.
  rewrite !rtsds_931x_cmd_930x.
  change 0x3f with (Z.ones 6). rewrite !Z.land_ones by lia.
  change (2 ^ 6) with 64.
  pose proof (Z.mod_pos_bound page 64 ltac:(lia)) as Hm.
  pose proof (Z.mod_pos_bound page' 64 ltac:(lia)) as Hm'.
  split.
  - intros Heq.
    apply rtsds_930x_cmd_inj in Heq; lia.
  - intros (-> & -> & ->). reflexivity.
Qed.

Section Alias931x.
Context {D : Type} `{Device D}.

(** X11.  On the RTL931x the background lane of every in-bounds frontend
    lane and page is between 0 and 25, and two in-bounds requests issue
    the same command word exactly when they have the same background
    lane, the same page modulo 64 and the same register.  Frontend
    addresses that agree in these are one register: [read] and [mask]
    behave identically for both on any device (for instance pages 128-191
    of lane 4 are pages 0-63 of lane 5). *)
Theorem rtsds_931x_pages_alias (w : rtsds_io D)
        (sid page reg val mask sid' page' reg' op : Z) :
  0 <= sid <= RTSDS_931X_MAX_SDS -> 0 <= page <= RTSDS_931X_MAX_PAGE ->
  0 <= reg <= 31 ->
  0 <= sid' <= RTSDS_931X_MAX_SDS -> 0 <= page' <= RTSDS_931X_MAX_PAGE ->
  0 <= reg' <= 31 -> op = 1 \/ op = 3 ->
  0 <= rtsds_931x_backsid sid page <= 25 /\
  (rtsds_931x_cmd (rtsds_931x_backsid sid page) page reg op
   = rtsds_931x_cmd (rtsds_931x_backsid sid' page') page' reg' op
   <-> rtsds_931x_backsid sid page = rtsds_931x_backsid sid' page' /\
       page mod 64 = page' mod 64 /\ reg = reg') /\
  (rtsds_931x_backsid sid page = rtsds_931x_backsid sid' page' ->
   page mod 64 = page' mod 64 ->
   rtsds_931x_read sid page reg w = rtsds_931x_read sid' page' reg w /\
   rtsds_931x_mask sid page reg val mask w
   = rtsds_931x_mask sid' page' reg val mask w).
Proof.
  intros Hs Hp Hr Hs' Hp' Hr' Ho.
  split; [now apply rtsds_931x_backsid_range |].
  split; [now apply rtsds_931x_cmd_same_iff |].
  intros Hb Hm.
  assert (Hcmd : forall o, rtsds_931x_cmd (rtsds_931x_backsid sid page) page reg o
                           = rtsds_931x_cmd (rtsds_931x_backsid sid' page') page' reg o).
  { intros o. unfold rtsds_931x_cmd. rewrite Hb.
    change 0x3f with (Z.ones 6). rewrite !Z.land_ones by lia.
    change (2 ^ 6) with 64. now rewrite Hm. }
  assert (Hread : rtsds_931x_read sid page reg w = rtsds_931x_read sid' page' reg w).
  { unfold rtsds_931x_read.
    rewrite !gtb_none by lia. cbv zeta. now rewrite Hcmd. }
  split; [exact Hread |].
  unfold rtsds_931x_mask.
  rewrite !gtb_none by lia. cbv zeta. rewrite Hcmd.
  unfold bind at 1. unfold bind at 3.
  destruct (negb (mask =? 0xffff)); [| reflexivity].
  unfold bind at 1. unfold bind at 4. rewrite Hread. reflexivity.
Qed.

End Alias931x.

Lemma rtsds_931x_pages_alias_witness :
  rtsds_931x_read 4 130 7 io_stuck = rtsds_931x_read 5 2 7 io_stuck.
Proof.
  refine (proj1 (proj2 (proj2
            (rtsds_931x_pages_alias io_stuck 4 130 7 0 0 5 2 7 1
               _ _ _ _ _ _ _)) _ _));
    try reflexivity; unfold RTSDS_931X_MAX_SDS, RTSDS_931X_MAX_PAGE; lia.
Defined.


(** ** Mode registers over plain memory *)

Lemma set_field_same (m : ram) (a s w v : Z) :
  0 <= s -> 0 <= w -> s + w <= 32 ->
  bit_field s w (set_field m a s w v a) = Z.land v (Z.ones w).
Proof.
  intros Hs Hw Hsw. unfold set_field. rewrite Z.eqb_refl.
  now apply bit_field_insert_same.
Qed.

Lemma set_field_frame (m : ram) (a s w v a' s' w' : Z) :
  0 <= s -> 0 <= w -> 0 <= s' -> 0 <= w' -> s' + w' <= 32 ->
  a' <> a \/ s' + w' <= s \/ s + w <= s' ->
  bit_field s' w' (set_field m a s w v a') = bit_field s' w' (m a').
Proof.
  intros Hs Hw Hs' Hw' Hsw' Hfar. unfold set_field.
  destruct (Z.eqb_spec a' a) as [-> | Hne]; [| reflexivity].
  destruct Hfar as [Hne | Hdis]; [congruence |].
  now apply bit_field_insert_other.
Qed.

Lemma rtsds_838x_set_mode_ram (m : ram) (base : Z) (tr : list io_event)
      (sid cm : Z) :
  0 <= sid <= 5 ->
  fst (rtsds_838x_set_mode sid cm (mk_io base m tr)) = 0 /\
  io_dev (snd (rtsds_838x_set_mode sid cm (mk_io base m tr)))
  = set_field (if (sid =? 4) || (sid =? 5)
               then set_field m RTSDS_838X_INT_MODE_CTRL ((sid - 4) * 3) 3
                              (RTSDS_SUBMODE cm)
               else m)
              RTSDS_838X_SDS_MODE_SEL (25 - sid * 5) 5 (RTSDS_MODE cm).
Proof.
  intros Hsid.
  assert (Hc : sid = 0 \/ sid = 1 \/ sid = 2 \/ sid = 3 \/ sid = 4 \/ sid = 5)
    by lia.
  destruct Hc as [-> | [-> | [-> | [-> | [-> | ->]]]]];
    split; reflexivity.
Qed.

Lemma rtsds_838x_get_mode_ram (w : rtsds_io ram) (sid : Z) :
  0 <= sid <= 5 ->
  fst (rtsds_838x_get_mode sid w)
  = RTSDS_COMBOMODE
      (bit_field (25 - sid * 5) 5 (io_dev w RTSDS_838X_SDS_MODE_SEL))
      (if (sid =? 4) || (sid =? 5)
       then bit_field ((sid - 4) * 3) 3 (io_dev w RTSDS_838X_INT_MODE_CTRL)
       else 0).
Proof.
  intros Hsid. destruct w as [base m tr].
  assert (Hc : sid = 0 \/ sid = 1 \/ sid = 2 \/ sid = 3 \/ sid = 4 \/ sid = 5)
    by lia.
  destruct Hc as [-> | [-> | [-> | [-> | [-> | ->]]]]];
    cbn [io_dev];
    match goal with
    | |- context [if ?b then _ else _] =>
        let b' := eval vm_compute in b in change b with b'
    end;
    cbv iota;
    match goal with
    | |- _ = RTSDS_COMBOMODE (bit_field ?s ?w ?x) (bit_field ?s' ?w' ?x') =>
        rewrite <- (bit_field_u32 s w x), <- (bit_field_u32 s' w' x') by lia;
        rewrite <- (bit_field_u32 s w (u32 x)),
          <- (bit_field_u32 s' w' (u32 x')) by lia
    | |- _ = RTSDS_COMBOMODE (bit_field ?s ?w ?x) 0 =>
        rewrite <- (bit_field_u32 s w x) by lia;
        rewrite <- (bit_field_u32 s w (u32 x)) by lia
    end;
    reflexivity.
Qed.

(** X12.  RTL838x over plain memory: after [set_mode] of an in-bounds
    lane, which returns 0, [get_mode] of that lane returns the mode
    masked to 5 bits and, on lanes 4 and 5, the submode masked to 3 bits;
    on lanes 0 to 3 the submode is not stored and reads back as 0.  The
    mode read for any other lane is what it was before. *)
Theorem rtsds_838x_mode_roundtrip (m : ram) (base : Z) (tr : list io_event)
        (sid sid' cm : Z) :
  0 <= sid <= 5 -> 0 <= sid' <= 5 -> sid' <> sid ->
  let w := mk_io base m tr in
  let w' := snd (rtsds_838x_set_mode sid cm w) in
  fst (rtsds_838x_set_mode sid cm w) = 0 /\
  fst (rtsds_838x_get_mode sid w')
  = RTSDS_COMBOMODE (Z.land (RTSDS_MODE cm) 0x1f)
      (if (sid =? 4) || (sid =? 5) then Z.land (RTSDS_SUBMODE cm) 0x7 else 0) /\
  fst (rtsds_838x_get_mode sid' w') = fst (rtsds_838x_get_mode sid' w).
Proof.
  intros Hsid Hsid' Hne w w'.
  assert (Haddr : RTSDS_838X_INT_MODE_CTRL <> RTSDS_838X_SDS_MODE_SEL)
    by (vm_compute; discriminate).
  destruct (rtsds_838x_set_mode_ram m base tr sid cm Hsid) as [Hret Hdev].
  split; [exact Hret |].
  rewrite !rtsds_838x_get_mode_ram by assumption.
  subst w'. subst w. rewrite Hdev. cbn [io_dev].
  split.
  - rewrite set_field_same by lia.
    destruct (Z.eqb_spec sid 4), (Z.eqb_spec sid 5); cbn [orb];
      try reflexivity;
      (rewrite set_field_frame by (try (left; exact Haddr); lia));
      (rewrite set_field_same by lia); reflexivity.
  - assert (Haddr' : RTSDS_838X_SDS_MODE_SEL <> RTSDS_838X_INT_MODE_CTRL)
      by (vm_compute; discriminate).
    destruct (Z.eqb_spec sid 4), (Z.eqb_spec sid 5),
      (Z.eqb_spec sid' 4), (Z.eqb_spec sid' 5); cbn [orb]; try lia;
      rewrite ?set_field_frame by first [lia | left; assumption];
      reflexivity.
Qed.

Lemma rtsds_838x_mode_roundtrip_witness :
  fst (rtsds_838x_get_mode 4
         (snd (rtsds_838x_set_mode 4 (RTSDS_COMBOMODE 4 1) io_zero)))
  = RTSDS_COMBOMODE 4 1.
Proof.
  refine (proj1 (proj2 (rtsds_838x_mode_roundtrip
                          ram_zero 0xbb00e780 [] 4 5 (RTSDS_COMBOMODE 4 1)
                          _ _ _)));
    lia.
Defined.

Ltac lanes_2_9 H :=
  match type of H with
  | 2 <= ?sid <= 9 =>
      let Hc := fresh "Hc" in
      assert (Hc : sid = 2 \/ sid = 3 \/ sid = 4 \/ sid = 5 \/
                   sid = 6 \/ sid = 7 \/ sid = 8 \/ sid = 9) by lia;
      clear H;
      destruct Hc as [-> | [-> | [-> | [-> | [-> | [-> | [-> | ->]]]]]]]
  end.

Lemma rtsds_930x_set_mode_ram (w : rtsds_io ram) (sid cm : Z) :
  2 <= sid <= 9 ->
  let '(modereg, modeshift, subreg, subshift) := rtsds_930x_mode_offset sid in
  fst (rtsds_930x_set_mode sid cm w) = 0 /\
  io_dev (snd (rtsds_930x_set_mode sid cm w))
  = set_field (set_field (io_dev w) subreg subshift 5 (RTSDS_SUBMODE cm))
              modereg modeshift 5 (RTSDS_MODE cm).
Proof.
  intros Hsid. destruct w as [base m tr].
  lanes_2_9 Hsid; split; reflexivity.
Qed.

Lemma rtsds_930x_get_mode_ram_dev (w : rtsds_io ram) (sid : Z) :
  2 <= sid <= 9 -> io_dev (snd (rtsds_930x_get_mode sid w)) = io_dev w.
Proof.
  intros Hsid. destruct w as [base m tr].
  lanes_2_9 Hsid; reflexivity.
Qed.

Lemma rtsds_930x_get_mode_ram (w : rtsds_io ram) (sid : Z) :
  2 <= sid <= 9 ->
  let '(modereg, modeshift, subreg, subshift) := rtsds_930x_mode_offset sid in
  fst (rtsds_930x_get_mode sid w)
  = RTSDS_COMBOMODE (bit_field modeshift 5 (io_dev w modereg))
                    (bit_field subshift 5 (io_dev w subreg)).
Proof.
  intros Hsid. destruct w as [base m tr].
  lanes_2_9 Hsid; cbn [io_dev];
    match goal with
    | |- context [rtsds_930x_mode_offset ?s] =>
        let v := eval vm_compute in (rtsds_930x_mode_offset s) in
        change (rtsds_930x_mode_offset s) with v
    end; cbv iota;
    match goal with
    | |- _ = RTSDS_COMBOMODE (bit_field ?s ?w ?x) (bit_field ?s' ?w' ?x') =>
        rewrite <- (bit_field_u32 s w x), <- (bit_field_u32 s' w' x') by lia;
        rewrite <- (bit_field_u32 s w (u32 x)),
          <- (bit_field_u32 s' w' (u32 x')) by lia
    end;
    reflexivity.
Qed.

Ltac offset_eval :=
  repeat match goal with
         | |- context [rtsds_930x_mode_offset ?s] =>
             let v := eval vm_compute in (rtsds_930x_mode_offset s) in
             change (rtsds_930x_mode_offset s) with v
         | |- context [?a =? ?b] =>
             let v := eval vm_compute in (a =? b) in
             change (a =? b) with v
         end;
  cbv zeta iota.

Lemma rtsds_930x_mode_fields (m : ram) (sid sid' mode sub : Z) :
  2 <= sid <= 9 -> 2 <= sid' <= 9 ->
  let '(mr, ms, sr, ss) := rtsds_930x_mode_offset sid in
  let '(mr', ms', sr', ss') := rtsds_930x_mode_offset sid' in
  let m' := set_field (set_field m sr ss 5 sub) mr ms 5 mode in
  bit_field ms' 5 (m' mr')
  = (if sid' =? sid then Z.land mode 31 else bit_field ms' 5 (m mr')) /\
  bit_field ss' 5 (m' sr')
  = (if sid' =? sid then Z.land sub 31 else bit_field ss' 5 (m sr')).
Proof.
  intros Hsid Hsid'.
  lanes_2_9 Hsid; lanes_2_9 Hsid'; offset_eval;
    (split;
     [ rewrite ?set_field_frame by lia; rewrite ?set_field_same by lia;
       reflexivity
     | rewrite ?set_field_frame by lia; rewrite ?set_field_same by lia;
       reflexivity ]).
Qed.

Lemma rtsds_930x_set_then_get (w : rtsds_io ram) (sid sid' cm : Z) :
  2 <= sid <= 9 -> 2 <= sid' <= 9 ->
  fst (rtsds_930x_get_mode sid' (snd (rtsds_930x_set_mode sid cm w)))
  = if sid' =? sid
    then RTSDS_COMBOMODE (Z.land (RTSDS_MODE cm) 0x1f)
                         (Z.land (RTSDS_SUBMODE cm) 0x1f)
    else fst (rtsds_930x_get_mode sid' w).
Proof.
  intros Hsid Hsid'.
  pose proof (rtsds_930x_set_mode_ram w sid cm Hsid) as Hset.
  pose proof (rtsds_930x_get_mode_ram
                (snd (rtsds_930x_set_mode sid cm w)) sid' Hsid') as Hget'.
  pose proof (rtsds_930x_get_mode_ram w sid' Hsid') as Hget.
  pose proof (rtsds_930x_mode_fields (io_dev w) sid sid' (RTSDS_MODE cm)
                (RTSDS_SUBMODE cm) Hsid Hsid') as Hf.
  destruct (rtsds_930x_mode_offset sid) as [[[mr ms] sr] ss].
  destruct (rtsds_930x_mode_offset sid') as [[[mr' ms'] sr'] ss'].
  destruct Hset as [_ Hdev]. cbv zeta in Hf. destruct Hf as [Hm Hs].
  rewrite Hget', Hdev, Hm, Hs, Hget.
  destruct (sid' =? sid); reflexivity.
Qed.

(** X13.  RTL930x over plain memory, lanes 2 to 9: after [set_mode],
    which returns 0, [get_mode] of that lane returns the mode and the
    submode, each masked to 5 bits, and the mode read for any other of
    these lanes is what it was before. *)
Theorem rtsds_930x_mode_roundtrip (m : ram) (base : Z) (tr : list io_event)
        (sid sid' cm : Z) :
  2 <= sid <= 9 -> 2 <= sid' <= 9 -> sid' <> sid ->
  let w := mk_io base m tr in
  let w' := snd (rtsds_930x_set_mode sid cm w) in
  fst (rtsds_930x_set_mode sid cm w) = 0 /\
  fst (rtsds_930x_get_mode sid w')
  = RTSDS_COMBOMODE (Z.land (RTSDS_MODE cm) 0x1f)
                    (Z.land (RTSDS_SUBMODE cm) 0x1f) /\
  fst (rtsds_930x_get_mode sid' w') = fst (rtsds_930x_get_mode sid' w).
Proof.
  intros Hsid Hsid' Hne w w'. subst w'.
  split; [| split].
  - pose proof (rtsds_930x_set_mode_ram w sid cm Hsid) as Hset.
    destruct (rtsds_930x_mode_offset sid) as [[[mr ms] sr] ss].
    apply Hset.
  - rewrite rtsds_930x_set_then_get by assumption.
    now rewrite Z.eqb_refl.
  - rewrite rtsds_930x_set_then_get by assumption.
    destruct (Z.eqb_spec sid' sid); [contradiction | reflexivity].
Qed.

Lemma rtsds_930x_mode_roundtrip_witness :
  fst (rtsds_930x_get_mode 2
         (snd (rtsds_930x_set_mode 2 (RTSDS_COMBOMODE 13 2) io_zero)))
  = RTSDS_COMBOMODE 13 2.
Proof.
  refine (proj1 (proj2 (rtsds_930x_mode_roundtrip
                          ram_zero 0xbb00e780 [] 2 3 (RTSDS_COMBOMODE 13 2)
                          _ _ _)));
    lia.
Defined.

Lemma rtsds_930x_get_mode_same_dev (w1 w2 : rtsds_io ram) (sid : Z) :
  2 <= sid <= 9 -> io_dev w1 = io_dev w2 ->
  fst (rtsds_930x_get_mode sid w1) = fst (rtsds_930x_get_mode sid w2).
Proof.
  intros Hsid Hdev.
  pose proof (rtsds_930x_get_mode_ram w1 sid Hsid) as H1.
  pose proof (rtsds_930x_get_mode_ram w2 sid Hsid) as H2.
  destruct (rtsds_930x_mode_offset sid) as [[[mr ms] sr] ss].
  rewrite H1, H2, Hdev. reflexivity.
Qed.

Lemma rtsds_930x_get_mode_code (w : rtsds_io ram) (sid : Z) :
  2 <= sid <= 9 ->
  exists a b, 0 <= a < 32 /\ 0 <= b < 32 /\
              fst (rtsds_930x_get_mode sid w) = RTSDS_COMBOMODE a b.
Proof.
  intros Hsid.
  pose proof (rtsds_930x_get_mode_ram w sid Hsid) as Hg.
  destruct (rtsds_930x_mode_offset sid) as [[[mr ms] sr] ss].
  eexists _, _. split; [| split; [| exact Hg]].
  - apply (bit_field_range ms 5). lia.
  - apply (bit_field_range ss 5). lia.
Qed.

(** X14.  RTL930x over plain memory, lanes 2 to 9: the reset entry
    returns 0 and, whatever code the table has for the off mode, leaves
    the mode read back for the lane itself and for every other of these
    lanes as it was: the lane is switched off and set to its old mode
    again. *)
Theorem rtsds_930x_reset_keeps_modes (cf : rtsds_conf ram) (m : ram)
        (base : Z) (tr : list io_event) (sid sid' : Z) :
  2 <= sid <= 9 -> 2 <= sid' <= 9 ->
  let w := mk_io base m tr in
  fst (rtsds_930x_reset cf sid w) = 0 /\
  fst (rtsds_930x_get_mode sid' (snd (rtsds_930x_reset cf sid w)))
  = fst (rtsds_930x_get_mode sid' w).
Proof.
  intros Hsid Hsid' w.
  pose proof (rtsds_930x_get_mode_ram_dev w sid Hsid) as Hdev1.
  destruct (rtsds_930x_get_mode_code w sid Hsid) as (a & b & Ha & Hb & Hcur).
  unfold rtsds_930x_reset.
  replace (sid >? RTSDS_930X_MAX_SDS) with false
    by (symmetry; rewrite Z.gtb_ltb; apply Z.ltb_ge;
        unfold RTSDS_930X_MAX_SDS; lia).
  unfold bind.
  destruct (rtsds_930x_get_mode sid w) as [cur w1] eqn:Eget.
  cbn [fst snd] in Hdev1, Hcur.
  destruct (negb (cur =? _)).
  - destruct (rtsds_930x_set_mode sid _ w1) as [r2 w2] eqn:Eoff.
    destruct (rtsds_930x_set_mode sid cur w2) as [r3 w3] eqn:Ecur.
    cbn [ret fst snd]. split; [reflexivity |].
    replace w3 with (snd (rtsds_930x_set_mode sid cur w2)) by now rewrite Ecur.
    rewrite rtsds_930x_set_then_get by assumption.
    destruct (Z.eqb_spec sid' sid) as [-> | Hne].
    + rewrite Eget. cbn [fst]. rewrite Hcur.
      rewrite RTSDS_MODE_COMBOMODE, RTSDS_SUBMODE_COMBOMODE by lia.
      change 31 with (Z.ones 5).
      rewrite !Z.land_ones, !Z.mod_small by lia. reflexivity.
    + replace w2 with (snd (rtsds_930x_set_mode sid
                              (nth (Z.to_nat PHY_INTERFACE_MODE_NA)
                                   (mode_map cf) 0) w1))
        by now rewrite Eoff.
      rewrite rtsds_930x_set_then_get by assumption.
      destruct (Z.eqb_spec sid' sid); [contradiction |].
      apply rtsds_930x_get_mode_same_dev; assumption.
  - cbn [ret fst snd]. split; [reflexivity |].
    apply rtsds_930x_get_mode_same_dev; assumption.
Qed.

Lemma rtsds_930x_reset_keeps_modes_witness :
  fst (rtsds_930x_reset rtsds_930x_conf 2 io_zero) = 0.
Proof.
  refine (proj1 (rtsds_930x_reset_keeps_modes
                   rtsds_930x_conf ram_zero 0xbb00e780 [] 2 3 _ _));
    lia.
Defined.

Lemma land_below_field (x : Z) :
  0 <= x < 64 -> Z.land x (Z.shiftl 0x3f 6) = 0.
Proof.
  intros Hx. change 64 with (2 ^ 6) in Hx.
  apply Z.bits_inj'. intros i Hi.
  rewrite Z.land_spec, Z.bits_0.
  destruct (Z.ltb_spec i 6).
  - rewrite (shiftl_testbit 0x3f 6 i) by lia.
    rewrite (Z.testbit_neg_r 0x3f) by lia. apply Bool.andb_false_r.
  - rewrite (testbit_out x 6 i) by (try assumption; lia). reflexivity.
Qed.

Section SetMode931x.
Context {D : Type} `{Device D}.

(** X15.  [rtsds_931x_set_mode] hands [submode & 0x3f << 6], that is
    [submode & 0xfc0], to the lane register: a submode below 64 is
    written as 0.  Two codes with the same mode and submodes below 64
    are programmed by the same accesses with the same values, on any
    device and for any lane; the codes of the RTL931x table for the off
    mode (31, 63) and for 10GBASE-R (31, 53) are such a pair. *)
Theorem rtsds_931x_set_mode_drops_submode (w : rtsds_io D) (sid cm cm' : Z) :
  RTSDS_MODE cm = RTSDS_MODE cm' ->
  0 <= RTSDS_SUBMODE cm < 64 -> 0 <= RTSDS_SUBMODE cm' < 64 ->
  rtsds_931x_set_mode sid cm w = rtsds_931x_set_mode sid cm' w.
Proof.
  intros Hmode Hsub Hsub'. unfold rtsds_931x_set_mode.
  rewrite Hmode, (land_below_field _ Hsub), (land_below_field _ Hsub').
  reflexivity.
Qed.

End SetMode931x.

Lemma rtsds_931x_set_mode_drops_submode_witness :
  rtsds_931x_set_mode 2 (RTSDS_COMBOMODE 31 63) io_zero
  = rtsds_931x_set_mode 2 (RTSDS_COMBOMODE 31 53) io_zero.
Proof.
  apply (rtsds_931x_set_mode_drops_submode io_zero 2
           (RTSDS_COMBOMODE 31 63) (RTSDS_COMBOMODE 31 53)).
  - reflexivity.
  - vm_compute. split; [discriminate | reflexivity].
  - vm_compute. split; [discriminate | reflexivity].
Defined.

(** ** Binding a port to its lanes *)

Lemma sds_store_link_length (l : list rtsds_sds) (n : nat) (link : Z) :
  length (sds_store_link l n link) = length l.
Proof.
  revert n. induction l as [| x l IH]; intros [| n]; simpl; auto.
Qed.

Lemma sds_store_link_other (l : list rtsds_sds) (n lane : nat) (link : Z) :
  lane <> n -> nth_error (sds_store_link l n link) lane = nth_error l lane.
Proof.
  revert n lane. induction l as [| x l IH]; intros n lane Hne; [reflexivity |].
  destruct n as [| n], lane as [| lane]; simpl; try reflexivity.
  - contradiction.
  - apply IH. intros ->. now apply Hne.
Qed.

Lemma sds_store_link_same (l : list rtsds_sds) (n : nat) (link : Z) :
  (n < length l)%nat ->
  nth_error (sds_store_link l n link) n
  = option_map (fun x => mk_sds (sds_mode x) link (sds_min_port x) (sds_max_port x))
               (nth_error l n).
Proof.
  revert n. induction l as [| x l IH]; intros n Hn; simpl in Hn; [lia |].
  destruct n as [| n]; simpl; [reflexivity |].
  apply IH. lia.
Qed.

Lemma sds_store_ports_other (l : list rtsds_sds) (n lane : nat) (lo hi : Z) :
  lane <> n -> nth_error (sds_store_ports l n lo hi) lane = nth_error l lane.
Proof.
  revert n lane. induction l as [| x l IH]; intros n lane Hne; [reflexivity |].
  destruct n as [| n], lane as [| lane]; simpl; try reflexivity.
  - contradiction.
  - apply IH. intros ->. now apply Hne.
Qed.

Lemma sds_store_ports_same (l : list rtsds_sds) (n : nat) (lo hi : Z) :
  (n < length l)%nat ->
  nth_error (sds_store_ports l n lo hi) n
  = option_map (fun x => mk_sds (sds_mode x) (sds_link x) lo hi) (nth_error l n).
Proof.
  revert n. induction l as [| x l IH]; intros n Hn; simpl in Hn; [lia |].
  destruct n as [| n]; simpl; [reflexivity |].
  apply IH. lia.
Qed.

Lemma sds_store_link_mode (l : list rtsds_sds) (n lane : nat) (link : Z) :
  option_map sds_mode (nth_error (sds_store_link l n link) lane)
  = option_map sds_mode (nth_error l lane).
Proof.
  revert n lane. induction l as [| x l IH]; intros n lane; [reflexivity |].
  destruct n as [| n], lane as [| lane]; simpl; try reflexivity.
  apply IH.
Qed.

Lemma sds_store_ports_mode (l : list rtsds_sds) (n lane : nat) (lo hi : Z) :
  option_map sds_mode (nth_error (sds_store_ports l n lo hi) lane)
  = option_map sds_mode (nth_error l lane).
Proof.
  revert n lane. induction l as [| x l IH]; intros n lane; [reflexivity |].
  destruct n as [| n], lane as [| lane]; simpl; try reflexivity.
  apply IH.
Qed.

Lemma sds_store_ports_link (l : list rtsds_sds) (n lane : nat) (lo hi : Z) :
  option_map sds_link (nth_error (sds_store_ports l n lo hi) lane)
  = option_map sds_link (nth_error l lane).
Proof.
  revert n lane. induction l as [| x l IH]; intros n lane; [reflexivity |].
  destruct n as [| n], lane as [| lane]; simpl; try reflexivity.
  apply IH.
Qed.

Lemma s32_neg_u32 (x : Z) : s32 x < 0 -> 2 ^ 31 <= u32 (s32 x).
Proof.
  intros Hneg. rewrite u32_s32. unfold s32 in Hneg.
  pose proof (u32_range x) as Hr.
  destruct (Z.ltb_spec (u32 x) (2 ^ 31)); lia.
Qed.

Lemma s32_pos_u32 (x : Z) : 0 <= s32 x -> u32 (s32 x) = s32 x.
Proof.
  intros Hpos. rewrite u32_s32. unfold s32 in *.
  pose proof (u32_range x) as Hr.
  destruct (Z.ltb_spec (u32 x) (2 ^ 31)); lia.
Qed.

Section Xlate.
Context {D : Type} `{Device D}.

(** What [rtsds_simple_xlate] answers, by cases on the four cells. *)
Lemma rtsds_simple_xlate_cases (c : rtsds_ctrl D) (a0 a1 a2 a3 : Z) :
  0 <= max_sds (conf c) < 2 ^ 31 ->
  (0 <= s32 a0 <= max_sds (conf c) /\ 0 <= s32 a1 <= max_sds (conf c) /\
   0 <= s32 a2 <= s32 a3 /\
   rtsds_simple_xlate [a0; a1; a2; a3] c
   = (inr (s32 a0),
      mk_ctrl (ctrl_io c) (sds_mask c) (conf c)
        (sds_store_ports
           (sds_store_link
              (sds_store_link (sds c) (Z.to_nat (s32 a0)) (s32 a1))
              (Z.to_nat (s32 a1)) (s32 a0))
           (Z.to_nat (s32 a0)) (s32 a2) (s32 a3))
        (sequence c))) \/
  (~ (0 <= s32 a0 <= max_sds (conf c) /\ 0 <= s32 a1 <= max_sds (conf c) /\
      0 <= s32 a2 <= s32 a3) /\
   rtsds_simple_xlate [a0; a1; a2; a3] c = (inl (- EINVAL), c)).
Proof.
  intros Hmax. unfold rtsds_simple_xlate.
  cbn [length nth Z.of_nat Pos.of_succ_nat Pos.succ Z.eqb Pos.eqb negb].
  destruct (Z.ltb_spec (s32 a0) 0) as [Hneg0 | Hpos0]; cbn [orb].
  { right. split; [lia | reflexivity]. }
  rewrite (s32_pos_u32 a0 Hpos0).
  destruct (Z.gtb_spec (s32 a0) (max_sds (conf c))) as [Hgt0 | Hle0].
  { right. split; [lia | reflexivity]. }
  destruct (Z.ltb_spec (s32 a1) (-1)) as [Hneg1 | Hge1]; cbn [orb].
  { right. split; [lia | reflexivity]. }
  destruct (Z.gtb_spec (u32 (s32 a1)) (max_sds (conf c))) as [Hgt1 | Hle1].
  { right. split; [| reflexivity].
    intros (_ & H1 & _). rewrite (s32_pos_u32 a1) in Hgt1; lia. }
  assert (Hpos1 : 0 <= s32 a1).
  { destruct (Z.ltb_spec (s32 a1) 0) as [Hn | Hp]; [| exact Hp].
    pose proof (s32_neg_u32 a1 Hn). lia. }
  rewrite (s32_pos_u32 a1 Hpos1) in Hle1.
  destruct (Z.ltb_spec (s32 a2) 0) as [Hneg2 | Hpos2].
  { right. split; [lia | reflexivity]. }
  destruct (Z.ltb_spec (s32 a3) (s32 a2)) as [Hlt3 | Hge3].
  { right. split; [lia | reflexivity]. }
  left. repeat split; try lia.
  destruct (Z.geb_spec (s32 a1) 0) as [_ | Hn]; [reflexivity | lia].
Qed.

(** X16.  [rtsds_simple_xlate] hands out the phy of a lane exactly when
    the phandle has four cells, the lane and the companion lane are both
    between 0 and the family's last lane, and 0 <= MinPort <= MaxPort;
    the lane returned is the first cell.  Every other phandle is answered
    [-EINVAL] with the controller unchanged.  That includes the companion
    cell -1 (0xffffffff): it passes the test [sid2 < -1], and in the test
    against [max_sds], an unsigned number, it is compared as 4294967295. *)
Theorem rtsds_simple_xlate_accepts_iff (c : rtsds_ctrl D) (args : list Z) :
  0 <= max_sds (conf c) < 2 ^ 31 ->
  (forall sid,
      fst (rtsds_simple_xlate args c) = inr sid <->
      exists a0 a1 a2 a3,
        args = [a0; a1; a2; a3] /\ sid = s32 a0 /\
        0 <= s32 a0 <= max_sds (conf c) /\ 0 <= s32 a1 <= max_sds (conf c) /\
        0 <= s32 a2 <= s32 a3) /\
  (forall e, fst (rtsds_simple_xlate args c) = inl e ->
             e = - EINVAL /\ snd (rtsds_simple_xlate args c) = c) /\
  (forall a0 a2 a3,
      rtsds_simple_xlate [a0; 0xffffffff; a2; a3] c = (inl (- EINVAL), c)).
Proof.
  intros Hmax.
  assert (Hshort : (length args <> 4)%nat ->
                   rtsds_simple_xlate args c = (inl (- EINVAL), c)).
  { intros Hlen. unfold rtsds_simple_xlate.
    destruct (Z.eqb_spec (Z.of_nat (length args)) 4) as [Heq | _];
      [lia | reflexivity]. }
  split; [| split].
  - intros sid. split.
    + intros Hok.
      destruct args as [| a0 [| a1 [| a2 [| a3 [| a4 rest]]]]];
        try (rewrite Hshort in Hok by (simpl; lia); discriminate).
      destruct (rtsds_simple_xlate_cases c a0 a1 a2 a3 Hmax)
        as [(H0 & H1 & H2 & Heq) | (_ & Heq)];
        rewrite Heq in Hok; [| discriminate].
      injection Hok as <-.
      exists a0, a1, a2, a3. repeat split; lia.
    + intros (a0 & a1 & a2 & a3 & -> & -> & H0 & H1 & H2).
      destruct (rtsds_simple_xlate_cases c a0 a1 a2 a3 Hmax)
        as [(_ & _ & _ & Heq) | (Hno & _)]; [| tauto].
      now rewrite Heq.
  - intros e He.
    destruct args as [| a0 [| a1 [| a2 [| a3 [| a4 rest]]]]];
      try (rewrite Hshort in He |- * by (simpl; lia);
           injection He as <-; split; reflexivity).
    destruct (rtsds_simple_xlate_cases c a0 a1 a2 a3 Hmax)
      as [(_ & _ & _ & Heq) | (_ & Heq)];
      rewrite Heq in He |- *; [discriminate |].
    injection He as <-. split; reflexivity.
  - intros a0 a2 a3.
    destruct (rtsds_simple_xlate_cases c a0 0xffffffff a2 a3 Hmax)
      as [(_ & H1 & _) | (_ & Heq)]; [| exact Heq].
    change (s32 0xffffffff) with (-1) in H1. lia.
Qed.

(** X17.  When [rtsds_simple_xlate] accepts a phandle whose two lanes
    are inside the lane table, the lane records the companion as its
    link and the companion records the lane, the lane takes the port
    range, no stored mode changes, every other lane record is as before
    and nothing else of the controller is touched. *)
Theorem rtsds_simple_xlate_links (c : rtsds_ctrl D) (a0 a1 a2 a3 : Z) :
  0 <= max_sds (conf c) < 2 ^ 31 ->
  0 <= s32 a0 <= max_sds (conf c) -> 0 <= s32 a1 <= max_sds (conf c) ->
  0 <= s32 a2 <= s32 a3 ->
  (Z.to_nat (s32 a0) < length (sds c))%nat ->
  (Z.to_nat (s32 a1) < length (sds c))%nat ->
  let sid := Z.to_nat (s32 a0) in
  let sid2 := Z.to_nat (s32 a1) in
  let c' := snd (rtsds_simple_xlate [a0; a1; a2; a3] c) in
  fst (rtsds_simple_xlate [a0; a1; a2; a3] c) = inr (s32 a0) /\
  option_map sds_link (nth_error (sds c') sid) = Some (s32 a1) /\
  option_map sds_link (nth_error (sds c') sid2) = Some (s32 a0) /\
  option_map sds_min_port (nth_error (sds c') sid) = Some (s32 a2) /\
  option_map sds_max_port (nth_error (sds c') sid) = Some (s32 a3) /\
  (forall lane, option_map sds_mode (nth_error (sds c') lane)
                = option_map sds_mode (nth_error (sds c) lane)) /\
  (forall lane, lane <> sid -> lane <> sid2 ->
                nth_error (sds c') lane = nth_error (sds c) lane) /\
  ctrl_io c' = ctrl_io c /\ sds_mask c' = sds_mask c /\
  conf c' = conf c /\ sequence c' = sequence c.
Proof.
  intros Hmax H0 H1 H2 Hin0 Hin1 sid sid2 c'.
  destruct (rtsds_simple_xlate_cases c a0 a1 a2 a3 Hmax)
    as [(_ & _ & _ & Heq) | (Hno & _)]; [| tauto].
  subst c'. rewrite Heq. cbn [fst snd sds ctrl_io sds_mask conf sequence].
  fold sid. fold sid2.
  assert (Hlen1 : (sid < length (sds_store_link (sds c) sid (s32 a1)))%nat)
    by now rewrite sds_store_link_length.
  assert (Hlen2 : (sid2 < length (sds_store_link (sds c) sid (s32 a1)))%nat)
    by now rewrite sds_store_link_length.
  assert (Hlen3 : (sid < length (sds_store_link
                                   (sds_store_link (sds c) sid (s32 a1))
                                   sid2 (s32 a0)))%nat)
    by now rewrite !sds_store_link_length.
  destruct (nth_error (sds c) sid) as [x |] eqn:Ex;
    [| apply nth_error_None in Ex; lia].
  destruct (nth_error (sds c) sid2) as [y |] eqn:Ey;
    [| apply nth_error_None in Ey; lia].
  split; [reflexivity |].
  split.
  { rewrite sds_store_ports_link.
    destruct (Nat.eq_dec sid sid2) as [Heq12 | Hne12].
    - rewrite Heq12 at 2. rewrite sds_store_link_same by lia.
      rewrite <- Heq12. rewrite sds_store_link_same by lia.
      rewrite Ex. cbn [option_map sds_link].
      f_equal. unfold sid, sid2 in Heq12. lia.
    - rewrite sds_store_link_other by exact Hne12.
      rewrite sds_store_link_same by lia. now rewrite Ex. }
  split.
  { rewrite sds_store_ports_link.
    rewrite sds_store_link_same by lia.
    destruct (Nat.eq_dec sid2 sid) as [Heq21 | Hne21].
    - rewrite Heq21. rewrite sds_store_link_same by lia.
      now rewrite Ex.
    - rewrite sds_store_link_other by exact Hne21. now rewrite Ey. }
  split.
  { rewrite sds_store_ports_same by exact Hlen3.
    destruct (nth_error (sds_store_link (sds_store_link (sds c) sid (s32 a1))
                                        sid2 (s32 a0)) sid) as [z |] eqn:Ez;
      [reflexivity | apply nth_error_None in Ez; lia]. }
  split.
  { rewrite sds_store_ports_same by exact Hlen3.
    destruct (nth_error (sds_store_link (sds_store_link (sds c) sid (s32 a1))
                                        sid2 (s32 a0)) sid) as [z |] eqn:Ez;
      [reflexivity | apply nth_error_None in Ez; lia]. }
  split.
  { intros lane.
    now rewrite sds_store_ports_mode, !sds_store_link_mode. }
  split.
  { intros lane Hn1 Hn2.
    rewrite sds_store_ports_other by exact Hn1.
    rewrite sds_store_link_other by exact Hn2.
    now rewrite sds_store_link_other by exact Hn1. }
  repeat split.
Qed.

End Xlate.

Lemma rtsds_simple_xlate_accepts_iff_witness :
  rtsds_simple_xlate [4; 0xffffffff; 24; 27] (ctrl_838x 0 [])
  = (inl (- EINVAL), ctrl_838x 0 []).
Proof.
  refine (proj2 (proj2 (rtsds_simple_xlate_accepts_iff
                          (ctrl_838x 0 []) [4; 0xffffffff; 24; 27] _))
                4 24 27).
  vm_compute. split; [discriminate | reflexivity].
Defined.

Lemma rtsds_simple_xlate_links_witness :
  option_map sds_link
    (nth_error (sds (snd (rtsds_simple_xlate [4; 5; 24; 27] (ctrl_838x 0 []))))
               5)
  = Some 4.
Proof.
  refine (proj1 (proj2 (proj2
            (rtsds_simple_xlate_links (ctrl_838x 0 []) 4 5 24 27
               _ _ _ _ _ _))));
    vm_compute; try (split; discriminate); try lia;
    split; try discriminate; reflexivity.
Defined.

(** ** RTL839x mode registers over plain memory *)

Lemma rtsds_839x_submode_value (sub : Z) :
  Z.land (shl32 sub 12) 0xf000 = u32 (shl32 (Z.land sub (Z.ones 4)) 12).
Proof.
  unfold shl32. change 0xf000 with (Z.shiftl (Z.ones 4) 12).
  apply Z.bits_inj'. intros i Hi. bits_norm. bits_cmp.
Qed.

Lemma rtsds_839x_submode_field (x : Z) :
  Z.land (Z.shiftr (s32 (Z.land (shr32 (u32 x) 0) 0xffff)) 12) 0xf
  = bit_field 12 4 x.
Proof.
  assert (Hr : 0 <= Z.land (shr32 (u32 x) 0) 0xffff < 2 ^ 16)
    by (change 0xffff with (Z.ones 16); apply land_ones_range; lia).
  rewrite s32_small by lia.
  unfold bit_field, shr32. change 0xffff with (Z.ones 16).
  change 0xf with (Z.ones 4).
  apply Z.bits_inj'. intros i Hi. bits_norm. bits_cmp.
  all: replace (i + 12 + 0) with (i + 12) by lia; bits_cmp.
Qed.

Ltac lanes_0_13 H :=
  match type of H with
  | 0 <= ?sid <= 13 =>
      let Hc := fresh "Hc" in
      assert (Hc : sid = 0 \/ sid = 1 \/ sid = 2 \/ sid = 3 \/ sid = 4 \/
                   sid = 5 \/ sid = 6 \/ sid = 7 \/ sid = 8 \/ sid = 9 \/
                   sid = 10 \/ sid = 11 \/ sid = 12 \/ sid = 13) by lia;
      clear H;
      destruct Hc as [-> | [-> | [-> | [-> | [-> | [-> | [-> | [-> | [-> |
                     [-> | [-> | [-> | [-> | ->]]]]]]]]]]]]]
  end.

Lemma rtsds_839x_set_mode_ram (m : ram) (base : Z) (tr : list io_event)
      (sid cm a : Z) :
  0 <= sid <= 13 ->
  io_dev (snd (rtsds_839x_set_mode sid cm (mk_io base m tr))) a
  = set_field
      (set_field m (base + rtsds_839x_offset sid 0 4) 12 4 (RTSDS_SUBMODE cm))
      (RTSDS_839X_MAC_SERDES_IF_CTRL + s32 (Z.land (shr32 sid 1) (not32 3)))
      (s32 (shl32 (Z.land sid 7) 2)) 4 (RTSDS_MODE cm) a.
Proof.
  intros Hsid.
  transitivity
    (let A := base + rtsds_839x_offset sid 0 4 in
     let B := RTSDS_839X_MAC_SERDES_IF_CTRL
              + s32 (Z.land (shr32 sid 1) (not32 3)) in
     let sh := s32 (shl32 (Z.land sid 7) 2) in
     let V := u32 (Z.lor (Z.land (u32 (s32 (u32 (m A)))) (not32 0xf000))
                         (Z.land (shl32 (RTSDS_SUBMODE cm) 12) 0xf000)) in
     let m1 := fun x => if x =? A then V else m x in
     if a =? B
     then u32 (Z.lor (Z.land (u32 (m1 B)) (not32 (shl32 0xf sh)))
                     (u32 (shl32 (Z.land (RTSDS_MODE cm) 0xf) sh)))
     else m1 a).
  - lanes_0_13 Hsid; reflexivity.
  - cbv zeta. unfold set_field.
    rewrite u32_s32, u32_idem, rtsds_839x_submode_value.
    reflexivity.
Qed.

Lemma rtsds_839x_get_mode_ram (w : rtsds_io ram) (sid : Z) :
  0 <= sid <= 13 ->
  fst (rtsds_839x_get_mode sid w)
  = RTSDS_COMBOMODE
      (bit_field (s32 (shl32 (Z.land sid 7) 2)) 4
         (io_dev w (RTSDS_839X_MAC_SERDES_IF_CTRL
                    + s32 (Z.land (shr32 sid 1) (not32 3)))))
      (bit_field 12 4 (io_dev w (io_base w + rtsds_839x_offset sid 0 4))).
Proof.
  intros Hsid. destruct w as [base m tr]. cbn [io_dev io_base].
  rewrite <- rtsds_839x_submode_field.
  lanes_0_13 Hsid;
    match goal with
    | |- _ = RTSDS_COMBOMODE (bit_field ?s ?w ?x) _ =>
        rewrite <- (bit_field_u32 s w x) by (vm_compute; discriminate);
        rewrite <- (bit_field_u32 s w (u32 x))
          by (vm_compute; discriminate)
    end;
    reflexivity.
Qed.

Lemma rtsds_839x_set_mode_base (w : rtsds_io ram) (sid cm : Z) :
  0 <= sid <= 13 ->
  fst (rtsds_839x_set_mode sid cm w) = 0 /\
  io_base (snd (rtsds_839x_set_mode sid cm w)) = io_base w.
Proof.
  intros Hsid. destruct w as [base m tr].
  lanes_0_13 Hsid; split; reflexivity.
Qed.

Ltac mode_839x_eval :=
  repeat match goal with
         | |- context [rtsds_839x_offset ?s 0 4] =>
             let v := eval vm_compute in (rtsds_839x_offset s 0 4) in
             change (rtsds_839x_offset s 0 4) with v
         | |- context [s32 ?x] =>
             let v := eval vm_compute in (s32 x) in
             change (s32 x) with v
         | |- context [?a =? ?b] =>
             let v := eval vm_compute in (a =? b) in
             change (a =? b) with v
         end;
  cbv zeta iota.

Lemma rtsds_839x_mode_fields (m : ram) (base sid sid' mode sub : Z) :
  0 <= sid <= 13 -> 0 <= sid' <= 13 ->
  RTSDS_839X_MAC_SERDES_IF_CTRL + 4 < base ->
  let A := base + rtsds_839x_offset sid 0 4 in
  let B := RTSDS_839X_MAC_SERDES_IF_CTRL
           + s32 (Z.land (shr32 sid 1) (not32 3)) in
  let sh := s32 (shl32 (Z.land sid 7) 2) in
  let A' := base + rtsds_839x_offset sid' 0 4 in
  let B' := RTSDS_839X_MAC_SERDES_IF_CTRL
            + s32 (Z.land (shr32 sid' 1) (not32 3)) in
  let sh' := s32 (shl32 (Z.land sid' 7) 2) in
  let m' := set_field (set_field m A 12 4 sub) B sh 4 mode in
  bit_field sh' 4 (m' B')
  = (if sid' =? sid then Z.land mode 15 else bit_field sh' 4 (m B')) /\
  bit_field 12 4 (m' A')
  = (if sid' =? sid then Z.land sub 15 else bit_field 12 4 (m A')).
Proof.
  intros Hsid Hsid' Hbase.
  unfold RTSDS_839X_MAC_SERDES_IF_CTRL, RTSDS_REG, RTSDS_SWITCH_ADDR_BASE
    in Hbase |- *.
  lanes_0_13 Hsid; lanes_0_13 Hsid'; mode_839x_eval;
    (split;
     [ rewrite ?set_field_frame by lia; rewrite ?set_field_same by lia;
       reflexivity
     | rewrite ?set_field_frame by lia; rewrite ?set_field_same by lia;
       reflexivity ]).
Qed.

Lemma rtsds_839x_set_then_get (m : ram) (base : Z) (tr : list io_event)
      (sid sid' cm : Z) :
  0 <= sid <= 13 -> 0 <= sid' <= 13 ->
  RTSDS_839X_MAC_SERDES_IF_CTRL + 4 < base ->
  fst (rtsds_839x_get_mode sid'
         (snd (rtsds_839x_set_mode sid cm (mk_io base m tr))))
  = if sid' =? sid
    then RTSDS_COMBOMODE (Z.land (RTSDS_MODE cm) 0xf)
                         (Z.land (RTSDS_SUBMODE cm) 0xf)
    else fst (rtsds_839x_get_mode sid' (mk_io base m tr)).
Proof.
  intros Hsid Hsid' Hbase.
  rewrite !rtsds_839x_get_mode_ram by assumption.
  destruct (rtsds_839x_set_mode_base (mk_io base m tr) sid cm Hsid)
    as [_ Hb].
  rewrite Hb. cbn [io_base io_dev].
  rewrite !rtsds_839x_set_mode_ram by assumption.
  destruct (rtsds_839x_mode_fields m base sid sid' (RTSDS_MODE cm)
              (RTSDS_SUBMODE cm) Hsid Hsid' Hbase) as [Hm Hs].
  cbv zeta in Hm, Hs. rewrite Hm, Hs.
  destruct (sid' =? sid); reflexivity.
Qed.

(** X18.  RTL839x over plain memory, with the lane window above the
    interface control words: after [set_mode] of an in-bounds lane,
    which returns 0, [get_mode] of that lane returns the mode and the
    submode, each masked to 4 bits, and the mode read for any other lane
    is what it was before. *)
Theorem rtsds_839x_mode_roundtrip (m : ram) (base : Z) (tr : list io_event)
        (sid sid' cm : Z) :
  0 <= sid <= RTSDS_839X_MAX_SDS -> 0 <= sid' <= RTSDS_839X_MAX_SDS ->
  sid' <> sid ->
  RTSDS_839X_MAC_SERDES_IF_CTRL + 4 < base ->
  let w := mk_io base m tr in
  let w' := snd (rtsds_839x_set_mode sid cm w) in
  fst (rtsds_839x_set_mode sid cm w) = 0 /\
  fst (rtsds_839x_get_mode sid w')
  = RTSDS_COMBOMODE (Z.land (RTSDS_MODE cm) 0xf)
                    (Z.land (RTSDS_SUBMODE cm) 0xf) /\
  fst (rtsds_839x_get_mode sid' w') = fst (rtsds_839x_get_mode sid' w).
Proof.
  intros Hsid Hsid' Hne Hbase w w'.
  unfold RTSDS_839X_MAX_SDS in Hsid, Hsid'.
  subst w' w. split; [| split].
  - exact (proj1 (rtsds_839x_set_mode_base _ sid cm Hsid)).
  - rewrite rtsds_839x_set_then_get by assumption.
    now rewrite Z.eqb_refl.
  - rewrite rtsds_839x_set_then_get by assumption.
    destruct (Z.eqb_spec sid' sid); [contradiction | reflexivity].
Qed.

Lemma rtsds_839x_mode_roundtrip_witness :
  fst (rtsds_839x_get_mode 12
         (snd (rtsds_839x_set_mode 12 (RTSDS_COMBOMODE 7 5) io_zero)))
  = RTSDS_COMBOMODE 7 5.
Proof.
  refine (proj1 (proj2 (rtsds_839x_mode_roundtrip
                          ram_zero 0xbb00e780 [] 12 13 (RTSDS_COMBOMODE 7 5)
                          _ _ _ _)));
    try (unfold RTSDS_839X_MAX_SDS; lia); reflexivity.
Defined.

(** ** The write footprint of the backends *)

Section Footprint.
Context {D : Type} `{Device D}.

Lemma writes_in_ret {A : Type} (P : Z -> Prop) (b : Z) (a : A) :
  writes_in P b (ret (W := rtsds_io D) a).
Proof.
  intros w Hb. split; [exact Hb |].
  exists []. rewrite app_nil_r. split; [reflexivity | constructor].
Qed.

Lemma writes_in_bind {A B : Type} (P : Z -> Prop) (b : Z)
      (m : St (rtsds_io D) A) (k : A -> St (rtsds_io D) B) :
  writes_in P b m -> (forall a, writes_in P b (k a)) -> writes_in P b (bind m k).
Proof.
  intros Hm Hk w Hb. unfold bind.
  destruct (Hm w Hb) as [Hb1 (l1 & Ht1 & Hf1)].
  destruct (m w) as [a w1]. cbn [snd] in Hb1, Ht1.
  destruct (Hk a w1 Hb1) as [Hb2 (l2 & Ht2 & Hf2)].
  split; [exact Hb2 |].
  exists (l1 ++ l2). rewrite Ht2, Ht1, app_assoc.
  split; [reflexivity | now apply Forall_app].
Qed.

Lemma writes_in_ctrl_base {B : Type} (P : Z -> Prop) (b : Z)
      (k : Z -> St (rtsds_io D) B) :
  writes_in P b (k b) -> writes_in P b (bind ctrl_base k).
Proof.
  intros Hk w Hb. unfold bind, ctrl_base. rewrite Hb. now apply Hk.
Qed.

Lemma writes_in_weaken {A : Type} (P Q : Z -> Prop) (b : Z)
      (m : St (rtsds_io D) A) :
  (forall a, P a -> Q a) -> writes_in P b m -> writes_in Q b m.
Proof.
  intros HPQ Hm w Hb. destruct (Hm w Hb) as [Hb1 (l & Ht & Hf)].
  split; [exact Hb1 |]. exists l. split; [exact Ht |].
  eapply Forall_impl; [| exact Hf].
  intros [a | a v | lo hi | |]; simpl; auto.
Qed.

Lemma writes_in_event (P : Z -> Prop) (e : io_event) (w : rtsds_io D) (d : D) :
  writes_to P e ->
  io_base (mk_io (io_base w) d (io_trace w ++ [e])) = io_base w /\
  exists l, io_trace (mk_io (io_base w) d (io_trace w ++ [e])) = io_trace w ++ l /\
            Forall (writes_to P) l.
Proof.
  intros He. split; [reflexivity |].
  exists [e]. split; [reflexivity |]. repeat constructor. exact He.
Qed.

Lemma writes_in_ioread32 (P : Z -> Prop) (b addr : Z) :
  writes_in P b (ioread32 addr).
Proof.
  intros w Hb. unfold ioread32.
  destruct (dev_read (io_dev w) addr) as [v d].
  destruct (writes_in_event P (EvRead addr) w d I) as [Hb' Hl].
  cbn [snd]. split; [congruence | exact Hl].
Qed.

Lemma writes_in_iowrite32 (P : Z -> Prop) (b val addr : Z) :
  P addr -> writes_in P b (iowrite32 val addr).
Proof.
  intros HP w Hb. unfold iowrite32.
  destruct (writes_in_event P (EvWrite addr (u32 val)) w
              (dev_write (io_dev w) addr (u32 val)) HP) as [Hb' Hl].
  cbn [snd]. split; [congruence | exact Hl].
Qed.

Lemma writes_in_usleep_range (P : Z -> Prop) (b lo hi : Z) :
  writes_in (D := D) P b (usleep_range lo hi).
Proof.
  intros w Hb. unfold usleep_range.
  destruct (writes_in_event P (EvSleep lo hi) w (io_dev w) I) as [Hb' Hl].
  cbn [snd]. split; [congruence | exact Hl].
Qed.

Ltac writes_in_step :=
  match goal with
  | |- writes_in _ _ (bind ctrl_base _) => apply writes_in_ctrl_base
  | |- writes_in _ _ (bind _ _) => apply writes_in_bind; [| intros ?]
  | |- writes_in _ _ (ret _) => apply writes_in_ret
  | |- writes_in _ _ (ioread32 _) => apply writes_in_ioread32
  | |- writes_in _ _ (iowrite32 _ _) => apply writes_in_iowrite32
  | |- writes_in _ _ (usleep_range _ _) => apply writes_in_usleep_range
  | |- writes_in _ _ (if ?c then _ else _) => destruct c
  | |- writes_in _ _ (match ?x with _ => _ end) => destruct x
  | |- writes_in _ _ _ => solve [auto]
  end.

Ltac writes_in_solve := cbv zeta; repeat writes_in_step; try assumption.

Lemma writes_in_iomask32 (P : Z -> Prop) (b mask value addr : Z) :
  P addr -> writes_in P b (iomask32 mask value addr).
Proof. intros HP. unfold iomask32. writes_in_solve. Qed.

Lemma writes_in_when_read (P : Z -> Prop) (b : Z) (c : bool) (addr : Z) :
  writes_in P b (when_read c addr).
Proof. unfold when_read. writes_in_solve. Qed.

Lemma writes_in_rtsds_wait_idle (P : Z -> Prop) (b : Z) (n : nat) :
  writes_in P b (rtsds_wait_idle n).
Proof.
  induction n as [| n IH]; [apply writes_in_ret |].
  destruct n as [| n]; [apply writes_in_ret |].
  change (rtsds_wait_idle (S (S n)))
    with (base <- ctrl_base ;;
          v <- ioread32 base ;;
          if negb (Z.land v 1 =? 0)
          then usleep_range 50 60 ;; rtsds_wait_idle (S n)
          else ret (S n)).
  writes_in_solve.
Qed.

#[local] Hint Resolve writes_in_when_read writes_in_rtsds_wait_idle : core.

Lemma writes_in_838x_read (P : Z -> Prop) (b s p r : Z) :
  writes_in P b (rtsds_838x_read s p r).
Proof. unfold rtsds_838x_read. writes_in_solve. Qed.

Lemma writes_in_838x_mask (b s p r v m : Z) :
  writes_in (fun a => a = b + rtsds_838x_offset s p r) b
            (rtsds_838x_mask s p r v m).
Proof.
  unfold rtsds_838x_mask. writes_in_solve.
  now apply writes_in_iomask32.
Qed.

Lemma writes_in_839x_read (P : Z -> Prop) (b s p r : Z) :
  writes_in P b (rtsds_839x_read s p r).
Proof. unfold rtsds_839x_read. writes_in_solve. Qed.

Lemma writes_in_839x_mask (b s p r v m : Z) :
  writes_in (fun a => 0 <= rtsds_839x_offset s p r /\
                      a = b + rtsds_839x_offset s p r) b
            (rtsds_839x_mask s p r v m).
Proof.
  unfold rtsds_839x_mask.
  destruct ((s >? RTSDS_839X_MAX_SDS) || (p >? RTSDS_839X_MAX_PAGE) || (r >? 31));
    [apply writes_in_ret |].
  cbv zeta.
  destruct (Z.ltb_spec (rtsds_839x_offset s p r) 0) as [Hneg | Hpos];
    [apply writes_in_ret |].
  writes_in_solve; split; [exact Hpos | reflexivity].
Qed.

Lemma writes_in_930x_read (b s p r : Z) :
  writes_in (rtsds_bus_reg b) b (rtsds_930x_read s p r).
Proof.
  unfold rtsds_930x_read, rtsds_bus_reg. writes_in_solve. now left.
Qed.

#[local] Hint Resolve writes_in_930x_read : core.

Lemma writes_in_930x_mask (b s p r v m : Z) :
  writes_in (rtsds_bus_reg b) b (rtsds_930x_mask s p r v m).
Proof.
  unfold rtsds_930x_mask. writes_in_solve; unfold rtsds_bus_reg; auto.
Qed.

Lemma writes_in_931x_read (b s p r : Z) :
  writes_in (rtsds_bus_reg b) b (rtsds_931x_read s p r).
Proof.
  unfold rtsds_931x_read, rtsds_bus_reg. writes_in_solve. now left.
Qed.

#[local] Hint Resolve writes_in_931x_read : core.

Lemma writes_in_931x_mask (b s p r v m : Z) :
  writes_in (rtsds_bus_reg b) b (rtsds_931x_mask s p r v m).
Proof.
  unfold rtsds_931x_mask. writes_in_solve; unfold rtsds_bus_reg; auto.
Qed.

Lemma writes_in_for_each_sid (P : Z -> Prop) (b lo hi : Z)
      (body : Z -> St (rtsds_io D) unit) :
  (forall sid, lo <= sid <= hi -> writes_in P b (body sid)) ->
  writes_in P b (for_each_sid lo hi body).
Proof.
  intros Hbody. unfold for_each_sid.
  assert (Hin : forall k, In k (List.seq 0 (Z.to_nat (hi - lo + 1))) ->
                          lo <= lo + Z.of_nat k <= hi).
  { intros k Hk. apply in_seq in Hk. lia. }
  induction (List.seq 0 (Z.to_nat (hi - lo + 1))) as [| k l IH]; simpl.
  - apply writes_in_ret.
  - apply writes_in_bind.
    + apply Hbody. apply Hin. now left.
    + intros _. apply IH. intros k' Hk'. apply Hin. now right.
Qed.

Lemma writes_in_838x_lane_mask (b s p r v m : Z) :
  0 <= p <= RTSDS_838X_MAX_PAGE -> 0 <= r <= 31 ->
  writes_in (rtsds_838x_lane_reg b s) b (rtsds_838x_mask s p r v m).
Proof.
  intros Hp Hr.
  apply (writes_in_weaken (fun a => a = b + rtsds_838x_offset s p r));
    [| apply writes_in_838x_mask].
  intros a ->. exists p, r. auto.
Qed.

Lemma writes_in_839x_lane_mask (b s p r v m : Z) :
  0 <= p <= RTSDS_839X_MAX_PAGE -> 0 <= r <= 31 ->
  writes_in (rtsds_839x_lane_reg b s) b (rtsds_839x_mask s p r v m).
Proof.
  intros Hp Hr.
  eapply writes_in_weaken; [| apply writes_in_839x_mask].
  intros a [Hpos ->]. exists p, r. auto.
Qed.

Lemma writes_in_838x_set_mode (b s c : Z) :
  writes_in (fun a => a = RTSDS_838X_INT_MODE_CTRL \/
                      a = RTSDS_838X_SDS_MODE_SEL) b
            (rtsds_838x_set_mode s c).
Proof.
  unfold rtsds_838x_set_mode. writes_in_solve;
    apply writes_in_iomask32; auto.
Qed.

Lemma writes_in_838x_get_mode (P : Z -> Prop) (b s : Z) :
  writes_in P b (rtsds_838x_get_mode s).
Proof. unfold rtsds_838x_get_mode. writes_in_solve. Qed.

Lemma writes_in_839x_set_mode (b s c : Z) :
  writes_in (fun a => a = b + rtsds_839x_offset s 0 4 \/
                      a = RTSDS_839X_MAC_SERDES_IF_CTRL
                          + s32 (Z.land (shr32 s 1) (not32 3))) b
            (rtsds_839x_set_mode s c).
Proof.
  unfold rtsds_839x_set_mode. writes_in_solve.
  - eapply writes_in_weaken; [| apply writes_in_839x_mask].
    intros x [_ ->]. now left.
  - apply writes_in_iomask32. now right.
Qed.

Lemma writes_in_839x_get_mode (P : Z -> Prop) (b s : Z) :
  writes_in P b (rtsds_839x_get_mode s).
Proof.
  unfold rtsds_839x_get_mode. writes_in_solve.
  apply writes_in_839x_read.
Qed.

Lemma writes_in_930x_set_mode (b s c : Z) :
  writes_in (fun a => a = fst (fst (fst (rtsds_930x_mode_offset (s32 s)))) \/
                      a = snd (fst (rtsds_930x_mode_offset (s32 s)))) b
            (rtsds_930x_set_mode s c).
Proof.
  unfold rtsds_930x_set_mode.
  destruct (rtsds_930x_mode_offset (s32 s)) as [[[mr ms] sr] ss].
  cbn [fst snd]. writes_in_solve; apply writes_in_iomask32; auto.
Qed.

Lemma writes_in_930x_get_mode (P : Z -> Prop) (b s : Z) :
  writes_in P b (rtsds_930x_get_mode s).
Proof.
  unfold rtsds_930x_get_mode.
  destruct (rtsds_930x_mode_offset (s32 s)) as [[[mr ms] sr] ss].
  writes_in_solve.
Qed.

Lemma writes_in_931x_set_mode (b s c : Z) :
  writes_in (fun a => rtsds_bus_reg b a \/
                      a = RTSDS_931X_SERDES_MODE_CTRL
                          + s32 (Z.land s (not32 3))) b
            (rtsds_931x_set_mode s c).
Proof.
  unfold rtsds_931x_set_mode. writes_in_solve.
  - eapply writes_in_weaken; [| apply writes_in_931x_mask].
    intros a Ha. now left.
  - apply writes_in_iomask32. now right.
Qed.

Lemma writes_in_931x_get_mode (b s : Z) :
  writes_in (rtsds_bus_reg b) b (rtsds_931x_get_mode s).
Proof. unfold rtsds_931x_get_mode. writes_in_solve. Qed.

Lemma writes_in_838x_reset (b sid : Z) :
  writes_in (rtsds_838x_lane_reg b sid) b
            (rtsds_838x_reset rtsds_838x_conf sid).
Proof.
  assert (Hmask : forall p r v m,
             0 <= p <= 3 -> 0 <= r <= 31 ->
             writes_in (rtsds_838x_lane_reg b sid) b
                       (rtsds_838x_mask sid p r v m))
    by (intros; now apply writes_in_838x_lane_mask).
  unfold rtsds_838x_reset, rtsds_83xx_soft_reset.
  cbn [conf_mask rtsds_838x_conf].
  writes_in_solve;
    try (apply Hmask; lia);
    (apply writes_in_for_each_sid; intros s Hs;
     replace s with sid by lia; writes_in_solve; apply Hmask; lia).
Qed.

Lemma rtsds_839x_pair (sid : Z) :
  0 <= sid <= 13 ->
  s32 (Z.lor sid 1) = s32 (Z.land sid (not32 1)) + 1.
Proof.
  intros Hsid.
  assert (Hc : sid = 0 \/ sid = 1 \/ sid = 2 \/ sid = 3 \/ sid = 4 \/
               sid = 5 \/ sid = 6 \/ sid = 7 \/ sid = 8 \/ sid = 9 \/
               sid = 10 \/ sid = 11 \/ sid = 12 \/ sid = 13) by lia.
  destruct Hc as [-> | [-> | [-> | [-> | [-> | [-> | [-> | [-> | [-> |
                 [-> | [-> | [-> | [-> | ->]]]]]]]]]]]]]; reflexivity.
Qed.

Lemma writes_in_839x_reset (b sid : Z) :
  0 <= sid ->
  writes_in (fun a => rtsds_839x_lane_reg b (s32 (Z.land sid (not32 1))) a \/
                      rtsds_839x_lane_reg b (s32 (Z.lor sid 1)) a) b
            (rtsds_839x_reset rtsds_839x_conf sid).
Proof.
  intros Hpos.
  set (lo := s32 (Z.land sid (not32 1))).
  set (hi := s32 (Z.lor sid 1)).
  set (P := fun a => rtsds_839x_lane_reg b lo a \/ rtsds_839x_lane_reg b hi a).
  assert (Hlo : forall p r v m,
             0 <= p <= 11 -> 0 <= r <= 31 ->
             writes_in P b (rtsds_839x_mask lo p r v m)).
  { intros. eapply writes_in_weaken;
      [| apply (writes_in_839x_lane_mask b lo p r v m); assumption].
    intros a Ha. now left. }
  assert (Hhi : forall p r v m,
             0 <= p <= 11 -> 0 <= r <= 31 ->
             writes_in P b (rtsds_839x_mask hi p r v m)).
  { intros. eapply writes_in_weaken;
      [| apply (writes_in_839x_lane_mask b hi p r v m); assumption].
    intros a Ha. now right. }
  unfold rtsds_839x_reset. fold lo. fold hi.
  destruct (Z.gtb_spec sid RTSDS_839X_MAX_SDS) as [Hgt | Hle];
    [apply writes_in_ret |].
  unfold RTSDS_839X_MAX_SDS in Hle.
  assert (Hpair : hi = lo + 1) by (apply rtsds_839x_pair; lia).
  unfold rtsds_83xx_soft_reset. cbn [conf_mask rtsds_839x_conf].
  writes_in_solve;
    try (apply Hlo; lia); try (apply Hhi; lia);
    (apply writes_in_for_each_sid; intros s Hs;
     assert (Hs' : s = lo \/ s = hi) by lia;
     destruct Hs' as [-> | ->]; writes_in_solve;
     first [apply Hlo; lia | apply Hhi; lia]).
Qed.

Lemma writes_in_930x_reset (cf : rtsds_conf D) (b sid : Z) :
  writes_in (fun a => a = fst (fst (fst (rtsds_930x_mode_offset (s32 sid)))) \/
                      a = snd (fst (rtsds_930x_mode_offset (s32 sid)))) b
            (rtsds_930x_reset cf sid).
Proof.
  unfold rtsds_930x_reset. writes_in_solve;
    first [apply writes_in_930x_get_mode | apply writes_in_930x_set_mode].
Qed.

Lemma writes_in_931x_reset (cf : rtsds_conf D) (b sid : Z) :
  writes_in (fun a => rtsds_bus_reg b a \/
                      a = RTSDS_931X_SERDES_MODE_CTRL
                          + s32 (Z.land sid (not32 3)) \/
                      a = RTSDS_931X_PS_SERDES_OFF_MODE_CTRL) b
            (rtsds_931x_reset cf sid).
Proof.
  unfold rtsds_931x_reset. writes_in_solve; auto;
    first [ eapply writes_in_weaken; [| apply writes_in_931x_get_mode];
            intros x Hx; now left
          | eapply writes_in_weaken; [| apply writes_in_931x_set_mode];
            intros x [Hx | Hx]; auto ].
Qed.

(** X19.  What the register entries write, on any device.  The reads
    of the RTL838x and RTL839x write nothing; their masked writes write
    the word of the addressed register and nothing else (on the RTL839x
    only when the lane has the register).  On the RTL930x and RTL931x
    [read] and [mask] write the command and data registers of the bus
    and nothing else. *)
Theorem backends_write_only_their_register (b sid page reg val mask : Z) :
  (writes_in (fun _ => False) b (rtsds_838x_read sid page reg) /\
   writes_in (fun a => a = b + rtsds_838x_offset sid page reg) b
             (rtsds_838x_mask sid page reg val mask)) /\
  (writes_in (fun _ => False) b (rtsds_839x_read sid page reg) /\
   writes_in (fun a => 0 <= rtsds_839x_offset sid page reg /\
                       a = b + rtsds_839x_offset sid page reg) b
             (rtsds_839x_mask sid page reg val mask)) /\
  (writes_in (rtsds_bus_reg b) b (rtsds_930x_read sid page reg) /\
   writes_in (rtsds_bus_reg b) b (rtsds_930x_mask sid page reg val mask)) /\
  (writes_in (rtsds_bus_reg b) b (rtsds_931x_read sid page reg) /\
   writes_in (rtsds_bus_reg b) b (rtsds_931x_mask sid page reg val mask)).
Proof.
  split; [split | split; [split | split; split]].
  - apply writes_in_838x_read.
  - apply writes_in_838x_mask.
  - apply writes_in_839x_read.
  - apply writes_in_839x_mask.
  - apply writes_in_930x_read.
  - apply writes_in_930x_mask.
  - apply writes_in_931x_read.
  - apply writes_in_931x_mask.
Qed.

(** X20.  What a reset writes, on any device.  The RTL838x reset of a
    lane writes only registers of that lane; the RTL839x reset only
    registers of the lane and of the other lane of its pair; the RTL930x
    reset only the two mode words of the lane; the RTL931x reset only
    the bus registers, the mode word of the lane and the power-off
    word. *)
Theorem resets_write_only_the_lane (cf : rtsds_conf D) (b sid : Z) :
  0 <= sid ->
  writes_in (rtsds_838x_lane_reg b sid) b
            (rtsds_838x_reset rtsds_838x_conf sid) /\
  writes_in (fun a => rtsds_839x_lane_reg b (s32 (Z.land sid (not32 1))) a \/
                      rtsds_839x_lane_reg b (s32 (Z.lor sid 1)) a) b
            (rtsds_839x_reset rtsds_839x_conf sid) /\
  writes_in (fun a => a = fst (fst (fst (rtsds_930x_mode_offset (s32 sid)))) \/
                      a = snd (fst (rtsds_930x_mode_offset (s32 sid)))) b
            (rtsds_930x_reset cf sid) /\
  writes_in (fun a => rtsds_bus_reg b a \/
                      a = RTSDS_931X_SERDES_MODE_CTRL
                          + s32 (Z.land sid (not32 3)) \/
                      a = RTSDS_931X_PS_SERDES_OFF_MODE_CTRL) b
            (rtsds_931x_reset cf sid).
Proof.
  intros Hpos. split; [| split; [| split]].
  - apply writes_in_838x_reset.
  - now apply writes_in_839x_reset.
  - apply writes_in_930x_reset.
  - apply writes_in_931x_reset.
Qed.

End Footprint.

Lemma rtsds_838x_lane_reg_disjoint (b sid sid' a : Z) :
  0 <= sid <= RTSDS_838X_MAX_SDS -> 0 <= sid' <= RTSDS_838X_MAX_SDS ->
  rtsds_838x_lane_reg b sid a -> rtsds_838x_lane_reg b sid' a -> sid = sid'.
Proof.
  intros Hs Hs' (p & r & Hp & Hr & Ha) (p' & r' & Hp' & Hr' & Ha').
  assert (Heq : rtsds_838x_offset sid p r = rtsds_838x_offset sid' p' r')
    by lia.
  now apply rtsds_838x_offset_inj in Heq.
Qed.

Lemma rtsds_839x_block_check_ok : rtsds_839x_block_check = true.
Proof. vm_compute. reflexivity. Qed.

Lemma rtsds_839x_offset_block (sid page reg : Z) :
  0 <= sid <= RTSDS_839X_MAX_SDS -> 0 <= page <= RTSDS_839X_MAX_PAGE ->
  0 <= reg <= 31 -> 0 <= rtsds_839x_offset sid page reg ->
  1024 * (sid / 2) <= rtsds_839x_offset sid page reg < 1024 * (sid / 2) + 1024.
Proof.
  unfold RTSDS_839X_MAX_SDS, RTSDS_839X_MAX_PAGE. intros Hs Hp Hr Hpos.
  pose proof rtsds_839x_block_check_ok as Hall.
  unfold rtsds_839x_block_check in Hall.
  rewrite forallb_forall in Hall.
  specialize (Hall sid (zrange_In 14 sid ltac:(lia))).
  rewrite forallb_forall in Hall.
  specialize (Hall page (zrange_In 12 page ltac:(lia))).
  rewrite forallb_forall in Hall.
  specialize (Hall reg (zrange_In 32 reg ltac:(lia))).
  cbv zeta in Hall.
  apply Bool.orb_true_iff in Hall. destruct Hall as [Hneg | Hin].
  - apply Z.ltb_lt in Hneg. lia.
  - apply andb_prop in Hin. destruct Hin as [H1 H2].
    apply Z.leb_le in H1. apply Z.ltb_lt in H2. lia.
Qed.

Lemma rtsds_839x_lane_reg_disjoint (b sid sid' a : Z) :
  0 <= sid <= RTSDS_839X_MAX_SDS -> 0 <= sid' <= RTSDS_839X_MAX_SDS ->
  rtsds_839x_lane_reg b sid a -> rtsds_839x_lane_reg b sid' a ->
  sid / 2 = sid' / 2.
Proof.
  intros Hs Hs' (p & r & Hp & Hr & Hpos & Ha) (p' & r' & Hp' & Hr' & Hpos' & Ha').
  pose proof (rtsds_839x_offset_block sid p r Hs Hp Hr Hpos) as Hb.
  pose proof (rtsds_839x_offset_block sid' p' r' Hs' Hp' Hr' Hpos') as Hb'.
  lia.
Qed.

Lemma resets_write_only_the_lane_witness :
  writes_in (rtsds_838x_lane_reg 0xbb00e780 4) 0xbb00e780
            (rtsds_838x_reset (D := ram) rtsds_838x_conf 4).
Proof.
  refine (proj1 (resets_write_only_the_lane
                   (D := ram) rtsds_930x_conf 0xbb00e780 4 _)).
  lia.
Defined.

(** X21.  The registers of different lanes do not overlap.  On the
    RTL838x a word that is a register of one lane is not a register of
    another lane.  On the RTL839x every register a lane has lies in the
    1 KiB block of its lane pair (lanes 2k and 2k+1), so a register of a
    lane is never a register of a lane of another pair. *)
Theorem lane_registers_do_not_overlap (b sid sid' a : Z) :
  0 <= sid -> 0 <= sid' ->
  (sid <= RTSDS_838X_MAX_SDS -> sid' <= RTSDS_838X_MAX_SDS ->
   rtsds_838x_lane_reg b sid a -> rtsds_838x_lane_reg b sid' a ->
   sid = sid') /\
  (sid <= RTSDS_839X_MAX_SDS -> sid' <= RTSDS_839X_MAX_SDS ->
   (forall page reg,
       0 <= page <= RTSDS_839X_MAX_PAGE -> 0 <= reg <= 31 ->
       0 <= rtsds_839x_offset sid page reg ->
       1024 * (sid / 2) <= rtsds_839x_offset sid page reg
                        < 1024 * (sid / 2) + 1024) /\
   (rtsds_839x_lane_reg b sid a -> rtsds_839x_lane_reg b sid' a ->
    sid / 2 = sid' / 2)).
Proof.
  intros Hs Hs'. split.
  - intros Hm Hm'. apply rtsds_838x_lane_reg_disjoint; lia.
  - intros Hm Hm'. split.
    + intros page reg Hp Hr. apply rtsds_839x_offset_block; lia.
    + apply rtsds_839x_lane_reg_disjoint; lia.
Qed.

Lemma lane_registers_do_not_overlap_witness :
  1024 * (9 / 2) <= rtsds_839x_offset 9 10 16 < 1024 * (9 / 2) + 1024.
Proof.
  refine (proj1 (proj2 (lane_registers_do_not_overlap 0 9 8 0 _ _) _ _)
                10 16 _ _ _);
    vm_compute; first [discriminate | split; discriminate].
Defined.

(** ** Interface modes the table does not map *)

Section Unmapped.
Context {D : Type} `{Device D}.

(** The backends look at the mode and the submode of a code only. *)
Lemma conf_set_mode_fields (cf : rtsds_conf D) (sid cm cm' : Z)
      (w : rtsds_io D) :
  In cf rtsds_families ->
  RTSDS_MODE cm = RTSDS_MODE cm' -> RTSDS_SUBMODE cm = RTSDS_SUBMODE cm' ->
  conf_set_mode cf sid cm w = conf_set_mode cf sid cm' w.
Proof.
  intros Hin Hm Hs. simpl in Hin.
  destruct Hin as [<- | [<- | [<- | [<- | []]]]];
    cbn [conf_set_mode rtsds_838x_conf rtsds_839x_conf rtsds_930x_conf
         rtsds_931x_conf];
    unfold rtsds_838x_set_mode, rtsds_839x_set_mode, rtsds_930x_set_mode,
      rtsds_931x_set_mode;
    rewrite Hm, Hs; reflexivity.
Qed.

Lemma rtsds_phy_set_mode_int_fields (c : rtsds_ctrl D) (sid phymode cm cm' : Z) :
  In (conf c) rtsds_families ->
  RTSDS_MODE cm = RTSDS_MODE cm' -> RTSDS_SUBMODE cm = RTSDS_SUBMODE cm' ->
  rtsds_phy_set_mode_int sid phymode cm c
  = rtsds_phy_set_mode_int sid phymode cm' c.
Proof.
  intros Hin Hm Hs. unfold rtsds_phy_set_mode_int, bind.
  destruct (mutex_lock c) as [[] c1].
  destruct (rtsds_run_event sid RTSDS_EVENT_PRE_SET_MODE c1) as [r1 c2].
  destruct (r1 =? 0); [| reflexivity].
  unfold on_io.
  now rewrite (conf_set_mode_fields (conf c) sid cm cm' (ctrl_io c2) Hin Hm Hs).
Qed.

(** X22.  [rtsds_phy_set_mode] does not reject an interface mode that
    the family table does not map.  On a managed lane it carries out
    the whole mode change with the table's 0, which the backends, who
    look at the mode and submode of a code only, program like the code
    of mode 0 and submode 0 (the off mode on the RTL838x and RTL839x);
    and when the backend call succeeds, the lane being inside the lane
    table, the requested interface mode is what the table records for
    the lane and no other lane's stored mode changes. *)
Theorem rtsds_phy_set_mode_unmapped (c : rtsds_ctrl D) (eth sid submode : Z) :
  In (conf c) rtsds_families ->
  Z.land (sds_mask c) (BIT sid) <> 0 ->
  0 <= submode < PHY_INTERFACE_MODE_MAX ->
  nth (Z.to_nat submode) (mode_map (conf c)) 0 = 0 ->
  rtsds_phy_set_mode eth sid eth submode c
  = rtsds_phy_set_mode_int sid submode (RTSDS_COMBOMODE 0 0) c /\
  (set_mode_outcome c sid (RTSDS_COMBOMODE 0 0) = Some 0 ->
   (Z.to_nat sid < length (sds c))%nat ->
   lane_mode (snd (rtsds_phy_set_mode eth sid eth submode c)) (Z.to_nat sid)
   = Some submode /\
   forall lane : nat,
     lane <> Z.to_nat sid ->
     lane_mode (snd (rtsds_phy_set_mode eth sid eth submode c)) lane
     = lane_mode c lane).
Proof.
  intros Hin Hman Hrange Hun.
  assert (Heq : rtsds_phy_set_mode eth sid eth submode c
                = rtsds_phy_set_mode_int sid submode (RTSDS_COMBOMODE 0 0) c).
  { unfold rtsds_phy_set_mode, managed.
    destruct (Z.eqb_spec (Z.land (sds_mask c) (BIT sid)) 0) as [H0 | _];
      [contradiction |].
    rewrite Z.eqb_refl, Hun. cbn [negb].
    now apply rtsds_phy_set_mode_int_fields. }
  split; [exact Heq |].
  intros Hout Hlen. rewrite Heq.
  pose proof (rtsds_phy_set_mode_int_sds c sid submode (RTSDS_COMBOMODE 0 0))
    as Hsds.
  cbv zeta in Hsds. rewrite Hout in Hsds.
  unfold lane_mode. rewrite Hsds. split.
  - now apply sds_store_mode_same.
  - intros lane Hne. now rewrite sds_store_mode_other.
Qed.

End Unmapped.

Lemma rtsds_phy_set_mode_unmapped_witness :
  rtsds_phy_set_mode 1 4 1 PHY_INTERFACE_MODE_SGMII (ctrl_838x 0 [])
  = rtsds_phy_set_mode_int 4 PHY_INTERFACE_MODE_SGMII (RTSDS_COMBOMODE 0 0)
                           (ctrl_838x 0 []) /\
  lane_mode (snd (rtsds_phy_set_mode 1 4 1 PHY_INTERFACE_MODE_SGMII
                    (ctrl_838x 0 [])))
            (Z.to_nat 4)
  = Some PHY_INTERFACE_MODE_SGMII.
Proof.
  split.
  - refine (proj1 (rtsds_phy_set_mode_unmapped
                     (ctrl_838x 0 []) 1 4 PHY_INTERFACE_MODE_SGMII _ _ _ _)).
    + simpl. auto.
    + vm_compute. discriminate.
    + vm_compute. split; [discriminate | reflexivity].
    + reflexivity.
  - refine (proj1 (proj2 (rtsds_phy_set_mode_unmapped
                            (ctrl_838x 0 []) 1 4 PHY_INTERFACE_MODE_SGMII
                            _ _ _ _)
                         _ _)).
    + simpl. auto.
    + vm_compute. discriminate.
    + vm_compute. split; [discriminate | reflexivity].
    + reflexivity.
    + vm_compute. reflexivity.
    + vm_compute. lia.
Defined.

(** ** Setup of an RTL838x controller over plain memory *)

Lemma rtsds_838x_set_then_get (w : rtsds_io ram) (sid sid' cm : Z) :
  0 <= sid <= 5 -> 0 <= sid' <= 5 ->
  fst (rtsds_838x_get_mode sid' (snd (rtsds_838x_set_mode sid cm w)))
  = if sid' =? sid
    then RTSDS_COMBOMODE (Z.land (RTSDS_MODE cm) 0x1f)
           (if (sid =? 4) || (sid =? 5)
            then Z.land (RTSDS_SUBMODE cm) 0x7 else 0)
    else fst (rtsds_838x_get_mode sid' w).
Proof.
  intros Hsid Hsid'. destruct w as [base m tr].
  assert (Haddr : RTSDS_838X_INT_MODE_CTRL <> RTSDS_838X_SDS_MODE_SEL)
    by (vm_compute; discriminate).
  assert (Haddr' : RTSDS_838X_SDS_MODE_SEL <> RTSDS_838X_INT_MODE_CTRL)
    by (vm_compute; discriminate).
  destruct (rtsds_838x_set_mode_ram m base tr sid cm Hsid) as [_ Hdev].
  rewrite !rtsds_838x_get_mode_ram by assumption.
  rewrite Hdev. cbn [io_dev].
  destruct (Z.eqb_spec sid' sid) as [-> | Hne].
  - rewrite set_field_same by lia.
    destruct (Z.eqb_spec sid 4), (Z.eqb_spec sid 5); cbn [orb];
      try reflexivity;
      (rewrite set_field_frame by (try (left; exact Haddr); lia));
      (rewrite set_field_same by lia); reflexivity.
  - destruct (Z.eqb_spec sid 4), (Z.eqb_spec sid 5),
      (Z.eqb_spec sid' 4), (Z.eqb_spec sid' 5); cbn [orb]; try lia;
      rewrite ?set_field_frame by first [lia | left; assumption];
      reflexivity.
Qed.

Lemma rtsds_838x_get_mode_dev (w1 w2 : rtsds_io ram) (sid : Z) :
  0 <= sid <= 5 -> io_dev w1 = io_dev w2 ->
  fst (rtsds_838x_get_mode sid w1) = fst (rtsds_838x_get_mode sid w2).
Proof.
  intros Hsid Hdev. rewrite !rtsds_838x_get_mode_ram by assumption.
  now rewrite Hdev.
Qed.

Lemma rtsds_838x_get_mode_keeps_dev (w : rtsds_io ram) (sid : Z) :
  io_dev (snd (rtsds_838x_get_mode sid w)) = io_dev w.
Proof.
  destruct w as [base m tr]. unfold rtsds_838x_get_mode.
  destruct ((sid <? 0) || (sid >? RTSDS_838X_MAX_SDS)); [reflexivity |].
  destruct ((sid =? 4) || (sid =? 5)); reflexivity.
Qed.

Lemma bind_eq {W A B : Type} (m : St W A) (k : A -> St W B) (w : W) :
  bind m k w = k (fst (m w)) (snd (m w)).
Proof. unfold bind. now destruct (m w). Qed.

Lemma on_io_eq {D A : Type} `{Device D} (m : St (rtsds_io D) A)
      (c : rtsds_ctrl D) :
  on_io m c = (fst (m (ctrl_io c)),
               mk_ctrl (snd (m (ctrl_io c))) (sds_mask c) (conf c) (sds c)
                       (sequence c)).
Proof. unfold on_io. now destruct (m (ctrl_io c)). Qed.

Lemma rtsds_run_event_no_script {D : Type} `{Device D} (c : rtsds_ctrl D)
      (sid evt : Z) :
  nth (Z.to_nat evt) (sequence c) None = None ->
  snd (rtsds_run_event sid evt c) = c.
Proof.
  intros Hnone. unfold rtsds_run_event. rewrite Hnone.
  now destruct ((evt >? RTSDS_EVENT_MAX) || (sid >? max_sds (conf c))).
Qed.

Lemma rtsds_838x_off_reads_off (c : rtsds_ctrl ram) (sid : Z) :
  conf c = rtsds_838x_conf ->
  rtsds_hwmode_to_phymode c
    (RTSDS_COMBOMODE
       (Z.land (RTSDS_MODE (nth (Z.to_nat PHY_INTERFACE_MODE_NA)
                                (mode_map (conf c)) 0)) 0x1f)
       (if (sid =? 4) || (sid =? 5)
        then Z.land (RTSDS_SUBMODE (nth (Z.to_nat PHY_INTERFACE_MODE_NA)
                                        (mode_map (conf c)) 0)) 0x7
        else 0))
  = PHY_INTERFACE_MODE_NA.
Proof.
  intros Hconf. unfold rtsds_hwmode_to_phymode. rewrite Hconf.
  destruct ((sid =? 4) || (sid =? 5)); reflexivity.
Qed.

Lemma rtsds_setup_lane_838x (c : rtsds_ctrl ram) (sid : Z) :
  conf c = rtsds_838x_conf ->
  nth (Z.to_nat RTSDS_EVENT_SETUP) (sequence c) None = None ->
  0 <= sid <= 5 ->
  let c' := snd (rtsds_setup_lane sid c) in
  conf c' = conf c /\ sds_mask c' = sds_mask c /\ sequence c' = sequence c /\
  sds c'
  = sds_store_mode (sds c) (Z.to_nat sid)
      (if managed c sid then PHY_INTERFACE_MODE_NA
       else rtsds_hwmode_to_phymode c
              (fst (rtsds_838x_get_mode sid (ctrl_io c)))) /\
  fst (rtsds_838x_get_mode sid (ctrl_io c'))
  = (if managed c sid then RTSDS_COMBOMODE 0 0
     else fst (rtsds_838x_get_mode sid (ctrl_io c))) /\
  (forall sid', 0 <= sid' <= 5 -> sid' <> sid ->
                fst (rtsds_838x_get_mode sid' (ctrl_io c'))
                = fst (rtsds_838x_get_mode sid' (ctrl_io c))).
Proof.
  intros Hconf Hnone Hsid c'. subst c'.
  unfold rtsds_setup_lane. rewrite bind_eq.
  destruct (managed c sid) eqn:Hman; cbv beta iota.
  - repeat (rewrite bind_eq; cbv beta). rewrite !on_io_eq. cbn [fst snd].
    rewrite Hconf. cbn [conf_set_mode conf_get_mode rtsds_838x_conf].
    fold (rtsds_838x_conf (D := ram)). rewrite <- Hconf.
    destruct (rtsds_838x_set_mode_ram (io_dev (ctrl_io c)) (io_base (ctrl_io c))
                (io_trace (ctrl_io c)) sid
                (nth (Z.to_nat PHY_INTERFACE_MODE_NA) (mode_map (conf c)) 0)
                Hsid) as [Hret _].
    replace (mk_io (io_base (ctrl_io c)) (io_dev (ctrl_io c))
                   (io_trace (ctrl_io c))) with (ctrl_io c) in Hret
      by now destruct (ctrl_io c).
    rewrite Hret. change (0 =? 0) with true. cbv iota.
    repeat (rewrite bind_eq; cbv beta). cbn [ret fst snd].
    rewrite rtsds_run_event_no_script by exact Hnone.
    rewrite ?on_io_eq. cbn [fst snd ctrl_io conf sds sds_mask sequence].
    unfold set_sds_mode. cbn [fst snd ctrl_io conf sds sds_mask sequence].
    split; [reflexivity |]. split; [reflexivity |]. split; [reflexivity |].
    split; [| split].
    + rewrite rtsds_838x_set_then_get by assumption.
      rewrite Z.eqb_refl.
      now rewrite rtsds_838x_off_reads_off.
    + rewrite (rtsds_838x_get_mode_dev _ _ sid Hsid
                 (rtsds_838x_get_mode_keeps_dev _ sid)).
      rewrite rtsds_838x_set_then_get by assumption.
      rewrite Z.eqb_refl, Hconf.
      destruct ((sid =? 4) || (sid =? 5)); reflexivity.
    + intros sid' Hsid' Hne.
      rewrite (rtsds_838x_get_mode_dev _ _ sid' Hsid'
                 (rtsds_838x_get_mode_keeps_dev _ sid)).
      rewrite rtsds_838x_set_then_get by assumption.
      destruct (Z.eqb_spec sid' sid); [contradiction | reflexivity].
  - cbn [ret fst snd]. repeat (rewrite bind_eq; cbv beta). rewrite ?on_io_eq.
    unfold set_sds_mode. cbn [fst snd ctrl_io conf sds sds_mask sequence].
    rewrite Hconf. cbn [conf_get_mode rtsds_838x_conf].
    split; [reflexivity |]. split; [reflexivity |]. split; [reflexivity |].
    split; [reflexivity |].
    split.
    + apply rtsds_838x_get_mode_dev; [assumption |].
      apply rtsds_838x_get_mode_keeps_dev.
    + intros sid' Hsid' Hne.
      apply rtsds_838x_get_mode_dev; [assumption |].
      apply rtsds_838x_get_mode_keeps_dev.
Qed.

Lemma rtsds_hwmode_to_phymode_conf {D : Type} `{Device D}
      (c1 c2 : rtsds_ctrl D) (hwmode : Z) :
  conf c1 = conf c2 ->
  rtsds_hwmode_to_phymode c1 hwmode = rtsds_hwmode_to_phymode c2 hwmode.
Proof. intros Hc. unfold rtsds_hwmode_to_phymode. now rewrite Hc. Qed.

Lemma managed_mask {D : Type} `{Device D} (c1 c2 : rtsds_ctrl D) (sid : Z) :
  sds_mask c1 = sds_mask c2 -> managed c1 sid = managed c2 sid.
Proof. intros Hm. unfold managed. now rewrite Hm. Qed.

Lemma sds_store_mode_length (l : list rtsds_sds) (n : nat) (phymode : Z) :
  length (sds_store_mode l n phymode) = length l.
Proof.
  revert n. induction l as [| x l IH]; intros [| n]; simpl; auto.
Qed.

(** The lanes of [sids], each once, are set up one after the other. *)
Lemma rtsds_setup_lanes_838x (sids : list Z) :
  forall c : rtsds_ctrl ram,
    conf c = rtsds_838x_conf ->
    nth (Z.to_nat RTSDS_EVENT_SETUP) (sequence c) None = None ->
    NoDup sids -> (forall s, In s sids -> 0 <= s <= 5) ->
    let c' := snd (rtsds_setup_lanes sids c) in
    conf c' = conf c /\ sds_mask c' = sds_mask c /\
    sequence c' = sequence c /\ length (sds c') = length (sds c) /\
    (forall sid, 0 <= sid <= 5 -> In sid sids ->
       ((Z.to_nat sid < length (sds c))%nat ->
        lane_mode c' (Z.to_nat sid)
        = Some (if managed c sid then PHY_INTERFACE_MODE_NA
                else rtsds_hwmode_to_phymode c
                       (fst (rtsds_838x_get_mode sid (ctrl_io c))))) /\
       fst (rtsds_838x_get_mode sid (ctrl_io c'))
       = (if managed c sid then RTSDS_COMBOMODE 0 0
          else fst (rtsds_838x_get_mode sid (ctrl_io c)))) /\
    (forall sid, 0 <= sid <= 5 -> ~ In sid sids ->
       lane_mode c' (Z.to_nat sid) = lane_mode c (Z.to_nat sid) /\
       fst (rtsds_838x_get_mode sid (ctrl_io c'))
       = fst (rtsds_838x_get_mode sid (ctrl_io c))).
Proof.
  induction sids as [| s rest IH]; intros c Hconf Hnone Hnd Hrange c'.
  - subst c'. cbn [rtsds_setup_lanes ret snd].
    split; [reflexivity |]. split; [reflexivity |]. split; [reflexivity |].
    split; [reflexivity |]. split.
    + intros sid _ [].
    + intros sid _ _. split; reflexivity.
  - subst c'. cbn [rtsds_setup_lanes]. rewrite bind_eq.
    inversion Hnd as [| ? ? Hnotin Hnd']; subst.
    assert (Hs : 0 <= s <= 5) by (apply Hrange; now left).
    destruct (rtsds_setup_lane_838x c s Hconf Hnone Hs)
      as (Hc1 & Hm1 & Hq1 & Hsds1 & Hown1 & Hframe1).
    set (c1 := snd (rtsds_setup_lane s c)) in *.
    assert (Hconf1 : conf c1 = rtsds_838x_conf) by congruence.
    assert (Hnone1 : nth (Z.to_nat RTSDS_EVENT_SETUP) (sequence c1) None = None)
      by (rewrite Hq1; exact Hnone).
    destruct (IH c1 Hconf1 Hnone1 Hnd'
                (fun x Hx => Hrange x (or_intror Hx)))
      as (Hc2 & Hm2 & Hq2 & Hlen2 & Hin2 & Hout2).
    assert (Hlen1 : length (sds c1) = length (sds c))
      by (rewrite Hsds1; apply sds_store_mode_length).
    split; [congruence |]. split; [congruence |]. split; [congruence |].
    split; [congruence |]. split.
    + intros sid Hsid [<- | Hin].
      * destruct (Hout2 s Hs Hnotin) as [Hlm Hhw].
        split.
        -- intros Hlt. rewrite Hlm. unfold lane_mode. rewrite Hsds1.
           now apply sds_store_mode_same.
        -- rewrite Hhw. exact Hown1.
      * assert (Hne : sid <> s) by (intros ->; contradiction).
        destruct (Hin2 sid Hsid Hin) as [Hlm Hhw].
        rewrite (managed_mask c1 c sid Hm1) in Hlm, Hhw.
        rewrite (rtsds_hwmode_to_phymode_conf c1 c _ Hc1) in Hlm.
        rewrite (Hframe1 sid Hsid Hne) in Hlm, Hhw.
        split; [| exact Hhw].
        intros Hlt. apply Hlm. lia.
    + intros sid Hsid Hnot.
      assert (Hne : sid <> s) by (intros ->; apply Hnot; now left).
      assert (Hnot' : ~ In sid rest) by (intros Hx; apply Hnot; now right).
      destruct (Hout2 sid Hsid Hnot') as [Hlm Hhw].
      split.
      * rewrite Hlm. unfold lane_mode. rewrite Hsds1.
        rewrite sds_store_mode_other; [reflexivity | lia].
      * rewrite Hhw. now apply Hframe1.
Qed.

(** X23.  Setup of an RTL838x controller over plain memory, with no
    setup script.  A managed lane is switched off: its hardware mode
    reads as the off code afterwards and the lane table records the off
    mode.  A lane that is not managed keeps its hardware mode, and the
    lane table records the interface mode found for it by the reverse
    lookup.  Setting up the other lanes does not disturb either. *)
Theorem rtsds_setup_838x_syncs_lanes (c : rtsds_ctrl ram) (sid : Z) :
  conf c = rtsds_838x_conf ->
  nth (Z.to_nat RTSDS_EVENT_SETUP) (sequence c) None = None ->
  (6 <= length (sds c))%nat ->
  0 <= sid <= RTSDS_838X_MAX_SDS ->
  let c' := snd (rtsds_setup c) in
  (managed c sid = true ->
   fst (rtsds_838x_get_mode sid (ctrl_io c')) = RTSDS_COMBOMODE 0 0 /\
   lane_mode c' (Z.to_nat sid) = Some PHY_INTERFACE_MODE_NA) /\
  (managed c sid = false ->
   fst (rtsds_838x_get_mode sid (ctrl_io c'))
   = fst (rtsds_838x_get_mode sid (ctrl_io c)) /\
   lane_mode c' (Z.to_nat sid)
   = Some (rtsds_hwmode_to_phymode c
             (fst (rtsds_838x_get_mode sid (ctrl_io c))))) /\
  sds_mask c' = sds_mask c /\ sequence c' = sequence c.
Proof.
  intros Hconf Hnone Hlen Hsid c'. unfold RTSDS_838X_MAX_SDS in Hsid.
  subst c'. unfold rtsds_setup. rewrite Hconf.
  change (zrange (Z.to_nat (max_sds rtsds_838x_conf + 1)))
    with [0; 1; 2; 3; 4; 5].
  assert (Hnd : NoDup [0; 1; 2; 3; 4; 5])
    by (repeat constructor; simpl; lia).
  assert (Hrange : forall s, In s [0; 1; 2; 3; 4; 5] -> 0 <= s <= 5)
    by (simpl; intros s Hs; lia).
  destruct (rtsds_setup_lanes_838x [0; 1; 2; 3; 4; 5] c Hconf Hnone Hnd Hrange)
    as (_ & Hm & Hq & _ & Hin & _).
  assert (Hmem : In sid [0; 1; 2; 3; 4; 5]) by (simpl; lia).
  destruct (Hin sid Hsid Hmem) as [Hlm Hhw].
  specialize (Hlm ltac:(lia)).
  split; [| split; [| split; assumption]].
  - intros Hman. rewrite Hman in Hlm, Hhw. now split.
  - intros Hman. rewrite Hman in Hlm, Hhw. now split.
Qed.

Lemma rtsds_setup_838x_syncs_lanes_witness :
  lane_mode (snd (rtsds_setup (ctrl_838x 1 []))) 4
  = Some PHY_INTERFACE_MODE_NA.
Proof.
  refine (proj2 (proj1 (rtsds_setup_838x_syncs_lanes (ctrl_838x 1 []) 4
                          _ _ _ _) _)).
  - reflexivity.
  - reflexivity.
  - simpl. lia.
  - unfold RTSDS_838X_MAX_SDS. lia.
  - reflexivity.
Defined.

(** ** The lane table and the lifecycle operations *)

Section LaneTable.
Context {D : Type} `{Device D}.

Lemma keeps_sds_ret {A : Type} (a : A) :
  keeps_sds (ret (W := rtsds_ctrl D) a).
Proof. intros c. reflexivity. Qed.

Lemma keeps_sds_bind {A B : Type} (m : St (rtsds_ctrl D) A)
      (k : A -> St (rtsds_ctrl D) B) :
  keeps_sds m -> (forall a, keeps_sds (k a)) -> keeps_sds (bind m k).
Proof.
  intros Hm Hk c. unfold bind. specialize (Hm c).
  destruct (m c) as [a c1]. cbn [snd] in Hm. now rewrite Hk.
Qed.

Lemma keeps_sds_on_io {A : Type} (m : St (rtsds_io D) A) : keeps_sds (on_io m).
Proof. intros c. apply on_io_sds. Qed.

Lemma keeps_sds_run_event (sid evt : Z) :
  keeps_sds (D := D) (rtsds_run_event sid evt).
Proof. intros c. apply rtsds_run_event_sds. Qed.

Lemma keeps_sds_lock : keeps_sds (D := D) mutex_lock.
Proof. intros c. reflexivity. Qed.

Lemma keeps_sds_unlock : keeps_sds (D := D) mutex_unlock.
Proof. intros c. reflexivity. Qed.

Ltac keeps_sds_step :=
  match goal with
  | |- keeps_sds (bind _ _) => apply keeps_sds_bind; [| intros ?]
  | |- keeps_sds (ret _) => apply keeps_sds_ret
  | |- keeps_sds (on_io _) => apply keeps_sds_on_io
  | |- keeps_sds (rtsds_run_event _ _) => apply keeps_sds_run_event
  | |- keeps_sds mutex_lock => apply keeps_sds_lock
  | |- keeps_sds mutex_unlock => apply keeps_sds_unlock
  | |- keeps_sds (if ?b then _ else _) => destruct b
  end.

Lemma lifecycle_keeps_sds (c : rtsds_ctrl D) (sid : Z)
      (reset : rtsds_conf D -> Z -> St (rtsds_io D) Z) :
  sds (snd (rtsds_phy_init sid c)) = sds c /\
  sds (snd (rtsds_phy_power_on sid c)) = sds c /\
  sds (snd (rtsds_phy_power_off sid c)) = sds c /\
  sds (snd (rtsds_phy_reset reset sid c)) = sds c.
Proof.
  unfold rtsds_phy_init, rtsds_phy_power_on, rtsds_phy_power_off,
    rtsds_phy_reset, rtsds_phy_reset_int.
  destruct (negb (managed c sid)); [repeat split |].
  split; [| split; [| split]];
    match goal with
    | |- sds (snd (?m c)) = sds c =>
        assert (Hk : keeps_sds m) by (repeat keeps_sds_step); apply Hk
    end.
Qed.

Lemma rtsds_run_event_no_script_fst (c : rtsds_ctrl D) (sid evt : Z) :
  nth (Z.to_nat evt) (sequence c) None = None ->
  evt <= RTSDS_EVENT_MAX -> sid <= max_sds (conf c) ->
  fst (rtsds_run_event sid evt c) = 0.
Proof.
  intros Hnone He Hs. unfold rtsds_run_event. rewrite Hnone.
  destruct (Z.gtb_spec evt RTSDS_EVENT_MAX); [lia |].
  destruct (Z.gtb_spec sid (max_sds (conf c))); [lia |].
  reflexivity.
Qed.

End LaneTable.

Lemma rtsds_phy_power_off_838x (c : rtsds_ctrl ram) (sid : Z) :
  conf c = rtsds_838x_conf ->
  managed c sid = true -> 0 <= sid <= 5 ->
  nth (Z.to_nat RTSDS_EVENT_PRE_POWER_OFF) (sequence c) None = None ->
  nth (Z.to_nat RTSDS_EVENT_POST_POWER_OFF) (sequence c) None = None ->
  fst (rtsds_phy_power_off sid c) = 0 /\
  fst (rtsds_838x_get_mode sid (ctrl_io (snd (rtsds_phy_power_off sid c))))
  = RTSDS_COMBOMODE 0 0.
Proof.
  intros Hconf Hman Hsid Hpre Hpost.
  unfold rtsds_phy_power_off. rewrite Hman. cbn [negb].
  rewrite bind_eq. cbv beta.
  set (c1 := snd (mutex_lock c)).
  assert (Hc1 : conf c1 = conf c /\ sequence c1 = sequence c /\
                io_dev (ctrl_io c1) = io_dev (ctrl_io c))
    by (repeat split).
  destruct Hc1 as (Hcf1 & Hsq1 & Hdev1).
  rewrite bind_eq. cbv beta.
  assert (Hmax : sid <= max_sds (conf c1))
    by (rewrite Hcf1, Hconf; cbn; unfold RTSDS_838X_MAX_SDS; lia).
  rewrite (rtsds_run_event_no_script c1 sid RTSDS_EVENT_PRE_POWER_OFF)
    by (rewrite Hsq1; exact Hpre).
  rewrite (rtsds_run_event_no_script_fst c1 sid RTSDS_EVENT_PRE_POWER_OFF)
    by (try (rewrite Hsq1; exact Hpre); try exact Hmax;
        unfold RTSDS_EVENT_PRE_POWER_OFF, RTSDS_EVENT_MAX; lia).
  change (0 =? 0) with true. cbv iota.
  rewrite bind_eq, on_io_eq. cbv beta. cbn [fst snd].
  rewrite Hconf. cbn [conf_set_mode mode_map rtsds_838x_conf].
  set (off := nth (Z.to_nat PHY_INTERFACE_MODE_NA) _ 0).
  assert (Hret : fst (rtsds_838x_set_mode sid off (ctrl_io c1)) = 0).
  { destruct (ctrl_io c1) as [b m t].
    now destruct (rtsds_838x_set_mode_ram m b t sid off Hsid). }
  rewrite Hret. change (0 =? 0) with true. cbv iota.
  set (c2 := mk_ctrl (snd (rtsds_838x_set_mode sid off (ctrl_io c1))) _ _ _ _).
  assert (Hmax2 : sid <= max_sds (conf c2))
    by (cbn; rewrite ?Hcf1, ?Hconf; cbn; unfold RTSDS_838X_MAX_SDS; lia).
  rewrite bind_eq. cbv beta.
  rewrite (rtsds_run_event_no_script c2 sid RTSDS_EVENT_POST_POWER_OFF)
    by (cbn; rewrite ?Hsq1; exact Hpost).
  rewrite (rtsds_run_event_no_script_fst c2 sid RTSDS_EVENT_POST_POWER_OFF)
    by (try (cbn; rewrite ?Hsq1; exact Hpost); try exact Hmax2;
        unfold RTSDS_EVENT_POST_POWER_OFF, RTSDS_EVENT_MAX; lia).
  rewrite bind_eq. cbv beta. cbn [ret fst snd].
  split; [reflexivity |].
  transitivity (fst (rtsds_838x_get_mode sid
                       (snd (rtsds_838x_set_mode sid off (ctrl_io c1))))).
  - apply rtsds_838x_get_mode_dev; [exact Hsid | reflexivity].
  - rewrite rtsds_838x_set_then_get by assumption.
    rewrite Z.eqb_refl. subst off.
    destruct ((sid =? 4) || (sid =? 5)); reflexivity.
Qed.

(** X25.  Only a mode change writes the lane table: init, power_on,
    power_off and reset leave every lane record as it is, on any
    device.  power_off in particular programs the off code (shown for
    the RTL838x over plain memory, without power-off scripts: it
    returns 0 and the lane's hardware mode reads as the off code), but
    the mode stored for the lane stays what it was. *)
Theorem power_off_keeps_the_stored_mode :
  (forall (D : Type) (HD : Device D) (c : rtsds_ctrl D) (sid : Z)
          (reset : rtsds_conf D -> Z -> St (rtsds_io D) Z),
      sds (snd (rtsds_phy_init sid c)) = sds c /\
      sds (snd (rtsds_phy_power_on sid c)) = sds c /\
      sds (snd (rtsds_phy_power_off sid c)) = sds c /\
      sds (snd (rtsds_phy_reset reset sid c)) = sds c) /\
  (forall (c : rtsds_ctrl ram) (sid : Z),
      conf c = rtsds_838x_conf ->
      managed c sid = true -> 0 <= sid <= RTSDS_838X_MAX_SDS ->
      nth (Z.to_nat RTSDS_EVENT_PRE_POWER_OFF) (sequence c) None = None ->
      nth (Z.to_nat RTSDS_EVENT_POST_POWER_OFF) (sequence c) None = None ->
      fst (rtsds_phy_power_off sid c) = 0 /\
      fst (rtsds_838x_get_mode sid
             (ctrl_io (snd (rtsds_phy_power_off sid c))))
      = RTSDS_COMBOMODE 0 0 /\
      lane_mode (snd (rtsds_phy_power_off sid c)) (Z.to_nat sid)
      = lane_mode c (Z.to_nat sid)).
Proof.
  split.
  - intros D HD c sid reset. apply lifecycle_keeps_sds.
  - intros c sid Hconf Hman Hsid Hpre Hpost.
    unfold RTSDS_838X_MAX_SDS in Hsid.
    destruct (rtsds_phy_power_off_838x c sid Hconf Hman Hsid Hpre Hpost)
      as [Hret Hhw].
    split; [exact Hret |]. split; [exact Hhw |].
    unfold lane_mode.
    destruct (lifecycle_keeps_sds c sid (fun _ _ => ret 0)) as (_ & _ & Hoff & _).
    now rewrite Hoff.
Qed.

Lemma power_off_keeps_the_stored_mode_witness :
  lane_mode (snd (rtsds_phy_power_off 4 (ctrl_838x 0 []))) 4
  = lane_mode (ctrl_838x 0 []) 4.
Proof.
  refine (proj2 (proj2 (proj2 power_off_keeps_the_stored_mode
                          (ctrl_838x 0 []) 4 _ _ _ _ _))).
  - reflexivity.
  - reflexivity.
  - unfold RTSDS_838X_MAX_SDS. lia.
  - reflexivity.
  - reflexivity.
Defined.

(** ** The debug files *)

Lemma nth_list_prod {A B : Type} (l1 : list A) (l2 : list B) (d1 : A) (d2 : B)
      (m : nat) :
  length l2 = m -> (0 < m)%nat ->
  forall k, (k < length l1 * m)%nat ->
    nth k (list_prod l1 l2) (d1, d2)
    = (nth (k / m) l1 d1, nth (k mod m) l2 d2).
Proof.
  intros Hm Hpos. induction l1 as [| a l1 IH]; intros k Hk; simpl in Hk.
  - lia.
  - cbn [list_prod].
    destruct (Nat.lt_ge_cases k m) as [Hlt | Hge].
    + rewrite app_nth1 by (rewrite length_map; lia).
      rewrite Nat.div_small, Nat.mod_small by exact Hlt.
      change (a, nth k l2 d2) with ((fun y => (a, y)) (nth k l2 d2)).
      rewrite <- map_nth with (f := fun y => (a, y)).
      apply nth_indep. rewrite length_map. lia.
    + rewrite app_nth2 by (rewrite length_map; lia).
      rewrite length_map, Hm.
      rewrite IH by lia.
      replace k with ((k - m) + 1 * m)%nat at 3 4 by lia.
      rewrite Nat.div_add, Nat.Div0.mod_add by lia.
      replace ((k - m) / m + 1)%nat with (S ((k - m) / m)) by lia.
      reflexivity.
Qed.

Lemma zrange_nth (n k : nat) : (k < n)%nat -> nth k (zrange n) 0 = Z.of_nat k.
Proof.
  intros Hk. unfold zrange.
  change 0 with (Z.of_nat 0). rewrite map_nth, seq_nth by exact Hk.
  reflexivity.
Qed.

Section Debug.
Context {D : Type} `{Device D}.

Lemma zrange_length (n : nat) : length (zrange n) = n.
Proof. unfold zrange. now rewrite length_map, length_seq. Qed.

Lemma rtsds_dump_order_nth (cf : rtsds_conf D) (page reg : Z) :
  0 <= page <= max_page cf -> 0 <= reg <= 31 ->
  nth (Z.to_nat (page * 32 + reg)) (rtsds_dump_order cf) (0, 0) = (page, reg).
Proof.
  intros Hp Hr. unfold rtsds_dump_order.
  rewrite (nth_list_prod _ _ 0 0 32)
    by (rewrite ?zrange_length; simpl; lia).
  assert (Hdiv : (Z.to_nat (page * 32 + reg) / 32)%nat = Z.to_nat page).
  { replace (Z.to_nat (page * 32 + reg))
      with (Z.to_nat reg + Z.to_nat page * 32)%nat by lia.
    rewrite Nat.div_add by lia. rewrite Nat.div_small by lia. lia. }
  assert (Hmod : (Z.to_nat (page * 32 + reg) mod 32)%nat = Z.to_nat reg).
  { replace (Z.to_nat (page * 32 + reg))
      with (Z.to_nat reg + Z.to_nat page * 32)%nat by lia.
    rewrite Nat.Div0.mod_add. apply Nat.mod_small. lia. }
  rewrite Hdiv, Hmod, !zrange_nth by lia.
  f_equal; lia.
Qed.

Lemma rtsds_dbg_registers_values (cf : rtsds_conf D) (sid : Z)
      (l : list (Z * Z)) :
  forall c,
    let res := fold_right
                 (fun pr rest =>
                    v <- on_io (conf_read cf sid (fst pr) (snd pr)) ;;
                    vs <- rest ;;
                    ret (v :: vs))
                 (ret []) l c in
    ctrl_io (snd res) = rtsds_after_reads cf sid l (ctrl_io c) /\
    forall k, (k < length l)%nat ->
      nth k (fst res) 0
      = fst (conf_read cf sid (fst (nth k l (0, 0))) (snd (nth k l (0, 0)))
               (rtsds_after_reads cf sid (firstn k l) (ctrl_io c))).
Proof.
  induction l as [| pr l IH]; intros c; cbn [fold_right].
  - cbn. split; [reflexivity |]. intros k Hk. lia.
  - cbv zeta. rewrite bind_eq, on_io_eq. cbv beta. cbn [fst snd].
    set (c1 := mk_ctrl _ _ _ _ _).
    rewrite bind_eq. cbv beta.
    destruct (IH c1) as (Hio & Hval). cbv zeta in Hio, Hval.
    cbn [ret fst snd]. split.
    + rewrite Hio. reflexivity.
    + intros [| k] Hk; cbn [nth firstn].
      * reflexivity.
      * rewrite Hval by (simpl in Hk; lia). reflexivity.
Qed.


Lemma rtsds_dbg_registers_fold (cf : rtsds_conf D) (sid : Z)
      (l : list (Z * Z)) :
  conf_io_only cf ->
  forall c, conf c = cf ->
    let res := fold_right
                 (fun pr rest =>
                    v <- on_io (conf_read cf sid (fst pr) (snd pr)) ;;
                    vs <- rest ;;
                    ret (v :: vs))
                 (ret []) l c in
    io_appends (ctrl_io c) (ctrl_io (snd res)) /\
    conf (snd res) = cf /\ sds (snd res) = sds c /\
    length (fst res) = length l.
Proof.
  intros Hcf. induction l as [| pr l IH]; intros c Hc; cbn [fold_right].
  - cbn. repeat split; [apply io_appends_refl | exact Hc].
  - cbv zeta. rewrite bind_eq, on_io_eq. cbv beta. cbn [fst snd].
    set (c1 := mk_ctrl _ _ _ _ _).
    assert (Hc1 : conf c1 = cf) by exact Hc.
    rewrite bind_eq. cbv beta.
    destruct (IH c1 Hc1) as (Happ & Hconf & Hsds & Hlen).
    cbv zeta in Happ, Hconf, Hsds, Hlen.
    cbn [ret fst snd length].
    split; [| split; [| split]].
    + eapply io_appends_trans; [| exact Happ].
      subst c1. cbn [ctrl_io].
      destruct Hcf as (Hread & _). apply Hread.
    + exact Hconf.
    + rewrite Hsds. reflexivity.
    + now rewrite Hlen.
Qed.

Ltac locked_body Hcf :=
  repeat first
    [ apply ends_unlocked_unlock
    | apply ends_unlocked_bind; [| intros ?]
    | apply ctrl_io_only_rtsds_run_event; exact Hcf
    | apply ctrl_io_only_set_sds_mode
    | apply ctrl_io_only_ret
    | apply ctrl_io_only_bind; [| intros ?]
    | apply ctrl_io_only_on_io
    | match goal with
      | |- ctrl_io_only _ (if ?b then _ else _) => destruct b
      | |- ends_unlocked _ (if ?b then _ else _) => destruct b
      end ].

(** X24.  The debug files, with any of the four family backends.
    Writing the mode file runs the mode change inside one locked section
    for any lane, whether or not its bit is set in [sds_mask].  The
    registers file takes no lock and leaves the lane table as it is; it
    returns (max_page + 1) * 32 values, and the value at position
    page * 32 + reg is what the [read] entry returns for that page and
    register of the lane, called on the hardware as the reads of the
    earlier positions (the lower pages, and the lower registers of the
    page) have left it.  Nothing else is done to the hardware. *)
Theorem debug_files_and_the_lock (c : rtsds_ctrl D) (sid hwmode : Z) :
  In (conf c) rtsds_families ->
  0 <= max_page (conf c) ->
  let order := rtsds_dump_order (conf c) in
  let dump := rtsds_dbg_registers sid c in
  locked_section (io_trace (ctrl_io c))
    (io_trace (ctrl_io (snd (rtsds_dbg_mode_write sid hwmode c)))) /\
  io_appends (ctrl_io c) (ctrl_io (snd dump)) /\
  sds (snd dump) = sds c /\
  Z.of_nat (length (fst dump)) = (max_page (conf c) + 1) * 32 /\
  ctrl_io (snd dump) = rtsds_after_reads (conf c) sid order (ctrl_io c) /\
  (forall page reg,
      0 <= page <= max_page (conf c) -> 0 <= reg <= 31 ->
      let k := Z.to_nat (page * 32 + reg) in
      nth k order (0, 0) = (page, reg) /\
      nth k (fst dump) 0
      = fst (conf_read (conf c) sid page reg
               (rtsds_after_reads (conf c) sid (firstn k order) (ctrl_io c)))).
Proof.
  intros Hfam Hpage order dump.
  assert (Hcf : conf_io_only (conf c)) by now apply families_io_only.
  assert (Hlen_order : length order
                       = (Z.to_nat (max_page (conf c) + 1) * 32)%nat).
  { unfold order, rtsds_dump_order.
    now rewrite length_prod, !zrange_length. }
  split.
  - unfold rtsds_dbg_mode_write. rewrite bind_eq. cbv beta. cbn [ret snd].
    unfold rtsds_phy_set_mode_int.
    apply (locked_section_lock (conf c) _ c eq_refl).
    locked_body Hcf; try exact Hcf.
    apply (proj1 (proj2 (proj2 Hcf))).
  - subst dump. unfold rtsds_dbg_registers.
    fold (rtsds_dump_order (conf c)). fold order.
    destruct (rtsds_dbg_registers_fold (conf c) sid order Hcf c eq_refl)
      as (Happ & _ & Hsds & Hlen).
    destruct (rtsds_dbg_registers_values (conf c) sid order c)
      as (Hio & Hval).
    cbv zeta in Happ, Hsds, Hlen, Hio, Hval.
    split; [exact Happ |]. split; [exact Hsds |].
    split; [rewrite Hlen, Hlen_order; lia |].
    split; [exact Hio |].
    intros page reg Hp Hr. cbv zeta.
    pose proof (rtsds_dump_order_nth (conf c) page reg Hp Hr) as Hnth.
    fold order in Hnth.
    split; [exact Hnth |].
    rewrite Hval by (rewrite Hlen_order; lia).
    now rewrite Hnth.
Qed.

End Debug.

Lemma debug_files_and_the_lock_witness :
  nth (Z.to_nat (1 * 32 + 3))
      (fst (rtsds_dbg_registers 0 (ctrl_838x 0 []))) 0
  = fst (rtsds_838x_read 0 1 3
           (rtsds_after_reads rtsds_838x_conf 0
              (firstn (Z.to_nat (1 * 32 + 3))
                      (rtsds_dump_order (rtsds_838x_conf (D := ram))))
              io_zero)).
Proof.
  refine (proj2 (proj2 (proj2 (proj2 (proj2 (proj2
            (debug_files_and_the_lock (ctrl_838x 0 []) 0 0 _ _)))))
            1 3 _ _)).
  - simpl. auto.
  - vm_compute. discriminate.
  - vm_compute. split; discriminate.
  - lia.
Defined.

(** ** A command on an idle bus *)

Section IdleBus.
Context {D : Type} `{Device D}.










End IdleBus.


(** ** The codes of the tables and the mode registers *)

Lemma table_fits_nth (mbits sbits : Z) (table : list Z) (n : nat) :
  table_fits mbits sbits table = true ->
  nth n table 0 <> 0 ->
  RTSDS_COMBOMODE (Z.land (RTSDS_MODE (nth n table 0)) (Z.ones mbits))
                  (Z.land (RTSDS_SUBMODE (nth n table 0)) (Z.ones sbits))
  = nth n table 0.
Proof.
  intros Hfit Hnz. unfold table_fits in Hfit.
  rewrite forallb_forall in Hfit.
  destruct (Nat.lt_ge_cases n (length table)) as [Hlt | Hge].
  - specialize (Hfit _ (nth_In table 0 Hlt)).
    apply Bool.orb_true_iff in Hfit. destruct Hfit as [Hz | Hf].
    + apply Z.eqb_eq in Hz. contradiction.
    + now apply Z.eqb_eq in Hf.
  - rewrite nth_overflow in Hnz by exact Hge. contradiction.
Qed.

Lemma table_fits_838x :
  table_fits 5 3 (mode_map (rtsds_838x_conf (D := ram))) = true.
Proof. vm_compute. reflexivity. Qed.

Lemma table_fits_839x :
  table_fits 4 4 (mode_map (rtsds_839x_conf (D := ram))) = true.
Proof. vm_compute. reflexivity. Qed.

Lemma table_fits_930x :
  table_fits 5 5 (mode_map (rtsds_930x_conf (D := ram))) = true.
Proof. vm_compute. reflexivity. Qed.

(** X27.  Over plain memory every code of the RTL838x, RTL839x and
    RTL930x tables survives the mode registers: [get_mode] after
    [set_mode] of the code of a mapped interface mode returns exactly
    that code, so that the reverse lookup finds the interface mode
    again.  On the RTL838x this holds on lanes 4 and 5 and, on the other
    lanes, for the codes with submode 0; on the RTL930x it is shown for
    lanes 2 to 9. *)
Theorem table_codes_read_back (m : ram) (base : Z) (tr : list io_event)
        (phymode sid : Z) :
  0 <= phymode < PHY_INTERFACE_MODE_MAX ->
  let w := mk_io base m tr in
  let code (cf : rtsds_conf ram) := nth (Z.to_nat phymode) (mode_map cf) 0 in
  (code rtsds_838x_conf <> 0 -> 0 <= sid <= RTSDS_838X_MAX_SDS ->
   sid = 4 \/ sid = 5 \/ RTSDS_SUBMODE (code rtsds_838x_conf) = 0 ->
   fst (rtsds_838x_get_mode sid
          (snd (rtsds_838x_set_mode sid (code rtsds_838x_conf) w)))
   = code rtsds_838x_conf) /\
  (code rtsds_839x_conf <> 0 -> 0 <= sid <= RTSDS_839X_MAX_SDS ->
   RTSDS_839X_MAC_SERDES_IF_CTRL + 4 < base ->
   fst (rtsds_839x_get_mode sid
          (snd (rtsds_839x_set_mode sid (code rtsds_839x_conf) w)))
   = code rtsds_839x_conf) /\
  (code rtsds_930x_conf <> 0 -> 2 <= sid <= 9 ->
   fst (rtsds_930x_get_mode sid
          (snd (rtsds_930x_set_mode sid (code rtsds_930x_conf) w)))
   = code rtsds_930x_conf).
Proof.
  intros Hmode w code. split; [| split].
  - intros Hnz Hsid Hsub. unfold RTSDS_838X_MAX_SDS in Hsid.
    rewrite rtsds_838x_set_then_get by assumption.
    rewrite Z.eqb_refl.
    pose proof (table_fits_nth 5 3 _ (Z.to_nat phymode) table_fits_838x Hnz)
      as Hfit.
    fold (code rtsds_838x_conf) in Hfit.
    destruct (Z.eqb_spec sid 4) as [-> | H4]; cbn [orb]; [exact Hfit |].
    destruct (Z.eqb_spec sid 5) as [-> | H5]; cbn [orb]; [exact Hfit |].
    destruct Hsub as [-> | [-> | Hz]]; try contradiction.
    rewrite Hz in Hfit. exact Hfit.
  - intros Hnz Hsid Hbase. unfold RTSDS_839X_MAX_SDS in Hsid.
    subst w. rewrite rtsds_839x_set_then_get by assumption.
    rewrite Z.eqb_refl.
    exact (table_fits_nth 4 4 _ (Z.to_nat phymode) table_fits_839x Hnz).
  - intros Hnz Hsid.
    rewrite rtsds_930x_set_then_get by assumption.
    rewrite Z.eqb_refl.
    exact (table_fits_nth 5 5 _ (Z.to_nat phymode) table_fits_930x Hnz).
Qed.

Lemma table_codes_read_back_witness :
  fst (rtsds_930x_get_mode 2
         (snd (rtsds_930x_set_mode 2 (RTSDS_COMBOMODE 13 2) io_zero)))
  = RTSDS_COMBOMODE 13 2.
Proof.
  refine (proj2 (proj2 (table_codes_read_back
                          ram_zero 0xbb00e780 [] PHY_INTERFACE_MODE_QUSGMII 2
                          _)) _ _).
  - vm_compute. split; [discriminate | reflexivity].
  - vm_compute. discriminate.
  - lia.
Defined.
